(** * HeartDiseaseAI_PRACTICE: the loss library and the training entry point

    A shallow embedding of [src/losses.py] and [src/Unet_/main.py].

    - Python values that the code passes around are an inductive type
      [pyval]; exceptions are an inductive type [exn]; code that can raise
      returns [result].
    - Calls are modelled with their binding of positional arguments to the
      parameters of a [def], as Python does it, because several call sites
      of the program do not match the definitions they call.
    - A [dict] with string keys ([config], the per-epoch logs) is a
      [gmap string _]; subscripting raises [KeyError] on a missing key.
    - Tensors are torch's: the operations the code uses form the interface
      [Torch]; scalars (Python floats and one-element tensors) are idealised
      as rationals.
    - The mutable locals of a loop are passed as explicit state; [for] loops
      run through [for_each], whose body says whether the loop goes on,
      [break]s, or the function [return]s.
    - The loop over the epochs assigns to locals and writes files before a
      statement of its body may raise; it runs as an [action], which gives
      the locals as the statement leaves them together with its value or
      its exception. *)

From Stdlib Require Import ZArith QArith Qabs List Ascii String Lia Bool.
From stdpp Require Import base option list gmap strings pretty.

Open Scope string_scope.
Open Scope list_scope.
Open Scope Z_scope.

(* ===================================================================== *)
(** * Python: values, exceptions, control flow, call binding              *)
(* ===================================================================== *)

Module Py.

(** The values held by [config] and by the attributes of the loss objects. *)
Inductive pyval : Type :=
| VNone
| VBool (b : bool)
| VInt (z : Z)
| VFloat (q : Q)
| VStr (s : string).

(** The exceptions the modelled code can raise. *)
Inductive exn : Type :=
| MissingPositional (fn : string) (names : list string)
    (* TypeError: fn() missing required positional arguments *)
| TooManyPositional (fn : string) (takes given : nat)
    (* TypeError: fn() takes [takes] positional arguments but [given] were
       given; both counted without [self] *)
| BadOperand (fn : string) (v : pyval)
    (* TypeError: fn() received [v] where it needs a value of another type *)
| Unorderable (v : pyval)
    (* TypeError: an ordering comparison of [v] with a number *)
| KeyError (key : pyval)
| IndexError
| AttributeError (obj attr : string)
| NameError (name : string)
| ZeroDivisionError
| SystemExit (code : Z)
| NotSubscriptable (type_name : string).
    (* TypeError: 'type_name' object is not subscriptable *)

Inductive result (A : Type) : Type :=
| Ok (a : A)
| Raise (e : exn).
Arguments Ok {A} a.
Arguments Raise {A} e.

Definition bind {A B : Type} (m : result A) (k : A -> result B) : result B :=
  match m with
  | Ok a => k a
  | Raise e => Raise e
  end.

Definition is_ok {A : Type} (m : result A) : bool :=
  match m with Ok _ => true | Raise _ => false end.

(** [if v:] *)
Definition truthy (v : pyval) : bool :=
  match v with
  | VNone => false
  | VBool b => b
  | VInt z => negb (z =? 0)
  | VFloat q => negb (Qeq_bool q 0)
  | VStr s => negb (String.eqb s EmptyString)
  end.

(** [v == True]: [True] equals the numbers equal to one, and nothing else. *)
Definition eq_True (v : pyval) : bool :=
  match v with
  | VBool b => b
  | VInt z => z =? 1
  | VFloat q => Qeq_bool q 1
  | VNone | VStr _ => false
  end.

(** [v == s] for a string literal [s]. *)
Definition eq_str (v : pyval) (s : string) : bool :=
  match v with
  | VStr t => String.eqb t s
  | _ => false
  end.

(** [d[key]] on a dict. *)
Definition getitem {V : Type} (d : gmap string V) (key : string) : result V :=
  match d !! key with
  | Some v => Ok v
  | None => Raise (KeyError (VStr key))
  end.

(** [l[i]] on a sequence, for an index that is not negative. *)
Definition index {A : Type} (l : list A) (i : nat) : result A :=
  match l !! i with
  | Some a => Ok a
  | None => Raise IndexError
  end.

(** [int(a / b)] for integers [a] and [b]: [/] is true division and [int]
    truncates towards zero. *)
Definition int_truediv (a b : Z) : Z := Z.quot a b.

(** What one pass through a loop body decides. *)
Inductive flow (S R : Type) : Type :=
| Continue (s : S)   (* the body ran to its end *)
| Break (s : S)      (* [break] *)
| Return (r : R).    (* [return r] inside the body *)
Arguments Continue {S R} s.
Arguments Break {S R} s.
Arguments Return {S R} r.

(** [for i in items: body], with the locals of the loop in [s].  The
    result is [Continue s] when the items ran out, [Break s] when the body
    broke out of the loop, and [Return r] when the body returned. *)
Fixpoint for_each {I S R : Type} (body : I -> S -> result (flow S R))
    (items : list I) (s : S) : result (flow S R) :=
  match items with
  | [] => Ok (Continue s)
  | i :: rest =>
      match body i s with
      | Raise e => Raise e
      | Ok (Continue s') => for_each body rest s'
      | Ok (Break s') => Ok (Break s')
      | Ok (Return r) => Ok (Return r)
      end
  end.

(** [range(a, b)] *)
Definition range (a b : nat) : list nat := seq a (b - a).

(** A parameter of a [def], after [self]: its name and its default. *)
Record param (V : Type) : Type := Param {
  pname : string;
  pdefault : option V
}.
Arguments Param {V} pname pdefault.
Arguments pname {V} p.
Arguments pdefault {V} p.

(** The parameters left without an argument take their defaults; those
    with none are the missing ones. *)
Fixpoint fill_defaults {V : Type} (ps : list (param V))
    : list string * list (string * V) :=
  match ps with
  | [] => ([], [])
  | p :: rest =>
      let '(missing, bound) := fill_defaults rest in
      match pdefault p with
      | Some v => (missing, (pname p, v) :: bound)
      | None => (pname p :: missing, bound)
      end
  end.

(** Binding of the positional arguments of a call [fn(args)] to the
    parameters [ps], left to right. *)
Fixpoint bind_from {V : Type} (ps : list (param V)) (args : list V)
    : option (list (string * V) * list (param V)) :=
  match args, ps with
  | [], _ => Some ([], ps)
  | _ :: _, [] => None
  | a :: args', p :: ps' =>
      match bind_from ps' args' with
      | Some (bound, unbound) => Some ((pname p, a) :: bound, unbound)
      | None => None
      end
  end.

Definition bind_args {V : Type} (fn : string) (ps : list (param V))
    (args : list V) : result (list (string * V)) :=
  match bind_from ps args with
  | None => Raise (TooManyPositional fn (length ps) (length args))
  | Some (bound, unbound) =>
      match fill_defaults unbound with
      | ([], defaults) => Ok (bound ++ defaults)
      | (missing, _) => Raise (MissingPositional fn missing)
      end
  end.

(** The value a bound parameter has in the body of the function. *)
Fixpoint local {V : Type} (env : list (string * V)) (name : string) : option V :=
  match env with
  | [] => None
  | (n, v) :: rest => if String.eqb n name then Some v else local rest name
  end.

(** [m[i]] where [m] is a method bound to its object: a method cannot be
    subscripted. *)
Definition method_getitem {A : Type} : result A :=
  Raise (NotSubscriptable "builtin_function_or_method").

(** Statements that assign to the locals [S] of a function and may raise:
    the locals as the statement leaves them, with its value or its
    exception.  What was assigned before an exception stays assigned. *)
Definition action (S A : Type) : Type := S -> S * result A.

Definition ret {S A : Type} (a : A) : action S A := fun s => (s, Ok a).

Definition and_then {S A B : Type} (m : action S A) (k : A -> action S B)
    : action S B :=
  fun s => match m s with
           | (s', Ok a) => k a s'
           | (s', Raise e) => (s', Raise e)
           end.

(** An expression that reads no local. *)
Definition value_of {S A : Type} (m : result A) : action S A := fun s => (s, m).

(** The value of a local. *)
Definition read {S A : Type} (f : S -> A) : action S A := fun s => (s, Ok (f s)).

(** An assignment. *)
Definition assign {S : Type} (f : S -> S) : action S unit := fun s => (f s, Ok tt).

(** [for i in items: body], where the body ends by running to its end or
    by [break]. *)
Fixpoint for_each_action {I S : Type} (body : I -> action S (flow unit Empty_set))
    (items : list I) : action S unit :=
  match items with
  | [] => ret tt
  | i :: rest =>
      and_then (body i)
        (fun r => match r with
                  | Continue _ => for_each_action body rest
                  | Break _ => ret tt
                  | Return r => match r with end
                  end)
  end.

End Py.

Import Py.

Notation "'let*' x ':=' m 'in' k" := (Py.bind m (fun x => k))
  (at level 10, x pattern, m at level 100, k at level 200,
   format "'[v' 'let*'  x  ':='  m  'in' '/' k ']'").

Notation "'do*' x ':=' m 'in' k" := (Py.and_then m (fun x => k))
  (at level 10, x pattern, m at level 100, k at level 200,
   format "'[v' 'do*'  x  ':='  m  'in' '/' k ']'").

(* ===================================================================== *)
(** * torch and torchvision: the operations the loss library calls        *)
(* ===================================================================== *)

(** Tensors and the library functions applied to them.  Arguments stand
    in the order in which the source passes them.  Scalars, and tensors of
    one element that the code adds up, are rationals; torch's [inf] and
    [nan] are outside the model. *)
Class Torch (T : Type) : Type := {
  rows : T -> list T;
    (* t[0], t[1], ..., t[t.size(0) - 1] *)
  transF_crop : T -> Z -> Z -> Z -> Z -> T;
    (* torchvision.transforms.functional.crop(img, _, _, _, _) *)
  torch_cat1 : T -> T -> T;
    (* torch.cat((a, b), dim = 1) *)
  torch_softmax0 : T -> T;
    (* torch.softmax(t, dim = 0) *)
  torch_unsqueeze0 : T -> T;
    (* torch.unsqueeze(t, axis = 0) *)
  torch_sigmoid : T -> T;
  reshape_row : T -> T;
    (* t.reshape(1, -1) *)
  view_rows : T -> nat -> T;
    (* t.view(batch_num, -1) *)
  mul : T -> T -> T;
    (* a * b *)
  sum1 : T -> Q;
    (* t.sum(1), for t of one row *)
  sum_axis1 : T -> list Q;
    (* t.sum(1), one number per row *)
  F_binary_cross_entropy : T -> T -> T -> Q;
    (* F.binary_cross_entropy(input, target, weight) *)
  F_binary_cross_entropy_with_logits : T -> T -> Q
    (* F.binary_cross_entropy_with_logits(input, target) *)
}.

(** [t[i]] *)
Definition item {T : Type} `{Torch T} (t : T) (i : nat) : result T :=
  index (rows t) i.

(** [t.size(0)] *)
Definition size0 {T : Type} `{Torch T} (t : T) : nat := length (rows t).

(** Sum of numbers, from the left, starting at [0]: the value of
    [acc = 0; for q in l: acc += q]. *)
Definition Qsum (l : list Q) : Q := fold_left Qplus l 0%Q.

(** [q / n] for a Python number [q] and an [int] [n]. *)
Definition div_int (q : Q) (n : nat) : result Q :=
  match n with
  | O => Raise ZeroDivisionError
  | S _ => Ok (q / inject_Z (Z.of_nat n))%Q
  end.

(* ===================================================================== *)
(** * src/losses.py                                                       *)
(* ===================================================================== *)

Module losses.

(** [__all__] *)
Definition __all__ : list string := ["BCEDiceLoss"; "BCELoss"; "LovaszHingeLoss"].

(** The three loss classes of the file. *)
Inductive loss_class : Type := BCELoss_cls | BCEDiceLoss_cls | LovaszHingeLoss_cls.

(** The parameters of each class's [__init__] and [forward], after [self],
    as the [def] lines give them. *)
Definition init_params (c : loss_class) : list (param pyval) :=
  match c with
  | BCELoss_cls =>
      [Param "crop" (Some (VBool true)); Param "crop_batch" (Some (VBool false));
       Param "sigmoid" (Some (VBool false)); Param "softmax" (Some (VBool true))]
  | BCEDiceLoss_cls =>
      [Param "softmax" None; Param "crop" (Some (VBool true));
       Param "crop_batch" (Some (VBool false))]
  | LovaszHingeLoss_cls => []
  end.

Definition forward_params {V : Type} (c : loss_class) : list (param V) :=
  match c with
  | BCELoss_cls =>
      [Param "predict" None; Param "target" None; Param "input_shape" None;
       Param "weights" None]
  | BCEDiceLoss_cls =>
      [Param "x" None; Param "target" None; Param "input_shape" None;
       Param "weights" None]
  | LovaszHingeLoss_cls => [Param "input" None; Param "target" None]
  end.

(** ** class BCELoss

    Of this class the parameters of [forward] (above) and the cropping
    helper are embedded. *)
Module BCELoss.

Record t : Type := {
  crop : pyval;
  crop_batch : pyval;
  sigmoid : pyval;
  softmax : pyval
}.

Definition _crop {T : Type} `{Torch T} (self : t) (img : T) (input_shape : Z * Z) : T :=
  let '(h, w) := (fst input_shape, snd input_shape) in
  let dh := int_truediv (768 - h) 2 in
  let dw := int_truediv (1024 - w) 2 in
  let cropped := transF_crop img dw dh h w in
  cropped.

End BCELoss.

(** ** class BCEDiceLoss *)
Module BCEDiceLoss.

Record t : Type := {
  crop : pyval;
  crop_batch : pyval;
  softmax : pyval
}.

(** [BCEDiceLoss(args)]: the arguments are bound to the parameters of
    [__init__], which stores them. *)
Definition __init__ (args : list pyval) : result t :=
  let* env := bind_args "__init__" (init_params BCEDiceLoss_cls) args in
  let get name := default VNone (local env name) in
  Ok {| crop := get "crop"; crop_batch := get "crop_batch"; softmax := get "softmax" |}.

Definition _crop_single {T : Type} `{Torch T} (self : t) (img : T) (input_shape : Z * Z) : T :=
  let '(h, w) := (fst input_shape, snd input_shape) in
  let dh := int_truediv (768 - h) 2 in
  let dw := int_truediv (1024 - w) 2 in
  let cropped := transF_crop img dw dh h w in
  cropped.

(** The body of the [for] loop of [_crop_batch]; [cropped] is the local it
    updates.  The [return] stands inside the body. *)
Definition _crop_batch_body {T : Type} `{Torch T} (img : T)
    (input_shape : list Z * list Z) (i : nat) (cropped : T)
    : result (flow T T) :=
  let* h := index (fst input_shape) i in
  let* w := index (snd input_shape) i in
  let dh := int_truediv (768 - h) 2 in
  let dw := int_truediv (1024 - w) 2 in
  let* img_i := item img i in
  let cropped := torch_cat1 cropped (transF_crop img_i dw dh h w) in
  Ok (Return cropped).

(** Lines 67-80, with the expression that line 67 reads the batch size
    by as the parameter [batch_size].  A Python function whose end is
    reached returns [None]. *)
Definition _crop_batch_by {T : Type} `{Torch T} (batch_size : T -> result nat)
    (self : t) (img : T) (input_shape : list Z * list Z) : result (option T) :=
  let* n := batch_size img in
  let* h := index (fst input_shape) 0 in
  let* w := index (snd input_shape) 0 in
  let dh := int_truediv (768 - h) 2 in
  let dw := int_truediv (1024 - w) 2 in
  let* img_0 := item img 0 in
  let cropped := transF_crop img_0 dw dh h w in
  let* r := for_each (_crop_batch_body img input_shape) (range 1 n) cropped in
  match r with
  | Return cropped => Ok (Some cropped)
  | Continue _ | Break _ => Ok None
  end.

(** [img.size[0]]: [size] is a method of the tensor ([forward] calls
    [x.size(0)] in line 91, on the tensor that it passes to [_crop_batch]
    in line 115), and the subscript of a method raises [TypeError]. *)
Definition size_subscript {T : Type} (img : T) : result nat := method_getitem.

(** [img.size(0)] *)
Definition size_call {T : Type} `{Torch T} (img : T) : result nat := Ok (size0 img).

(** [_crop_batch]: line 67 reads [n = img.size[0] # batch size]. *)
Definition _crop_batch {T : Type} `{Torch T} (self : t) (img : T)
    (input_shape : list Z * list Z) : result (option T) :=
  _crop_batch_by size_subscript self img input_shape.

(** The locals that the per-sample loops of [forward] add to. *)
Record sums : Type := Sums {
  bce : Q;
  intersection : Q;
  sum_x : Q;
  sum_target : Q
}.

Definition smooth : Q := 1 # 100000.

(** Lines 98-108: the loop body of the softmax branch. *)
Definition softmax_body {T : Type} `{Torch T} (self : t) (x target : T)
    (input_shape : list Z * list Z) (weights : list T) (i : nat) (s : sums)
    : result (flow sums Q) :=
  let* x_i := item x i in
  let* h := index (fst input_shape) i in
  let* w := index (snd input_shape) i in
  let x_ := _crop_single self (torch_softmax0 x_i) (h, w) in
  let* target_i := item target i in
  let* h := index (fst input_shape) i in
  let* w := index (snd input_shape) i in
  let target_ := _crop_single self target_i (h, w) in
  let x_ := torch_unsqueeze0 x_ in
  let* weight := index weights i in
  let bce := (bce s + F_binary_cross_entropy x_ target_ weight)%Q in
  let x_ := reshape_row x_ in
  let target_ := reshape_row target_ in
  let intersection := (intersection s + sum1 (mul x_ target_))%Q in
  let sum_x := (sum_x s + sum1 x_)%Q in
  let sum_target := (sum_target s + sum1 target_)%Q in
  Ok (Continue (Sums bce intersection sum_x sum_target)).

(** Lines 121-130: the loop body of the cropped branch without softmax. *)
Definition logits_body {T : Type} `{Torch T} (self : t) (x target : T)
    (input_shape : list Z * list Z) (i : nat) (s : sums)
    : result (flow sums Q) :=
  let* x_i := item x i in
  let* h := index (fst input_shape) i in
  let* w := index (snd input_shape) i in
  let x_ := _crop_single self x_i (h, w) in
  let* target_i := item target i in
  let* h := index (fst input_shape) i in
  let* w := index (snd input_shape) i in
  let target_ := _crop_single self target_i (h, w) in
  let bce := (bce s + F_binary_cross_entropy_with_logits x_ target_)%Q in
  let x_ := reshape_row x_ in
  let target_ := reshape_row target_ in
  let intersection := (intersection s + sum1 (mul x_ target_))%Q in
  let sum_x := (sum_x s + sum1 x_)%Q in
  let sum_target := (sum_target s + sum1 target_)%Q in
  Ok (Continue (Sums bce intersection sum_x sum_target)).

(** Lines 109-113 and 131-135: what follows either loop.  With [n = 0]
    every operand is a Python number and the division by [n] raises. *)
Definition combine (s : sums) (n : nat) : result Q :=
  let dice := ((intersection s * 2 + smooth) / (sum_x s + sum_target s + smooth))%Q in
  let* dice := div_int (1 - dice)%Q n in
  let loss := ((1 # 2) * bce s + dice)%Q in
  Ok loss.

(** Lines 138-150: the loss of the whole batch, without cropping. *)
Definition uncropped {T : Type} `{Torch T} (x target : T) : Q :=
  let bce := F_binary_cross_entropy_with_logits x target in
  let x := torch_sigmoid x in
  let batch_num := size0 x in
  let x := view_rows x batch_num in
  let target := view_rows target batch_num in
  let intersection := mul x target in
  let dice :=
    map (fun '(i, (sx, st)) => ((i * 2 + smooth) / (sx + st + smooth))%Q)
        (zip (sum_axis1 intersection) (zip (sum_axis1 x) (sum_axis1 target))) in
  let dice := (1 - Qsum dice / inject_Z (Z.of_nat batch_num))%Q in
  ((1 # 2) * bce + dice)%Q.

(** A tensor operand that may be [None]. *)
Definition tensor_of {T : Type} (fn : string) (o : option T) : result T :=
  match o with
  | Some t => Ok t
  | None => Raise (BadOperand fn VNone)
  end.

Definition forward {T : Type} `{Torch T} (self : t) (x target : T)
    (input_shape : list Z * list Z) (weights : list T) : result Q :=
  let n := size0 x in
  let* r :=
    if truthy (crop self) then
      if eq_True (softmax self) then
        let* r := for_each (softmax_body self x target input_shape weights)
                    (range 0 n) (Sums 0 0 0 0) in
        match r with
        | Continue s | Break s => let* loss := combine s n in Ok (Return loss)
        | Return loss => Ok (Return loss)
        end
      else if truthy (crop_batch self) then
        let* x := _crop_batch self x input_shape in
        let* target := _crop_batch self target input_shape in
        Ok (Continue (x, target))
      else
        let* r := for_each (logits_body self x target input_shape)
                    (range 0 n) (Sums 0 0 0 0) in
        match r with
        | Continue s | Break s => let* loss := combine s n in Ok (Return loss)
        | Return loss => Ok (Return loss)
        end
    else Ok (Continue (Some x, Some target)) in
  match r with
  | Return loss => Ok loss
  | Continue (x, target) | Break (x, target) =>
      let* x := tensor_of "binary_cross_entropy_with_logits" x in
      let* target := tensor_of "binary_cross_entropy_with_logits" target in
      Ok (uncropped x target)
  end.

End BCEDiceLoss.

End losses.

(* ===================================================================== *)
(** * What the entry point takes from outside the two source files        *)
(* ===================================================================== *)

(** The modules [model] and [metrics] of the repository are not among its
    source files, and the rendering of a float as text is Python's.  What
    [main.py] uses of them is collected here. *)
Class Outside : Type := {
  float_str : Q -> string;
    (* '%s' % x for a float x *)
  MODEL_NAMES : list string;
    (* model.__all__ *)
  model_value : Type;
    (* what a class or a function of the module model returns when called *)
  model__dict__ : gmap string (list pyval -> result model_value)
    (* model.__dict__: the classes and functions of the module, by name *)
}.

Class Metrics (T : Type) : Type := {
  iou_score : T -> T -> list Z * list Z -> Q
    (* metrics.iou_score(output, target, input_shape) *)
}.

(* ===================================================================== *)
(** * src/Unet_/main.py                                                   *)
(* ===================================================================== *)

Module main.

(** [LOSS_NAMES = losses.__all__] followed by
    [LOSS_NAMES.append("BCEWithLogitsLoss")]. *)
Definition LOSS_NAMES : list string := losses.__all__ ++ ["BCEWithLogitsLoss"].

(** ** parse_args *)

(** The [type=] of an argument: what its text is converted to. *)
Inductive arg_type : Type := type_str | type_int | type_float | type_str2bool.

Definition has_type (ty : arg_type) (v : pyval) : bool :=
  match ty, v with
  | type_str, VStr _ | type_int, VInt _ | type_float, VFloat _
  | type_str2bool, VBool _ => true
  | _, _ => false
  end.

(** One [parser.add_argument('--dest', default = ..., type = ..., choices = ...)]. *)
Record argument : Type := Argument {
  dest : string;
  default_ : pyval;
  type_ : arg_type;
  choices : option (list string)
}.

(** The fifteen [add_argument] calls of [parse_args], in their order.  The
    default of [--momentum] is the text ['0.09'], which argparse converts
    with the argument's type. *)
Definition arguments `{Outside} : list argument :=
  [ Argument "name" VNone type_str None;
    Argument "model" (VStr "UNetPP") type_str (Some MODEL_NAMES);
    Argument "loss" (VStr "BCEDiceLoss") type_str (Some LOSS_NAMES);
    Argument "deep_supervision" (VBool false) type_str2bool None;
    Argument "num_classes" (VInt 1) type_int None;
    Argument "threshold" (VFloat (1 # 2)) type_float None;
    Argument "input_channel_num" (VInt 4) type_int None;
    Argument "lr" (VFloat (1 # 1000)) type_float None;
    Argument "start_filter" (VInt 32) type_int None;
    Argument "scheduler" (VStr "ReduceLROnPlateau") type_str
      (Some ["ReduceLROnPlateau"; "CosineAnnealingLR"; "MultiStepLR"; "ConstantLR"]);
    Argument "min_lr" (VFloat (1 # 100000)) type_float None;
    Argument "patience" (VInt 5) type_int None;
    Argument "optimizer" (VStr "Adam") type_str (Some ["Adam"; "SGD"]);
    Argument "momentum" (VFloat (9 # 100)) type_float None;
    Argument "weight_decay" (VFloat (1 # 10000)) type_float None ].

(** The namespace before the command line is read: every [dest] with its
    default. *)
Definition defaults (args : list argument) : gmap string pyval :=
  list_to_map (map (fun a => (dest a, default_ a)) args).

Definition find_argument (args : list argument) (name : string) : option argument :=
  find (fun a => String.eqb (dest a) name) args.

Definition choice_ok (a : argument) (v : pyval) : bool :=
  match choices a, v with
  | None, _ => true
  | Some cs, VStr s => existsb (String.eqb s) cs
  | Some _, _ => false
  end.

(** The command line is the list of the options given, [--dest value],
    each value as its text converts.  An option that was not declared, a
    text that does not convert, and a value outside the choices end the
    program with status 2. *)
Fixpoint read_options (args : list argument) (argv : list (string * pyval))
    (ns : gmap string pyval) : result (gmap string pyval) :=
  match argv with
  | [] => Ok ns
  | (name, v) :: rest =>
      match find_argument args name with
      | None => Raise (SystemExit 2)
      | Some a =>
          if has_type (type_ a) v && choice_ok a v
          then read_options args rest (<[dest a := v]> ns)
          else Raise (SystemExit 2)
      end
  end.

(** [vars(parse_args())] *)
Definition parse_args `{Outside} (argv : list (string * pyval))
    : result (gmap string pyval) :=
  read_options arguments argv (defaults arguments).

(** ['%s' % v] *)
Definition percent_s `{Outside} (v : pyval) : string :=
  match v with
  | VNone => "None"
  | VBool true => "True"
  | VBool false => "False"
  | VInt z => pretty z
  | VFloat q => float_str q
  | VStr s => s
  end.

(** Line 158: [criterion = BCEDiceLoss().cuda()].  The configuration is
    not read. *)
Definition criterion (config : gmap string pyval) : result losses.BCEDiceLoss.t :=
  losses.BCEDiceLoss.__init__ [].

(** [model.__dict__[key]] *)
Definition model_class `{Outside} (key : pyval)
    : result (list pyval -> result model_value) :=
  match key with
  | VStr s =>
      match model__dict__ !! s with
      | Some c => Ok c
      | None => Raise (KeyError key)
      end
  | _ => Raise (KeyError key)
  end.

(** [model.attr] *)
Definition model_attr `{Outside} (attr : string)
    : result (list pyval -> result model_value) :=
  match model__dict__ !! attr with
  | Some f => Ok f
  | None => Raise (AttributeError "model" attr)
  end.

(** Lines 164-168: create model. *)
Definition create_model `{Outside} (config : gmap string pyval)
    : result model_value :=
  let* _ := getitem config "model" in
  let* m := getitem config "model" in
  if eq_str m "ARUNet" then
    let* m := getitem config "model" in
    let* cls := model_class m in
    let* num_classes := getitem config "num_classes" in
    cls [num_classes]
  else
    let* m := getitem config "model" in
    let* cls := model_class m in
    let* num_classes := getitem config "num_classes" in
    let* input_channels := getitem config "input_channels" in
    let* deep_supervision := getitem config "deep_supervision" in
    cls [num_classes; input_channels; deep_supervision].

(** ** os.path and glob, as lines 187-191 use them *)

Definition sep : ascii := "/"%char.
Definition extsep : ascii := "."%char.

(** [s.split(c)] *)
Fixpoint split_on (c : ascii) (s : string) : list string :=
  match s with
  | EmptyString => [EmptyString]
  | String a s' =>
      match split_on c s' with
      | hd :: tl =>
          if Ascii.eqb a c then EmptyString :: hd :: tl else String a hd :: tl
      | [] => []
      end
  end.

(** [s.rfind(c)], counted from position [i] of the whole text. *)
Fixpoint rfind_from (c : ascii) (s : string) (i : nat) : option nat :=
  match s with
  | EmptyString => None
  | String a s' =>
      match rfind_from c s' (S i) with
      | Some j => Some j
      | None => if Ascii.eqb a c then Some i else None
      end
  end.

Definition rfind (c : ascii) (s : string) : option nat := rfind_from c s 0.

(** [os.path.join(a, b)] *)
Definition join2 (a b : string) : string :=
  if String.prefix "/" b then b
  else match rfind sep a with
       | Some i =>
           if Nat.eqb (S i) (String.length a) then a ++ b else a ++ "/" ++ b
       | None =>
           match a with
           | EmptyString => b
           | _ => a ++ "/" ++ b
           end
       end.

(** [os.path.basename(p)] *)
Definition basename (p : string) : string :=
  match rfind sep p with
  | Some i => String.substring (S i) (String.length p - S i) p
  | None => p
  end.

(** [os.path.splitext(p)]: the extension starts at the last dot of the
    last component, unless only dots stand before it there. *)
Definition splitext (p : string) : string * string :=
  let filename_index := match rfind sep p with Some i => S i | None => O end in
  match rfind extsep p with
  | Some dot_index =>
      let before := String.substring filename_index (dot_index - filename_index) p in
      if Nat.leb filename_index dot_index
         && existsb (fun a => negb (Ascii.eqb a extsep)) (list_ascii_of_string before)
      then (String.substring 0 dot_index p,
            String.substring dot_index (String.length p - dot_index) p)
      else (p, EmptyString)
  | None => (p, EmptyString)
  end.

(** What a function of [os.path] returns: a text or a pair of texts. *)
Inductive path_value : Type :=
| Text (s : string)
| Pair (a b : string).

Definition path_function : Type := list string -> result path_value.

(** The functions of the module [os.path] that exist under the names
    the program could mean. *)
Definition os_path__dict__ : list (string * path_function) :=
  [ ("join", fun args =>
       match args with
       | [] => Raise (MissingPositional "join" ["a"])
       | a :: rest => Ok (Text (fold_left join2 rest a))
       end);
    ("basename", fun args =>
       match args with
       | [p] => Ok (Text (basename p))
       | [] => Raise (MissingPositional "basename" ["p"])
       | _ => Raise (TooManyPositional "basename" 1 (length args))
       end);
    ("splitext", fun args =>
       match args with
       | [p] => let '(root, ext) := splitext p in Ok (Pair root ext)
       | [] => Raise (MissingPositional "splitext" ["p"])
       | _ => Raise (TooManyPositional "splitext" 1 (length args))
       end) ].

(** [os.path.attr] *)
Definition os_path (attr : string) : result path_function :=
  match local os_path__dict__ attr with
  | Some f => Ok f
  | None => Raise (AttributeError "os.path" attr)
  end.

(** A text where a function needs one. *)
Definition text_of (fn : string) (v : path_value) : result string :=
  match v with
  | Text s => Ok s
  | Pair _ _ => Raise (BadOperand fn VNone)
  end.

(** [v[0]] *)
Definition first_of (v : path_value) : result string :=
  match v with
  | Pair a _ => Ok a
  | Text (String a _) => Ok (String a EmptyString)
  | Text EmptyString => Raise IndexError
  end.

(** One component of a pattern against one name: [*] matches every name
    that does not start with a dot, any other component matches itself.
    (The other wildcards of [glob] are not modelled.) *)
Definition name_matches (pat name : string) : bool :=
  if String.eqb pat "*"
  then negb (String.prefix "." name) && negb (String.eqb name EmptyString)
  else String.eqb pat name.

Fixpoint names_match (pats names : list string) : bool :=
  match pats, names with
  | [], [] => true
  | pat :: pats', name :: names' => name_matches pat name && names_match pats' names'
  | _, _ => false
  end.

(** [glob(pattern)] over the paths [fs] that exist. *)
Definition glob (fs : list string) (pattern : string) : list string :=
  filter (fun p => names_match (split_on sep pattern) (split_on sep p) = true) fs.

(** A list comprehension [[f(p) for p in l]]. *)
Fixpoint comprehension {A B : Type} (f : A -> result B) (l : list A) : result (list B) :=
  match l with
  | [] => Ok []
  | a :: rest =>
      let* b := f a in
      let* bs := comprehension f rest in
      Ok (b :: bs)
  end.

(** The element expression of lines 190-191, with the attribute of
    [os.path] that it names: [os.path.<attr>(os.path.basename(p))[0]]. *)
Definition stem_by (attr : string) (p : string) : result string :=
  let* f := os_path attr in
  let* basename := os_path "basename" in
  let* b := basename [p] in
  let* b := text_of attr b in
  let* r := f [b] in
  first_of r.

(** Lines 187 and 190 ([split] is ['train']), 188 and 191 (['validation']). *)
Definition img_ids_by (attr : string) (fs : list string)
    (config : gmap string pyval) (split : string) : result (gset string) :=
  let* dataset := getitem config "dataset" in
  let* root := match dataset with
               | VStr s => Ok s
               | v => Raise (BadOperand "join" v)
               end in
  let* join := os_path "join" in
  let* pattern := join [root; split; "*"; "*"] in
  let* pattern := text_of "glob" pattern in
  let dirs := glob fs pattern in
  let* ids := comprehension (stem_by attr) dirs in
  Ok (list_to_set ids).

(** The source writes [os.path.splittext]. *)
Definition train_img_ids (fs : list string) (config : gmap string pyval)
    : result (gset string) :=
  img_ids_by "splittext" fs config "train".

Definition valid_img_ids (fs : list string) (config : gmap string pyval)
    : result (gset string) :=
  img_ids_by "splittext" fs config "validation".

(** ** train and validate *)

(** [def train(net, train_loader, criterion, optimizer, config)] *)
Definition train_params {V : Type} : list (param V) :=
  [Param "net" None; Param "train_loader" None; Param "criterion" None;
   Param "optimizer" None; Param "config" None].

(** [def validate(net, valid_loader, criterion, config)] *)
Definition validate_params {V : Type} : list (param V) :=
  [Param "net" None; Param "valid_loader" None; Param "criterion" None;
   Param "config" None].

(** The value of a name in the body of a function. *)
Definition name_ {V : Type} (env : list (string * V)) (name : string) : result V :=
  match local env name with
  | Some v => Ok v
  | None => Raise (NameError name)
  end.

(** What a function asks of an object. *)
Inductive operation (O : Type) : Type :=
| MethodCall (receiver : O) (method : string)   (* receiver.method() *)
| Len (o : O)                                   (* len(o) *)
| Iterate (o : O).                              (* for ... in o *)
Arguments MethodCall {O} receiver method.
Arguments Len {O} o.
Arguments Iterate {O} o.

(** Lines 73-77: what [train] asks of the objects bound to its parameters
    up to the head of its loop: [net.train()], [len(train_loader)],
    [for input, target, info in train_loader]. *)
Definition train_prologue {O : Type} (env : list (string * O))
    : result (list (operation O)) :=
  let* net := name_ env "net" in
  let* train_loader := name_ env "train_loader" in
  let* train_loader' := name_ env "train_loader" in
  Ok [MethodCall net "train"; Len train_loader; Iterate train_loader'].

(** Lines 112-116: the same of [validate]: [net.eval()],
    [len(valid_loader)], [for input, target, info in valid_loader]. *)
Definition validate_prologue {O : Type} (env : list (string * O))
    : result (list (operation O)) :=
  let* net := name_ env "net" in
  let* valid_loader := name_ env "valid_loader" in
  let* valid_loader' := name_ env "valid_loader" in
  Ok [MethodCall net "eval"; Len valid_loader; Iterate valid_loader'].

(** Line 242: [train(train_loader, net, criterion, optimizer, config)],
    with the objects that [main] holds under these names. *)
Definition call_train {O : Type} (train_loader net criterion optimizer config : O)
    : result (list (operation O)) :=
  let* env := bind_args "train" train_params
                [train_loader; net; criterion; optimizer; config] in
  train_prologue env.

(** Line 244: [validate(valid_loader, net, criterion, config)]. *)
Definition call_validate {O : Type} (valid_loader net criterion config : O)
    : result (list (operation O)) :=
  let* env := bind_args "validate" validate_params
                [valid_loader; net; criterion; config] in
  validate_prologue env.

(** The arguments a loss is called with. *)
Inductive value (T : Type) : Type :=
| Tensor (t : T)
| Shape (input_shape : list Z * list Z)
| Weights (weights : list T).
Arguments Tensor {T} t.
Arguments Shape {T} input_shape.
Arguments Weights {T} weights.

(** A loss object of the library: its class and the body of its
    [forward], run on the bound parameters. *)
Record loss (T : Type) : Type := Loss {
  class_ : losses.loss_class;
  forward_body : list (string * value T) -> result Q
}.
Arguments Loss {T} class_ forward_body.
Arguments class_ {T} l.
Arguments forward_body {T} l.

(** [criterion(args)]: [nn.Module.__call__] hands the arguments to
    [forward]. *)
Definition call_loss {T : Type} (criterion : loss T) (args : list (value T)) : result Q :=
  let* env := bind_args "forward" (losses.forward_params (class_ criterion)) args in
  forward_body criterion env.

(** [outputs[-1]] *)
Definition last_item {T : Type} `{Torch T} (outputs : T) : result T :=
  match last (rows outputs) with
  | Some t => Ok t
  | None => Raise IndexError
  end.

(** Lines 78-93: the loss and the score of one batch in [train], up to
    the optimizer step. *)
Definition train_batch {T : Type} `{Torch T} `{Metrics T} (net : T -> T)
    (criterion : loss T) (config : gmap string pyval)
    (input target : T) (input_shape : list Z * list Z) : result (Q * Q) :=
  let* deep_supervision := getitem config "deep_supervision" in
  if truthy deep_supervision then
    let outputs := net input in
    let* r := for_each (R := Empty_set)
                (fun output loss =>
                   let* l := call_loss criterion
                               [Tensor output; Tensor target; Shape input_shape] in
                   Ok (Continue (loss + l)%Q))
                (rows outputs) 0%Q in
    let loss := match r with
                | Continue loss | Break loss => loss
                | Return r => match r with end
                end in
    let* loss := div_int loss (size0 outputs) in
    let* last := last_item outputs in
    let ji := iou_score last target input_shape in
    Ok (loss, ji)
  else
    let output := net input in
    let* loss := call_loss criterion
                   [Tensor output; Tensor target; Shape input_shape] in
    let ji := iou_score output target input_shape in
    Ok (loss, ji).

(** Lines 117-133: the same lines of [validate]. *)
Definition validate_batch {T : Type} `{Torch T} `{Metrics T} (net : T -> T)
    (criterion : loss T) (config : gmap string pyval)
    (input target : T) (input_shape : list Z * list Z) : result (Q * Q) :=
  let* deep_supervision := getitem config "deep_supervision" in
  if truthy deep_supervision then
    let outputs := net input in
    let* r := for_each (R := Empty_set)
                (fun output loss =>
                   let* l := call_loss criterion
                               [Tensor output; Tensor target; Shape input_shape] in
                   Ok (Continue (loss + l)%Q))
                (rows outputs) 0%Q in
    let loss := match r with
                | Continue loss | Break loss => loss
                | Return r => match r with end
                end in
    let* loss := div_int loss (size0 outputs) in
    let* last := last_item outputs in
    let ji := iou_score last target input_shape in
    Ok (loss, ji)
  else
    let output := net input in
    let* loss := call_loss criterion
                   [Tensor output; Tensor target; Shape input_shape] in
    let ji := iou_score output target input_shape in
    Ok (loss, ji).

(** ** The epoch loop of main *)

(** Lines 231-233: the log, one column per key. *)
Definition new_log : gmap string (list pyval) :=
  list_to_map [("epoch", []); ("loss", []); ("lr", []); ("iou", []);
               ("valid_loss", []); ("valid_accuracy", [])].

(** The locals of [main] that the loop updates, [best_iou], [trigger]
    and [log], and what the loop has written to the file system: the
    calls of [torch.save] and the calls of [to_csv] made so far, each
    with its epoch and the path it wrote. *)
Record locals : Type := Locals {
  best_iou : Q;
  trigger : Z;
  log : gmap string (list pyval);
  saves : list (nat * string);
  written : list (nat * string)
}.

(** Lines 231-236. *)
Definition initial : locals := Locals 0 0 new_log [] [].

(** [a < b] on floats. *)
Definition Qltb (a b : Q) : bool := negb (Qle_bool b a).

(** A configuration value in a comparison with a number. *)
Definition number (v : pyval) : result Q :=
  match v with
  | VInt z => Ok (inject_Z z)
  | VFloat q => Ok q
  | VBool b => Ok (if b then 1 else 0)%Q
  | VNone | VStr _ => Raise (Unorderable v)
  end.

(** [range(v)] *)
Definition range_of (v : pyval) : result (list nat) :=
  match v with
  | VInt z => Ok (range 0 (Z.to_nat z))
  | VBool b => Ok (range 0 (if b then 1 else 0)%nat)
  | _ => Raise (BadOperand "range" v)
  end.

(** Lines 246-249: the step of the scheduler.  What [scheduler.step]
    does is torch's; the lines are embedded with what they read. *)
Definition scheduler_step (config : gmap string pyval) (val_log : gmap string Q)
    : result unit :=
  let* s := getitem config "scheduler" in
  if eq_str s "CosineAnnealingLR" then Ok tt
  else
    let* s := getitem config "scheduler" in
    if eq_str s "ReduceLROnPlateau" then
      let* loss := getitem val_log "loss" in
      Ok tt
    else Ok tt.

(** Lines 251-252: the four numbers that the report of an epoch formats. *)
Definition report (train_log val_log : gmap string Q) : result (Q * Q * Q * Q) :=
  let* loss := getitem train_log "loss" in
  let* iou := getitem train_log "iou" in
  let* val_loss := getitem val_log "loss" in
  let* val_iou := getitem val_log "iou" in
  Ok (loss, iou, val_loss, val_iou).

(** [log[column].append(value)] on a log: the column is looked up before
    the value is evaluated. *)
Definition append_to (log : gmap string (list pyval)) (column : string)
    (value : result pyval) : result (gmap string (list pyval)) :=
  let* l := getitem log column in
  let* v := value in
  Ok (<[column := l ++ [v]]> log).

(** The same on the log of [main]. *)
Definition append_column (column : string) (value : result pyval)
    : action locals unit :=
  fun s => match append_to (log s) column value with
           | Ok log' => (Locals (best_iou s) (trigger s) log' (saves s) (written s), Ok tt)
           | Raise e => (s, Raise e)
           end.

(** [d[key]] for a log of floats, as a value of a column. *)
Definition float_item (d : gmap string Q) (key : string) : result pyval :=
  let* q := getitem d key in Ok (VFloat q).

(** Lines 254-259: the row of the epoch. *)
Definition log_row (config : gmap string pyval) (epoch : nat)
    (train_log val_log : gmap string Q) : action locals unit :=
  do* _ := append_column "epoch" (Ok (VInt (Z.of_nat epoch))) in
  do* _ := append_column "lr" (getitem config "lr") in
  do* _ := append_column "loss" (float_item train_log "loss") in
  do* _ := append_column "iou" (float_item train_log "iou") in
  do* _ := append_column "val_loss" (float_item val_log "loss") in
  append_column "val_iou" (float_item val_log "iou").

(** Line 261:
    [pd.DataFrame(log).to_csv('models/%s/log.csv' % config['name'], index=False)];
    the call is recorded in [written].  (The frame is pandas's.) *)
Definition write_log `{Outside} (config : gmap string pyval) (epoch : nat)
    : action locals unit :=
  do* name := value_of (getitem config "name") in
  let path := ("models/" ++ percent_s name ++ "/log.csv")%string in
  assign (fun s => Locals (best_iou s) (trigger s) (log s) (saves s)
                     (written s ++ [(epoch, path)])).

(** Lines 263-274: the end of the body of the loop, with the [val_log]
    of the epoch.  Line 266 is
    [torch.save(model.state_dict(), 'models/%s/model.pth' % config['name'])],
    where [model] is the module imported in line 15; the call of
    [torch.save] is recorded in [saves]. *)
Definition epoch_end `{Outside} (config : gmap string pyval)
    (epoch : nat) (val_log : gmap string Q)
    : action locals (flow unit Empty_set) :=
  do* _ := assign (fun s => Locals (best_iou s) (trigger s + 1) (log s)
                              (saves s) (written s)) in
  do* iou := value_of (getitem val_log "iou") in
  do* best := read best_iou in
  do* _ :=
    if Qltb best iou then
      do* state_dict := value_of (model_attr "state_dict") in
      do* state := value_of (state_dict []) in
      do* name := value_of (getitem config "name") in
      let path := ("models/" ++ percent_s name ++ "/model.pth")%string in
      do* _ := assign (fun s => Locals (best_iou s) (trigger s) (log s)
                                  (saves s ++ [(epoch, path)]) (written s)) in
      do* iou := value_of (getitem val_log "iou") in
      do* _ := assign (fun s => Locals iou (trigger s) (log s) (saves s) (written s)) in
      assign (fun s => Locals (best_iou s) 0 (log s) (saves s) (written s))
    else ret tt in
  do* early_stopping := value_of (getitem config "early_stopping") in
  do* threshold := value_of (number early_stopping) in
  if Qle_bool 0 threshold then
    do* trigger_now := read trigger in
    do* early_stopping := value_of (getitem config "early_stopping") in
    do* threshold := value_of (number early_stopping) in
    if Qle_bool threshold (inject_Z trigger_now)
    then ret (Break tt)
    else ret (Continue tt)
  else ret (Continue tt).

(** Lines 239-276: the body of the loop.  [passes epoch] stands for the
    two calls of lines 242 and 244, whose arguments are objects of torch,
    and gives [train_log] and [val_log]; everything else is the source's:
    the title of the epoch (line 239), the step of the scheduler, the
    report, the row of the log, the file of the log, and the end of the
    epoch with the checkpoint and the early stopping. *)
Definition epoch_body `{Outside} (config : gmap string pyval)
    (passes : nat -> result (gmap string Q * gmap string Q)) (epoch : nat)
    : action locals (flow unit Empty_set) :=
  do* epochs := value_of (getitem config "epochs") in
  do* logs := value_of (passes epoch) in
  let train_log := fst logs in
  let val_log := snd logs in
  do* _ := value_of (scheduler_step config val_log) in
  do* _ := value_of (report train_log val_log) in
  do* _ := log_row config epoch train_log val_log in
  do* _ := write_log config epoch in
  do* r := epoch_end config epoch val_log in
  ret r.

(** [for epoch in range(n)] from the initial locals: the locals at the
    end of the run, and the exception if the run ended by one. *)
Definition run_epochs `{Outside} (config : gmap string pyval)
    (passes : nat -> result (gmap string Q * gmap string Q)) (n : nat)
    : locals * result unit :=
  for_each_action (epoch_body config passes) (range 0 n) initial.

(** Lines 231-276. *)
Definition epoch_loop `{Outside} (config : gmap string pyval)
    (passes : nat -> result (gmap string Q * gmap string Q))
    : locals * result unit :=
  (do* epochs := value_of (getitem config "epochs") in
   do* items := value_of (range_of epochs) in
   for_each_action (epoch_body config passes) items) initial.

End main.

(* ===================================================================== *)
(** * The quantities the specification names                              *)
(* ===================================================================== *)

Module Spec.

(** One sample of a batch: its prediction, its target, its true height and
    width, and its weight. *)
Record sample (T : Type) : Type := Sample {
  prediction : T;
  truth : T;
  height : Z;
  width : Z;
  weight : T
}.
Arguments Sample {T} prediction truth height width weight.
Arguments prediction {T} s.
Arguments truth {T} s.
Arguments height {T} s.
Arguments width {T} s.
Arguments weight {T} s.

(** The cropped, softmaxed prediction of a sample, with its leading axis,
    and its cropped target. *)
Definition cropped_prediction {T : Type} `{Torch T} (self : losses.BCEDiceLoss.t)
    (s : sample T) : T :=
  torch_unsqueeze0
    (losses.BCEDiceLoss._crop_single self (torch_softmax0 (prediction s))
       (height s, width s)).

Definition cropped_target {T : Type} `{Torch T} (self : losses.BCEDiceLoss.t)
    (s : sample T) : T :=
  losses.BCEDiceLoss._crop_single self (truth s) (height s, width s).

(** The weighted binary cross-entropy term of a sample, and the three
    quantities it adds to the totals. *)
Definition bce_term {T : Type} `{Torch T} (self : losses.BCEDiceLoss.t) (s : sample T) : Q :=
  F_binary_cross_entropy (cropped_prediction self s) (cropped_target self s) (weight s).

Definition intersection_term {T : Type} `{Torch T} (self : losses.BCEDiceLoss.t)
    (s : sample T) : Q :=
  sum1 (mul (reshape_row (cropped_prediction self s)) (reshape_row (cropped_target self s))).

Definition prediction_term {T : Type} `{Torch T} (self : losses.BCEDiceLoss.t)
    (s : sample T) : Q :=
  sum1 (reshape_row (cropped_prediction self s)).

Definition target_term {T : Type} `{Torch T} (self : losses.BCEDiceLoss.t)
    (s : sample T) : Q :=
  sum1 (reshape_row (cropped_target self s)).

(** What one sample adds to the running sums. *)
Definition add_sample {T : Type} `{Torch T} (self : losses.BCEDiceLoss.t)
    (s : losses.BCEDiceLoss.sums) (smp : sample T) : losses.BCEDiceLoss.sums :=
  losses.BCEDiceLoss.Sums
    (losses.BCEDiceLoss.bce s + bce_term self smp)
    (losses.BCEDiceLoss.intersection s + intersection_term self smp)
    (losses.BCEDiceLoss.sum_x s + prediction_term self smp)
    (losses.BCEDiceLoss.sum_target s + target_term self smp).

(** The locals [s'] differ from [s] in the rows of the log at most: the
    best IoU, the counter and the files written are those of [s], and the
    log has the columns it had. *)
Definition only_rows_added (s s' : main.locals) : Prop :=
  main.best_iou s' = main.best_iou s /\
  main.trigger s' = main.trigger s /\
  main.saves s' = main.saves s /\
  main.written s' = main.written s /\
  dom (main.log s') =@{gset string} dom (main.log s).

(** How a loss of the library answers a call with three arguments. *)
Definition rejection (c : losses.loss_class) : exn :=
  match c with
  | losses.BCELoss_cls | losses.BCEDiceLoss_cls => MissingPositional "forward" ["weights"]
  | losses.LovaszHingeLoss_cls => TooManyPositional "forward" 2 3
  end.

(** What the forward part of a batch comes to in either loop: never a
    loss. *)
Definition batch_outcome {T : Type} `{Torch T} (criterion : main.loss T)
    (config : gmap string pyval) (outputs : T) : exn :=
  match config !! "deep_supervision" with
  | None => KeyError (VStr "deep_supervision")
  | Some deep_supervision =>
      if truthy deep_supervision
      then match rows outputs with
           | [] => ZeroDivisionError
           | _ :: _ => rejection (main.class_ criterion)
           end
      else rejection (main.class_ criterion)
  end.

End Spec.

(* ===================================================================== *)
(** * A small instance to run the definitions on                          *)
(* ===================================================================== *)

Module Concrete.

#[local] Unset Elimination Schemes.

(** Tensors as nested lists of rationals. *)
Inductive tensor : Type :=
| Scalar (q : Q)
| Stack (ts : list tensor).

#[local] Set Elimination Schemes.

Definition subtensors (t : tensor) : list tensor :=
  match t with
  | Scalar _ => []
  | Stack ts => ts
  end.

Fixpoint flatten (t : tensor) : list Q :=
  match t with
  | Scalar q => [q]
  | Stack ts => concat (map flatten ts)
  end.

Fixpoint map_scalars (f : Q -> Q) (t : tensor) : tensor :=
  match t with
  | Scalar q => Scalar (f q)
  | Stack ts => Stack (map (map_scalars f) ts)
  end.

Definition is_scalar (t : tensor) : bool :=
  match t with Scalar _ => true | Stack _ => false end.

Definition is_vector (t : tensor) : bool :=
  match t with Scalar _ => false | Stack ts => forallb is_scalar ts end.

Definition slice {A : Type} (start len : Z) (l : list A) : list A :=
  take (Z.to_nat len) (drop (Z.to_nat start) l).

(** torchvision's [crop(img, top, left, height, width)] on the last two
    axes, for a box inside the image. *)
Fixpoint crop (t : tensor) (top left height width : Z) : tensor :=
  match t with
  | Scalar q => Scalar q
  | Stack ts =>
      if forallb is_vector ts
      then Stack (map (fun r => Stack (slice left width (subtensors r)))
                      (slice top height ts))
      else Stack (map (fun u => crop u top left height width) ts)
  end.

Definition cat1 (a b : tensor) : tensor :=
  Stack (zip_with (fun r s => Stack (subtensors r ++ subtensors s))
                  (subtensors a) (subtensors b)).

Fixpoint times (a b : tensor) {struct a} : tensor :=
  match a, b with
  | Scalar x, Scalar y => Scalar (x * y)
  | Stack xs, Stack ys =>
      Stack ((fix go (xs ys : list tensor) {struct xs} : list tensor :=
                match xs, ys with
                | x :: xs', y :: ys' => times x y :: go xs' ys'
                | _, _ => []
                end) xs ys)
  | _, _ => a
  end.

Definition row (t : tensor) : tensor := Stack (map Scalar (flatten t)).

(** The exponential and the logarithm are not rational.  The kernels
    built on them are replaced here by rational functions of the same
    shape; they serve to run the definitions, and no theorem is about
    them. *)
Definition squash (x : Q) : Q := ((1 + x / (1 + Qabs x)) / 2)%Q.

Definition weighted_squares (x t w : list Q) : Q :=
  Qsum (zip_with (fun d w => w * d * d)%Q (zip_with Qminus x t) w).

#[global] Instance tensor_torch : Torch tensor := {|
  rows := subtensors;
  transF_crop := crop;
  torch_cat1 := cat1;
  torch_softmax0 := map_scalars squash;
  torch_unsqueeze0 := fun t => Stack [t];
  torch_sigmoid := map_scalars squash;
  reshape_row := fun t => Stack [row t];
  view_rows := fun t _ => Stack (map row (subtensors t));
  mul := times;
  sum1 := fun t => Qsum (flatten t);
  sum_axis1 := fun t => map (fun r => Qsum (flatten r)) (subtensors t);
  F_binary_cross_entropy := fun x t w =>
    weighted_squares (flatten x) (flatten t) (flatten w);
  F_binary_cross_entropy_with_logits := fun x t =>
    weighted_squares (map squash (flatten x)) (flatten t) (map (fun _ => 1%Q) (flatten x))
|}.

(** A module [model] with three architectures and a function
    [state_dict]; what they return is their name with the arguments of
    the call. *)
#[global] Instance outside : Outside := {|
  float_str := fun q => (pretty (Qnum q) ++ "/" ++ pretty (Zpos (Qden q)))%string;
  MODEL_NAMES := ["UNet"; "UNetPP"; "ARUNet"];
  model_value := string * list pyval;
  model__dict__ :=
    list_to_map
      [ ("UNet", fun args => Ok ("UNet", args));
        ("UNetPP", fun args => Ok ("UNetPP", args));
        ("ARUNet", fun args => Ok ("ARUNet", args));
        ("state_dict", fun args => Ok ("state_dict", args)) ]
|}.

#[global] Instance metrics : Metrics tensor := {|
  iou_score := fun output target _ =>
    let i := Qsum (flatten (times output target)) in
    (i / (Qsum (flatten output) + Qsum (flatten target) - i + losses.BCEDiceLoss.smooth))%Q
|}.

(** A 2 x 2 x 2 image: two channels of two rows of two pixels. *)
Definition image (a : Q) : tensor :=
  Stack [ Stack [ Stack [Scalar a; Scalar 0]; Stack [Scalar 0; Scalar a] ];
          Stack [ Stack [Scalar 1; Scalar a]; Stack [Scalar a; Scalar 1] ] ].

(** A batch of three samples with their true sizes and weights. *)
Definition batch : list (Spec.sample tensor) :=
  [ Spec.Sample (image (1 # 2)) (image 1) 768 1024 (Scalar 1);
    Spec.Sample (image (1 # 4)) (image 0) 768 1024 (Scalar 2);
    Spec.Sample (image (3 # 4)) (image 1) 768 1024 (Scalar 1) ].

(** The logs of a run whose validation IoUs are [ious], epoch by epoch,
    with every key that the loop reads from them. *)
Definition passes (ious : list Q) (epoch : nat)
    : result (gmap string Q * gmap string Q) :=
  let log : gmap string Q := <["loss" := 1%Q]> {[ "iou" := default 0%Q (ious !! epoch) ]} in
  Ok (log, log).

(** The files of the example of the specification. *)
Definition files : list string :=
  [ "data/train/A2C/p001.img"; "data/train/A2C/p001.mask"; "data/train/A4C/p002.img" ].

(** A configuration with every key that the loop reads. *)
Definition run (epochs early_stopping : Z) : gmap string pyval :=
  list_to_map [("name", VStr "run"); ("epochs", VInt epochs);
               ("early_stopping", VInt early_stopping);
               ("lr", VFloat (1 # 1000)); ("scheduler", VStr "ConstantLR")].

(** The run of the specification: IoUs 0.1, 0.3, 0.2, 0.5, 0.4 and no
    early stopping. *)
Definition run_five : gmap string pyval := run 5 (-1).

Definition ious_five : list Q := [1 # 10; 3 # 10; 2 # 10; 5 # 10; 4 # 10]%Q.

(** The run of the specification: threshold 2, IoUs 0.5, 0.4, 0.3, and
    ten epochs asked for. *)
Definition run_three : gmap string pyval := run 10 2.

Definition ious_three : list Q := [5 # 10; 4 # 10; 3 # 10]%Q.

End Concrete.

(* ===================================================================== *)
(** * src/losses.py: the forward methods of BCELoss and LovaszHingeLoss   *)
(* ===================================================================== *)

(** The operations of torch that these two methods call beyond those of
    [Torch].  [F.binary_cross_entropy] is called here without a weight,
    and [F.binary_cross_entropy_with_logits] with one. *)
Class TorchMore (T : Type) : Type := {
  select1 : T -> T;
    (* t[1,:,:] *)
  squeeze1 : T -> T;
    (* t.squeeze(1) *)
  F_binary_cross_entropy2 : T -> T -> Q;
    (* F.binary_cross_entropy(input, target) *)
  F_binary_cross_entropy_with_logits3 : T -> T -> T -> Q
    (* F.binary_cross_entropy_with_logits(input, target, weight) *)
}.

Module Forward.

Import losses.

(** [BCELoss(args)]: [__init__] stores its four parameters. *)
Definition BCELoss___init__ (args : list pyval) : result BCELoss.t :=
  let* env := bind_args "__init__" (init_params BCELoss_cls) args in
  let get name := default VNone (local env name) in
  Ok {| BCELoss.crop := get "crop"; BCELoss.crop_batch := get "crop_batch";
        BCELoss.sigmoid := get "sigmoid"; BCELoss.softmax := get "softmax" |}.

(** [v == 'True' or v == True] *)
Definition True_or_text (v : pyval) : bool := eq_str v "True" || eq_True v.

(** Lines 29-44: the body of the loop of [BCELoss.forward]; [loss] is the
    local it adds to. *)
Definition BCELoss_body {T : Type} `{Torch T} `{TorchMore T} (self : BCELoss.t)
    (predict target : T) (input_shape : list Z * list Z) (weights : list T)
    (i : nat) (loss : Q) : result (flow Q Q) :=
  let* predict_ :=
    if eq_True (BCELoss.softmax self) then
      let* predict_i := item predict i in
      let* h := index (fst input_shape) i in
      let* w := index (snd input_shape) i in
      Ok (BCELoss._crop self (torch_softmax0 predict_i) (h, w))
    else
      let* predict_i := item predict i in
      let* h := index (fst input_shape) i in
      let* w := index (snd input_shape) i in
      Ok (BCELoss._crop self predict_i (h, w)) in
  let* target_i := item target i in
  let* h := index (fst input_shape) i in
  let* w := index (snd input_shape) i in
  let target_ := BCELoss._crop self target_i (h, w) in
  let* weight := index weights i in
  if eq_True (BCELoss.softmax self) then
    let* weights_i := index weights i in
    Ok (Continue
          (loss + F_binary_cross_entropy (torch_unsqueeze0 (select1 predict_))
                    target_ weights_i)%Q)
  else if True_or_text (BCELoss.sigmoid self) then
    Ok (Continue (loss + F_binary_cross_entropy2 predict_ target_)%Q)
  else
    let* weights_i := index weights i in
    Ok (Continue
          (loss + F_binary_cross_entropy_with_logits3 predict_ target_ weights_i)%Q).

(** Lines 24-50: [BCELoss.forward]. *)
Definition BCELoss_forward {T : Type} `{Torch T} `{TorchMore T} (self : BCELoss.t)
    (predict target : T) (input_shape : list Z * list Z) (weights : list T)
    : result Q :=
  let n := size0 predict in
  let loss := 0%Q in
  if True_or_text (BCELoss.crop self) then
    let* r := for_each (BCELoss_body self predict target input_shape weights)
                (range 0 n) loss in
    match r with
    | Continue loss | Break loss => Ok loss
    | Return loss => Ok loss
    end
  else if True_or_text (BCELoss.sigmoid self) then
    Ok (F_binary_cross_entropy2 predict target)
  else
    Ok (F_binary_cross_entropy2 (torch_softmax0 predict) target).

(** The names that the module [losses] binds at its top level: its five
    imports, [__all__] and its three classes.  (No builtin of Python is
    named [lovasz_hinge].) *)
Definition module_names : list string :=
  ["torch"; "nn"; "F"; "transF"; "np"; "__all__";
   "BCELoss"; "BCEDiceLoss"; "LovaszHingeLoss"].

(** A name of the module used as a function of tensors.  None of the
    names the module binds can be called with two tensors and
    [per_image = True]: the modules and the list are not callable, and no
    [__init__] of the three classes has a parameter [per_image]. *)
Definition global_function {T : Type} (name : string) : result (list T -> result Q) :=
  if existsb (String.eqb name) module_names
  then Ok (fun _ => Raise (BadOperand name VNone))
  else Raise (NameError name).

(** Lines 156-161: [LovaszHingeLoss.forward]. *)
Definition LovaszHingeLoss_forward {T : Type} `{TorchMore T} (input target : T)
    : result Q :=
  let input := squeeze1 input in
  let target := squeeze1 target in
  let* lovasz_hinge := global_function "lovasz_hinge" in
  let* loss := lovasz_hinge [input; target] in
  Ok loss.

(** An argument of a loss where [forward] asks a tensor method of it. *)
Definition tensor_argument {T : Type} (method : string) (v : main.value T) : result T :=
  match v with
  | main.Tensor t => Ok t
  | main.Shape _ => Raise (AttributeError "tuple" method)
  | main.Weights _ => Raise (AttributeError "list" method)
  end.

(** A [LovaszHingeLoss()] object as a criterion. *)
Definition LovaszHingeLoss {T : Type} `{TorchMore T} : main.loss T :=
  main.Loss LovaszHingeLoss_cls
    (fun env =>
       let* input := main.name_ env "input" in
       let* input := tensor_argument "squeeze" input in
       let* target := main.name_ env "target" in
       let* target := tensor_argument "squeeze" target in
       LovaszHingeLoss_forward input target).

(** What one sample adds to the loss in the loop of [BCELoss.forward]. *)
Definition BCELoss_term {T : Type} `{Torch T} `{TorchMore T} (self : BCELoss.t)
    (s : Spec.sample T) : Q :=
  let shape := (Spec.height s, Spec.width s) in
  let target_ := BCELoss._crop self (Spec.truth s) shape in
  if eq_True (BCELoss.softmax self) then
    F_binary_cross_entropy
      (torch_unsqueeze0
         (select1 (BCELoss._crop self (torch_softmax0 (Spec.prediction s)) shape)))
      target_ (Spec.weight s)
  else if True_or_text (BCELoss.sigmoid self) then
    F_binary_cross_entropy2 (BCELoss._crop self (Spec.prediction s) shape) target_
  else
    F_binary_cross_entropy_with_logits3
      (BCELoss._crop self (Spec.prediction s) shape) target_ (Spec.weight s).

(** A sample with another weight. *)
Definition with_weight {T : Type} (smp : Spec.sample T) (wt : T) : Spec.sample T :=
  Spec.Sample (Spec.prediction smp) (Spec.truth smp) (Spec.height smp) (Spec.width smp) wt.

(** What one sample adds to the four running sums in the cropped branch
    of [BCEDiceLoss.forward] without softmax. *)
Definition add_logits_sample {T : Type} `{Torch T} (self : BCEDiceLoss.t)
    (s : BCEDiceLoss.sums) (smp : Spec.sample T) : BCEDiceLoss.sums :=
  let x_ := BCEDiceLoss._crop_single self (Spec.prediction smp)
              (Spec.height smp, Spec.width smp) in
  let target_ := Spec.cropped_target self smp in
  BCEDiceLoss.Sums
    (BCEDiceLoss.bce s + F_binary_cross_entropy_with_logits x_ target_)
    (BCEDiceLoss.intersection s + sum1 (mul (reshape_row x_) (reshape_row target_)))
    (BCEDiceLoss.sum_x s + sum1 (reshape_row x_))
    (BCEDiceLoss.sum_target s + sum1 (reshape_row target_)).

End Forward.

(* ===================================================================== *)
(** * src/Unet_/main.py: the start of main and the passes                 *)
(* ===================================================================== *)

(** [int(text)] is Python's. *)
Class Builtins : Type := {
  int_ : string -> result Z
}.

(** The class [AverageMeter] comes from the module [utils], which is not
    among the source files. *)
Class Utils (M : Type) : Type := {
  AverageMeter : M;
    (* AverageMeter() *)
  meter_method : string -> option (M -> Q -> nat -> M);
    (* the methods of an AverageMeter that take a value and a count, by
       name; the meter after the call *)
  avg : M -> Q
    (* m.avg *)
}.

(** A network that is trained: what it computes, and what one step of
    the optimizer makes of it. *)
Class Learner (N T : Type) : Type := {
  net_call : N -> T -> T;
    (* net(input) *)
  optimizer_step : N -> T -> T -> list Z * list Z -> N
    (* the network after optimizer.zero_grad(), loss.backward() and
       optimizer.step() on the batch (input, target, input_shape) *)
}.

Module Entry.

Import main.

(** The keys with which [main.py] subscripts [config], in the order of
    their first use (lines 151-272). *)
Definition keys_read : list string :=
  ["name"; "deep_supervision"; "model"; "num_classes"; "input_channels";
   "optimizer"; "lr"; "momentum"; "scheduler"; "epochs"; "min_lr"; "factor";
   "patience"; "milestones"; "gamma"; "dataset"; "input_shape"; "batch_size";
   "early_stopping"].

(** Those of them that no argument of [parse_args] is stored under. *)
Definition keys_undeclared `{Outside} : list string :=
  List.filter (fun k => negb (existsb (String.eqb k) (map dest arguments))) keys_read.

(** The value an option has on the command line: that of its last
    occurrence. *)
Definition given (argv : list (string * pyval)) (name : string) : option pyval :=
  fold_left (fun acc o => if String.eqb (fst o) name then Some (snd o) else acc)
            argv None.

(** An option that argparse accepts: declared, converted by its type,
    and within its choices. *)
Definition accepted `{Outside} (o : string * pyval) : bool :=
  match find_argument arguments (fst o) with
  | Some a => has_type (type_ a) (snd o) && choice_ok a (snd o)
  | None => false
  end.

(** Lines 151-155: the name of the run.  [now] is the text of
    [now.strftime("%c")]. *)
Definition set_name `{Outside} (now : string) (config : gmap string pyval)
    : result (gmap string pyval) :=
  let* name := getitem config "name" in
  match name with
  | VNone =>
      let* deep_supervision := getitem config "deep_supervision" in
      if truthy deep_supervision then
        let* m := getitem config "model" in
        Ok (<["name" := VStr (percent_s m ++ "_" ++ now ++ "_deepsupervision")]> config)
      else
        let* m := getitem config "model" in
        Ok (<["name" := VStr (percent_s m ++ "_" ++ now ++ "_normal")]> config)
  | _ => Ok config
  end.

(** What [main] does to the file system. *)
Inductive effect : Type :=
| Makedirs (path : string)        (* os.makedirs(path, exist_ok = True) *)
| OpenForWriting (path : string). (* open(path, 'w') *)

(** Lines 147-161: from the command line to the dump of the
    configuration; the effects up to the point reached, and how the lines
    end.  [main.py] does not import [yaml]. *)
Definition startup `{Outside} (now : string) (argv : list (string * pyval))
    : list effect * result (gmap string pyval * losses.BCEDiceLoss.t) :=
  match parse_args argv with
  | Raise e => ([], Raise e)
  | Ok config =>
      match set_name now config with
      | Raise e => ([], Raise e)
      | Ok config =>
          match getitem config "name" with
          | Raise e => ([], Raise e)
          | Ok name =>
              let made := [Makedirs ("models/" ++ percent_s name)] in
              match criterion config with
              | Raise e => (made, Raise e)
              | Ok criterion =>
                  match getitem config "name" with
                  | Raise e => (made, Raise e)
                  | Ok name =>
                      (made ++ [OpenForWriting
                                  ("models/" ++ percent_s name ++ "/config.yml")],
                       Raise (NameError "yaml"))
                  end
              end
          end
      end
  end.

(** A local name that an [if] chain without [else] may leave unbound. *)
Inductive binding (A : Type) : Type :=
| Unbound
| Bound (a : A).
Arguments Unbound {A}.
Arguments Bound {A} a.

(** The value of such a name where the code uses it. *)
Definition bound {A : Type} (name : string) (b : binding A) : result A :=
  match b with
  | Bound a => Ok a
  | Unbound => Raise (NameError name)
  end.

(** The optimizers of lines 174 and 176, with their keyword arguments. *)
Inductive optimizer : Type :=
| Adam (lr : pyval)
| SGD (lr momentum : pyval).

(** Lines 173-176.  The first argument of either constructor, the
    parameters of the network that are trained, is torch's and is left
    out. *)
Definition make_optimizer (config : gmap string pyval) : result (binding optimizer) :=
  let* o := getitem config "optimizer" in
  if eq_str o "Adam" then
    let* lr := getitem config "lr" in
    Ok (Bound (Adam lr))
  else
    let* o := getitem config "optimizer" in
    if eq_str o "SGD" then
      let* lr := getitem config "lr" in
      let* momentum := getitem config "momentum" in
      Ok (Bound (SGD lr momentum))
    else Ok Unbound.

(** The schedulers of lines 179-183, with their keyword arguments. *)
Inductive scheduler : Type :=
| CosineAnnealingLR (T_max eta_min : pyval)
| ReduceLROnPlateau (factor patience : pyval) (verbose : Z) (min_lr : pyval)
| MultiStepLR (milestones : list Z) (gamma : pyval).

(** [type(v).__name__] *)
Definition type_name (v : pyval) : string :=
  match v with
  | VNone => "NoneType"
  | VBool _ => "bool"
  | VInt _ => "int"
  | VFloat _ => "float"
  | VStr _ => "str"
  end.

(** [v.split(',')] *)
Definition split_commas (v : pyval) : result (list string) :=
  match v with
  | VStr s => Ok (split_on ","%char s)
  | _ => Raise (AttributeError (type_name v) "split")
  end.

(** Lines 178-185.  [scheduler = None] of line 185 is [Bound None]. *)
Definition make_scheduler `{Builtins} (optimizer : binding optimizer)
    (config : gmap string pyval) : result (binding (option scheduler)) :=
  let* s := getitem config "scheduler" in
  if eq_str s "CosineAnnealingLR" then
    let* _ := bound "optimizer" optimizer in
    let* T_max := getitem config "epochs" in
    let* eta_min := getitem config "min_lr" in
    Ok (Bound (Some (CosineAnnealingLR T_max eta_min)))
  else
    let* s := getitem config "scheduler" in
    if eq_str s "ReduceLROnPlateau" then
      let* _ := bound "optimizer" optimizer in
      let* factor := getitem config "factor" in
      let* patience := getitem config "patience" in
      let* min_lr := getitem config "min_lr" in
      Ok (Bound (Some (ReduceLROnPlateau factor patience 1 min_lr)))
    else
      let* s := getitem config "scheduler" in
      if eq_str s "MultiStepLR" then
        let* _ := bound "optimizer" optimizer in
        let* milestones := getitem config "milestones" in
        let* parts := split_commas milestones in
        let* milestones := comprehension int_ parts in
        let* gamma := getitem config "gamma" in
        Ok (Bound (Some (MultiStepLR milestones gamma)))
      else
        let* s := getitem config "scheduler" in
        if eq_str s "ConstantLR" then Ok (Bound None)
        else Ok Unbound.

(** The key of [config] that each scheduler asks for first. *)
Definition first_key (scheduler : string) : string :=
  if String.eqb scheduler "CosineAnnealingLR" then "epochs"
  else if String.eqb scheduler "ReduceLROnPlateau" then "factor"
  else "milestones".

(** Lines 82-93 and 122-133 with any callable as [criterion]: the loss
    and the score of one batch. *)
Definition batch_loss {T : Type} `{Torch T} `{Metrics T}
    (criterion : list (value T) -> result Q) (net : T -> T)
    (config : gmap string pyval) (input target : T)
    (input_shape : list Z * list Z) : result (Q * Q) :=
  let* deep_supervision := getitem config "deep_supervision" in
  if truthy deep_supervision then
    let outputs := net input in
    let* r := for_each (R := Empty_set)
                (fun output loss =>
                   let* l := criterion [Tensor output; Tensor target; Shape input_shape] in
                   Ok (Continue (loss + l)%Q))
                (rows outputs) 0%Q in
    let loss := match r with
                | Continue loss | Break loss => loss
                | Return r => match r with end
                end in
    let* loss := div_int loss (size0 outputs) in
    let* last := last_item outputs in
    let ji := iou_score last target input_shape in
    Ok (loss, ji)
  else
    let output := net input in
    let* loss := criterion [Tensor output; Tensor target; Shape input_shape] in
    let ji := iou_score output target input_shape in
    Ok (loss, ji).

(** [avg_meters[key].method(value, n)] *)
Definition meter_call {M : Type} `{Utils M} (avg_meters : gmap string M)
    (key method : string) (value : Q) (n : nat) : result (gmap string M) :=
  let* m := getitem avg_meters key in
  match meter_method method with
  | None => Raise (AttributeError "AverageMeter" method)
  | Some f => Ok (<[key := f m value n]> avg_meters)
  end.

(** Lines 71, 110: [{'loss': AverageMeter(), 'JI': AverageMeter()}] *)
Definition new_meters {M : Type} `{Utils M} : gmap string M :=
  <["loss" := AverageMeter]> (<["JI" := AverageMeter]> ∅).

(** Lines 107, 143:
    [OrderedDict([('loss', avg_meters['loss'].avg), ('ji', avg_meters['JI'].avg)])] *)
Definition averages {M : Type} `{Utils M} (avg_meters : gmap string M)
    : result (gmap string Q) :=
  let* l := getitem avg_meters "loss" in
  let* j := getitem avg_meters "JI" in
  Ok (<["loss" := avg l]> (<["ji" := avg j]> ∅)).

(** One batch of a loader: input, target, info. *)
Definition batch (T : Type) : Type := T * T * gmap string (list Z * list Z).

(** Lines 78-104: the body of the loop of [train]; the locals are the
    network, which the optimizer updates, and the meters. *)
Definition train_step {N T M : Type} `{Torch T} `{Metrics T} `{Utils M} `{Learner N T}
    (criterion : list (value T) -> result Q) (config : gmap string pyval)
    (b : batch T) (s : N * gmap string M)
    : result (flow (N * gmap string M) Empty_set) :=
  let '(input, target, info) := b in
  let '(net, avg_meters) := s in
  let* input_shape := getitem info "input_shape" in
  let* (loss, ji) := batch_loss criterion (net_call net) config input target input_shape in
  let net := optimizer_step net input target input_shape in
  let* avg_meters := meter_call avg_meters "loss" "upadate" loss (size0 input) in
  let* avg_meters := meter_call avg_meters "JI" "update" ji (size0 input) in
  let* postfix := averages avg_meters in
  Ok (Continue (net, avg_meters)).

(** Lines 63-107: [train(net, train_loader, criterion, optimizer, config)];
    the log it returns, with the network as the optimizer left it.  The
    optimizer is part of the [Learner]; [net.train()] and the progress
    bar, calls on objects of torch and tqdm, are left out, as are the
    moves to the GPU. *)
Definition train {N T M : Type} `{Torch T} `{Metrics T} `{Utils M} `{Learner N T}
    (net : N) (train_loader : list (batch T))
    (criterion : list (value T) -> result Q) (config : gmap string pyval)
    : result (gmap string Q * N) :=
  let avg_meters := new_meters in
  let* r := for_each (train_step criterion config) train_loader (net, avg_meters) in
  let '(net, avg_meters) := match r with
                            | Continue s | Break s => s
                            | Return r => match r with end
                            end in
  let* log := averages avg_meters in
  Ok (log, net).

(** Lines 117-140: the body of the loop of [validate]. *)
Definition validate_step {T M : Type} `{Torch T} `{Metrics T} `{Utils M}
    (net : T -> T) (criterion : list (value T) -> result Q)
    (config : gmap string pyval) (b : batch T) (avg_meters : gmap string M)
    : result (flow (gmap string M) Empty_set) :=
  let '(input, target, info) := b in
  let* input_shape := getitem info "input_shape" in
  let* (loss, ji) := batch_loss criterion net config input target input_shape in
  let* avg_meters := meter_call avg_meters "loss" "update" loss (size0 input) in
  let* avg_meters := meter_call avg_meters "iou" "update" ji (size0 input) in
  let* postfix := averages avg_meters in
  Ok (Continue avg_meters).

(** Lines 109-143: [validate(net, valid_loader, criterion, config)].
    [net.eval()], [torch.no_grad()] and the progress bar are left out, as
    in [train]. *)
Definition validate {T M : Type} `{Torch T} `{Metrics T} `{Utils M}
    (net : T -> T) (valid_loader : list (batch T))
    (criterion : list (value T) -> result Q) (config : gmap string pyval)
    : result (gmap string Q) :=
  let avg_meters := new_meters in
  let* r := for_each (validate_step net criterion config) valid_loader avg_meters in
  let avg_meters := match r with
                    | Continue s | Break s => s
                    | Return r => match r with end
                    end in
  averages avg_meters.

End Entry.

(* ===================================================================== *)
(** * The small instance, continued                                       *)
(* ===================================================================== *)

Module Instances.

Import Concrete.

#[global] Instance tensor_more : TorchMore tensor := {|
  select1 := fun t => default t (subtensors t !! 1%nat);
  squeeze1 := fun t => Stack (concat (map subtensors (subtensors t)));
  F_binary_cross_entropy2 := fun x t =>
    weighted_squares (flatten x) (flatten t) (map (fun _ => 1%Q) (flatten x));
  F_binary_cross_entropy_with_logits3 := fun x t w =>
    weighted_squares (map squash (flatten x)) (flatten t) (flatten w)
|}.

(** A decimal numeral without sign. *)
Fixpoint digits (s : string) (acc : Z) : result Z :=
  match s with
  | EmptyString => Ok acc
  | String a s' =>
      let d := Z.of_nat (nat_of_ascii a) - 48 in
      if (0 <=? d) && (d <=? 9) then digits s' (10 * acc + d)
      else Raise (BadOperand "int" (VStr s))
  end.

#[global] Instance builtins : Builtins := {|
  int_ := fun s => match s with
                   | EmptyString => Raise (BadOperand "int" (VStr s))
                   | _ => digits s 0
                   end
|}.

(** A meter that keeps the weighted sum and the count. *)
#[global] Instance meters : Utils (Q * nat) := {|
  AverageMeter := (0%Q, 0%nat);
  meter_method := fun name =>
    if String.eqb name "update"
    then Some (fun (m : Q * nat) v n =>
                 ((fst m + v * inject_Z (Z.of_nat n))%Q, (snd m + n)%nat))
    else None;
  avg := fun m => (fst m / inject_Z (Z.of_nat (snd m)))%Q
|}.

(** A network that scales its input, and an optimizer that halves the
    scale. *)
#[global] Instance learner : Learner Q tensor := {|
  net_call := fun a t => map_scalars (Qmult a) t;
  optimizer_step := fun a _ _ _ => (a / 2)%Q
|}.

(** A criterion that accepts the three arguments of the loops. *)
Definition three_argument_loss (args : list (main.value tensor)) : result Q :=
  match args with
  | [main.Tensor output; main.Tensor target; main.Shape _] =>
      Ok (F_binary_cross_entropy_with_logits output target)
  | _ => Raise (TooManyPositional "forward" 3 (length args))
  end.

(** A loader of one batch of two images. *)
Definition loader : list (Entry.batch tensor) :=
  [ (Stack [image (1 # 2); image (1 # 4)], Stack [image 1; image 0],
     {[ "input_shape" := ([768; 768], [1024; 1024]) ]}) ].

End Instances.

(* ===================================================================== *)
(** * Theorems                                                            *)
(* ===================================================================== *)

Import losses.

(** ** Cropping *)

(** For a numerator that is not negative, truncation and floor agree. *)
Lemma int_truediv_floor (a : Z) : 0 <= a -> int_truediv a 2 = a / 2.
Proof.
  intros Ha. unfold int_truediv. apply Z.quot_div_nonneg; lia.
Qed.

(** Beyond the canvas they differ: one row too many gives offset [0],
    where the floor is [-1]. *)
Example int_truediv_not_floor : int_truediv (768 - 769) 2 = 0 /\ (768 - 769) / 2 = -1.
Proof. split; reflexivity. Qed.

(** C3.  For a height [0 < h <= 768] and a width [0 < w <= 1024], the
    cropping helper of [BCELoss] and that of [BCEDiceLoss] compute
    [dh = floor((768 - h) / 2)] and [dw = floor((1024 - w) / 2)] and return
    [transF.crop(img, dw, dh, h, w)], the horizontal offset passed first;
    the two helpers return the same tensor on the same input. *)
Theorem crop_offsets_floor (T : Type) `{Torch T}
    (self1 : BCELoss.t) (self2 : BCEDiceLoss.t) (img : T) (h w : Z) :
  0 < h <= 768 -> 0 < w <= 1024 ->
  let dh := (768 - h) / 2 in
  let dw := (1024 - w) / 2 in
  BCELoss._crop self1 img (h, w) = transF_crop img dw dh h w /\
  BCEDiceLoss._crop_single self2 img (h, w) = transF_crop img dw dh h w /\
  BCELoss._crop self1 img (h, w) = BCEDiceLoss._crop_single self2 img (h, w).
Proof.
  intros Hh Hw dh dw.
  unfold BCELoss._crop, BCEDiceLoss._crop_single; cbn [fst snd].
  rewrite !int_truediv_floor by lia.
  repeat split; reflexivity.
Qed.

(** The example of the specification: [h = 512], [w = 768] give
    [dh = 128] and [dw = 128]. *)
Lemma crop_offsets_floor_witness :
  (0 < 512 <= 768 /\ 0 < 768 <= 1024) /\
  BCELoss._crop (BCELoss.Build_t (VBool true) (VBool false) (VBool false) (VBool true))
    (Concrete.image 1) (512, 768)
  = transF_crop (Concrete.image 1) 128 128 512 768.
Proof.
  split; [lia |].
  exact (proj1 (crop_offsets_floor Concrete.tensor
                  (BCELoss.Build_t (VBool true) (VBool false) (VBool false) (VBool true))
                  (BCEDiceLoss.Build_t (VBool true) (VBool false) (VBool true))
                  (Concrete.image 1) 512 768 ltac:(lia) ltac:(lia))).
Defined.

(** With the batch size read by [img.size(0)]: on one sample the loop
    has no item, the end of the function is reached, and the helper
    returns [None]. *)
Lemma crop_batch_one_sample (T : Type) `{Torch T} (self : BCEDiceLoss.t)
    (img x0 : T) (h0 w0 : Z) (hs ws : list Z) :
  rows img = [x0] ->
  BCEDiceLoss._crop_batch_by BCEDiceLoss.size_call self img (h0 :: hs, w0 :: ws) = Ok None.
Proof.
  intros Himg. unfold BCEDiceLoss._crop_batch_by, BCEDiceLoss.size_call, size0, item.
  rewrite Himg. reflexivity.
Qed.

(** The first pass of the loop, for sample 1, returns. *)
Lemma crop_batch_body_returns (T : Type) `{Torch T}
    (img x0 x1 : T) (rest : list T) (h0 h1 w0 w1 : Z) (hs ws : list Z) (cropped : T) :
  rows img = x0 :: x1 :: rest ->
  BCEDiceLoss._crop_batch_body img (h0 :: h1 :: hs, w0 :: w1 :: ws) 1 cropped
  = Ok (Return (torch_cat1 cropped
                  (transF_crop x1 (int_truediv (1024 - w1) 2)
                     (int_truediv (768 - h1) 2) h1 w1))).
Proof.
  intros Himg. unfold BCEDiceLoss._crop_batch_body, item. rewrite Himg. reflexivity.
Qed.

(** With the batch size read by [img.size(0)], on two or more samples. *)
Lemma crop_batch_two_samples (T : Type) `{Torch T} (self : BCEDiceLoss.t)
    (img x0 x1 : T) (rest : list T) (h0 h1 w0 w1 : Z) (hs ws : list Z) :
  rows img = x0 :: x1 :: rest ->
  BCEDiceLoss._crop_batch_by BCEDiceLoss.size_call self img
    (h0 :: h1 :: hs, w0 :: w1 :: ws)
  = Ok (Some (torch_cat1 (BCEDiceLoss._crop_single self x0 (h0, w0))
                         (BCEDiceLoss._crop_single self x1 (h1, w1)))).
Proof.
  intros Himg.
  unfold BCEDiceLoss._crop_batch_by, BCEDiceLoss.size_call, size0, item.
  rewrite Himg. cbn [length bind index fst snd lookup list_lookup].
  change (range 1 (S (S (length rest)))) with (1%nat :: seq 2 (length rest)).
  cbn [for_each].
  rewrite (crop_batch_body_returns T img x0 x1 rest h0 h1 w0 w1 hs ws _ Himg).
  reflexivity.
Qed.

(** C5, as the code runs.  Line 67 of [_crop_batch] reads the batch size
    by [img.size[0]]; [size] is a method of the tensor, the subscript
    raises [TypeError], and the helper returns nothing, on every batch:
    neither the crop of sample 0 nor the loop is reached.  So it is on
    the batch of three images of the example.  With the batch size read
    by [img.size(0)], as [forward] reads it, the rest of the helper does
    what the specification says on every batch of two or more samples: the first
    pass of the loop, for sample 1, returns the crop of sample 0 joined
    with the crop of sample 1, and that is the result, whatever the
    samples after the second are. *)
Theorem crop_batch_subscripts_a_method :
  (forall (T : Type) (H : Torch T) (self : BCEDiceLoss.t) (img : T)
          (input_shape : list Z * list Z),
     BCEDiceLoss._crop_batch self img input_shape
     = Raise (NotSubscriptable "builtin_function_or_method")) /\
  BCEDiceLoss._crop_batch (BCEDiceLoss.Build_t (VBool true) (VBool true) (VBool false))
    (Concrete.Stack [Concrete.image 1; Concrete.image 0; Concrete.image (1 # 2)])
    ([768; 768; 768], [1024; 1024; 1024])
  = Raise (NotSubscriptable "builtin_function_or_method") /\
  (forall (T : Type) (H : Torch T) (self : BCEDiceLoss.t) (img x0 x1 : T)
          (rest : list T) (h0 h1 w0 w1 : Z) (hs ws : list Z),
     rows img = x0 :: x1 :: rest ->
     let input_shape := (h0 :: h1 :: hs, w0 :: w1 :: ws) in
     let crop0 := transF_crop x0 (int_truediv (1024 - w0) 2)
                    (int_truediv (768 - h0) 2) h0 w0 in
     let crop1 := transF_crop x1 (int_truediv (1024 - w1) 2)
                    (int_truediv (768 - h1) 2) h1 w1 in
     BCEDiceLoss._crop_batch_body img input_shape 1 crop0
     = Ok (Return (torch_cat1 crop0 crop1)) /\
     BCEDiceLoss._crop_batch_by BCEDiceLoss.size_call self img input_shape
     = Ok (Some (torch_cat1 crop0 crop1))).
Proof.
  split; [reflexivity |]. split; [reflexivity |].
  intros T H self img x0 x1 rest h0 h1 w0 w1 hs ws Himg input_shape crop0 crop1.
  split.
  - apply (crop_batch_body_returns T img x0 x1 rest h0 h1 w0 w1 hs ws crop0 Himg).
  - apply (crop_batch_two_samples T self img x0 x1 rest h0 h1 w0 w1 hs ws Himg).
Qed.

(** ** The calls of main *)

(** C2, as the code runs.  Whatever the configuration holds, and so for
    every value of [--loss], line 158 calls [BCEDiceLoss()] with no
    argument; [__init__] has the parameter [softmax] without a default, so
    the call raises and no criterion is built. *)
Theorem criterion_call_misses_softmax (config : gmap string pyval) :
  main.criterion config = Raise (MissingPositional "__init__" ["softmax"]) /\
  find (fun p => String.eqb (pname p) "softmax") (init_params BCEDiceLoss_cls)
    = Some (Param "softmax" None) /\
  is_ok (BCEDiceLoss.__init__ [VBool true]) = true.
Proof. repeat split; reflexivity. Qed.

(** C9.  The call of [train] in [main] binds the data loader to the
    parameter [net] and the network to the parameter [train_loader], and
    the call of [validate] does the same with [valid_loader]; so
    [train]/[validate] call [.train()]/[.eval()] on the data loader, and
    take the length of, and iterate over, the network. *)
Theorem loader_and_network_swapped (O : Type)
    (train_loader valid_loader net criterion optimizer config : O) :
  bind_args "train" main.train_params [train_loader; net; criterion; optimizer; config]
    = Ok [("net", train_loader); ("train_loader", net); ("criterion", criterion);
          ("optimizer", optimizer); ("config", config)] /\
  bind_args "validate" main.validate_params [valid_loader; net; criterion; config]
    = Ok [("net", valid_loader); ("valid_loader", net); ("criterion", criterion);
          ("config", config)] /\
  main.call_train train_loader net criterion optimizer config
    = Ok [main.MethodCall train_loader "train"; main.Len net; main.Iterate net] /\
  main.call_validate valid_loader net criterion config
    = Ok [main.MethodCall valid_loader "eval"; main.Len net; main.Iterate net].
Proof. repeat split; reflexivity. Qed.

(** ** The criterion in the loops *)

Lemma call_loss_three_arguments (T : Type) (criterion : main.loss T) (a b c : main.value T) :
  main.call_loss criterion [a; b; c] = Raise (Spec.rejection (main.class_ criterion)).
Proof. destruct criterion as [[] body]; reflexivity. Qed.

(** The loop over the outputs of a deeply supervised network stops at its
    first call of the criterion. *)
Lemma outputs_loop_raises (T : Type) (criterion : main.loss T)
    (target : T) (input_shape : list Z * list Z) (outputs : list T) (loss : Q) :
  outputs <> [] ->
  for_each (R := Empty_set)
    (fun output loss =>
       let* l := main.call_loss criterion
                   [main.Tensor output; main.Tensor target; main.Shape input_shape] in
       Ok (Continue (loss + l)%Q))
    outputs loss
  = Raise (Spec.rejection (main.class_ criterion)).
Proof.
  destruct outputs as [|o outputs]; [congruence |]. intros _.
  cbn [for_each]. rewrite call_loss_three_arguments. reflexivity.
Qed.

(** C8, amended.  [BCELoss.forward] and [BCEDiceLoss.forward] take the four
    arguments (prediction, target, input_shape, weights);
    [LovaszHingeLoss.forward] takes two.  Both loops call the criterion
    with the three arguments (output, target, input_shape): under
    [BCELoss] and [BCEDiceLoss] every such call raises for the missing
    argument [weights], under [LovaszHingeLoss] it raises for an argument
    too many, and the batch yields no loss in either loop. *)
Theorem criterion_calls_rejected (T : Type) `{Torch T} `{Metrics T}
    (criterion : main.loss T) (net : T -> T) (config : gmap string pyval)
    (input target output : T) (input_shape : list Z * list Z) :
  map pname (forward_params (V := main.value T) BCELoss_cls)
    = ["predict"; "target"; "input_shape"; "weights"] /\
  map pname (forward_params (V := main.value T) BCEDiceLoss_cls)
    = ["x"; "target"; "input_shape"; "weights"] /\
  map pname (forward_params (V := main.value T) LovaszHingeLoss_cls)
    = ["input"; "target"] /\
  main.call_loss criterion [main.Tensor output; main.Tensor target; main.Shape input_shape]
    = Raise (Spec.rejection (main.class_ criterion)) /\
  main.train_batch net criterion config input target input_shape
    = Raise (Spec.batch_outcome criterion config (net input)) /\
  main.validate_batch net criterion config input target input_shape
    = Raise (Spec.batch_outcome criterion config (net input)).
Proof.
  split; [reflexivity |]. split; [reflexivity |]. split; [reflexivity |].
  split; [apply call_loss_three_arguments |].
  unfold main.train_batch, main.validate_batch, Spec.batch_outcome, getitem.
  destruct (config !! "deep_supervision") as [ds|]; [| split; reflexivity].
  cbn [bind]. destruct (truthy ds).
  - destruct (rows (net input)) as [|o outputs] eqn:Hrows.
    + unfold size0. rewrite Hrows. split; reflexivity.
    + rewrite !outputs_loop_raises by discriminate. split; reflexivity.
  - rewrite call_loss_three_arguments. split; reflexivity.
Qed.

(** C8 as it stands fails on [LovaszHingeLoss]: its [forward] has two
    parameters, none of them [weights], and a call with three arguments
    is refused for the argument too many. *)
Lemma lovasz_forward_takes_two :
  map pname (forward_params (V := main.value Concrete.tensor) LovaszHingeLoss_cls)
    = ["input"; "target"] /\
  main.call_loss (main.Loss LovaszHingeLoss_cls (fun _ => Ok 0%Q))
    [main.Tensor (Concrete.image 1); main.Tensor (Concrete.image 1);
     main.Shape ([768], [1024])]
    = Raise (TooManyPositional "forward" 2 3) /\
  main.call_loss (main.Loss LovaszHingeLoss_cls (fun _ => Ok 0%Q))
    [main.Tensor (Concrete.image 1); main.Tensor (Concrete.image 1);
     main.Shape ([768], [1024])]
    <> Raise (MissingPositional "forward" ["weights"]).
Proof. repeat split; try reflexivity. discriminate. Qed.

(** ** The configuration *)

(** An option that [read_options] accepts is one of the declared
    arguments, stored under its own name. *)
Lemma find_argument_dest (args : list main.argument) (name : string) (a : main.argument) :
  main.find_argument args name = Some a -> main.dest a = name /\ In a args.
Proof.
  unfold main.find_argument. intros Hf.
  apply find_some in Hf as [Hin Heq].
  apply String.eqb_eq in Heq. auto.
Qed.

(** Reading the command line defines no key beyond those the namespace
    starts with and the declared arguments. *)
Lemma read_options_undefined (args : list main.argument) (key : string) :
  ~ In key (map main.dest args) ->
  forall (argv : list (string * pyval)) (ns config : gmap string pyval),
    ns !! key = None ->
    main.read_options args argv ns = Ok config ->
    config !! key = None.
Proof.
  intros Hkey argv. induction argv as [|[name v] argv IH]; intros ns config Hns; cbn.
  - intros [= <-]. exact Hns.
  - destruct (main.find_argument args name) as [a|] eqn:Hf; [| discriminate].
    destruct (main.has_type (main.type_ a) v && main.choice_ok a v); [| discriminate].
    apply IH. rewrite lookup_insert_ne; [exact Hns |].
    apply find_argument_dest in Hf as [Hd Hin]. intros Heq.
    apply Hkey, in_map_iff. exists a. auto.
Qed.

(** It removes no key. *)
Lemma read_options_defined (args : list main.argument) (key : string)
    (argv : list (string * pyval)) :
  forall ns config : gmap string pyval,
    is_Some (ns !! key) ->
    main.read_options args argv ns = Ok config ->
    is_Some (config !! key).
Proof.
  induction argv as [|[name v] argv IH]; intros ns config Hns; cbn.
  - intros [= <-]. exact Hns.
  - destruct (main.find_argument args name) as [a|]; [| discriminate].
    destruct (main.has_type (main.type_ a) v && main.choice_ok a v); [| discriminate].
    apply IH. rewrite lookup_insert. case_decide; [eauto | exact Hns].
Qed.

(** A key that holds a text under an argument of type [str] keeps
    holding a text. *)
Lemma read_options_text (args : list main.argument) (key : string) :
  (forall a, In a args -> main.dest a = key -> main.type_ a = main.type_str) ->
  forall (argv : list (string * pyval)) (ns config : gmap string pyval),
    (exists s, ns !! key = Some (VStr s)) ->
    main.read_options args argv ns = Ok config ->
    exists s, config !! key = Some (VStr s).
Proof.
  intros Hty argv. induction argv as [|[name v] argv IH]; intros ns config Hns; cbn.
  - intros [= <-]. exact Hns.
  - destruct (main.find_argument args name) as [a|] eqn:Hf; [| discriminate].
    destruct (main.has_type (main.type_ a) v) eqn:Hv; [| discriminate].
    destruct (main.choice_ok a v); [| discriminate]. cbn [andb].
    apply IH. apply find_argument_dest in Hf as [Hd Hin].
    destruct (decide (main.dest a = key)) as [Heq|Hne].
    + rewrite Heq, lookup_insert_eq.
      rewrite (Hty a Hin Heq) in Hv. destruct v; try discriminate. eauto.
    + rewrite lookup_insert_ne by exact Hne. exact Hns.
Qed.

(** C10.  No argument of [parse_args] is stored under [input_channels]
    (the flag [--input_channel_num] is stored under [input_channel_num]),
    so no parsed configuration defines that key; the configuration names
    an architecture [m], and for every [m] other than [ARUNet] the
    construction of the model raises [KeyError]: on
    [config['input_channels']] when the model library has a class [m]
    (and on [m] itself when it has none). *)
Theorem input_channels_undefined `{Outside}
    (argv : list (string * pyval)) (config : gmap string pyval) :
  main.parse_args argv = Ok config ->
  ~ In "input_channels" (map main.dest main.arguments) /\
  In "input_channel_num" (map main.dest main.arguments) /\
  config !! "input_channels" = None /\
  exists m : string,
    config !! "model" = Some (VStr m) /\
    (m <> "ARUNet" ->
     main.create_model config
     = Raise (KeyError (VStr match model__dict__ !! m with
                             | Some _ => "input_channels"
                             | None => m
                             end))).
Proof.
  intros Hparse. unfold main.parse_args in Hparse.
  assert (Hno : ~ In "input_channels" (map main.dest main.arguments)).
  { cbn. intros Hin. repeat (destruct Hin as [Hin|Hin]; [discriminate |]). exact Hin. }
  split; [exact Hno |]. split; [cbn; tauto |].
  assert (Hic : config !! "input_channels" = None).
  { eapply read_options_undefined; [exact Hno | | exact Hparse]. reflexivity. }
  split; [exact Hic |].
  destruct (read_options_text main.arguments "model") with (argv := argv)
    (ns := main.defaults main.arguments) (config := config) as [m Hm].
  - intros a Hin Hd. cbn in Hin.
    repeat (destruct Hin as [<-|Hin]; [first [reflexivity | discriminate Hd] |]).
    destruct Hin.
  - exists "UNetPP". reflexivity.
  - exact Hparse.
  - exists m. split; [exact Hm |]. intros Hne.
    unfold main.create_model, getitem, main.model_class.
    rewrite Hm. cbn [bind eq_str].
    destruct (String.eqb m "ARUNet") eqn:Heq.
    { apply String.eqb_eq in Heq. contradiction. }
    destruct (model__dict__ !! m) as [cls|]; [| reflexivity]. cbn [bind].
    destruct (read_options_defined main.arguments "num_classes" argv
                (main.defaults main.arguments) config) as [nc Hnc];
      [eexists; reflexivity | exact Hparse |].
    rewrite Hnc. cbn [bind]. rewrite Hic. reflexivity.
Qed.

(** The default command line, which selects [UNetPP]. *)
Lemma input_channels_undefined_witness :
  main.parse_args [] = Ok (main.defaults main.arguments) /\
  main.create_model (main.defaults main.arguments)
    = Raise (KeyError (VStr "input_channels")).
Proof.
  split; [reflexivity |].
  destruct (input_channels_undefined [] (main.defaults main.arguments)
              eq_refl) as (_ & _ & _ & m & Hm & Hraise).
  assert (Hmodel : m = "UNetPP") by (vm_compute in Hm; congruence).
  subst m. apply (Hraise ltac:(discriminate)).
Defined.

(** ** The sample identifiers *)

(** A list comprehension over a list that is not empty raises what its
    first element raises. *)
Lemma comprehension_raises {A B : Type} (f : A -> result B) (a : A) (l : list A) (e : exn) :
  f a = Raise e -> main.comprehension f (a :: l) = Raise e.
Proof. intros Hf. cbn. rewrite Hf. reflexivity. Qed.

(** [os.path] has no attribute of the name the source uses. *)
Lemma stem_by_splittext (p : string) :
  main.stem_by "splittext" p = Raise (AttributeError "os.path" "splittext").
Proof. reflexivity. Qed.

(** C7, as the code runs.  Lines 190-191 ask [os.path] for [splittext],
    which the module does not have: whenever the pattern matches a path
    the comprehension raises [AttributeError], for the training split and
    for the validation split, and no identifier set is computed.  On the
    files of the example of the specification, under the root [data]:
    the three files are matched and the lines raise; with [splitext], the
    function of the module, the same lines give [{p001, p002}]. *)
Theorem img_ids_raise_attribute_error :
  (forall (fs : list string) (config : gmap string pyval) (root split : string),
      config !! "dataset" = Some (VStr root) ->
      main.glob fs (fold_left main.join2 [split; "*"; "*"] root) <> [] ->
      main.img_ids_by "splittext" fs config split
      = Raise (AttributeError "os.path" "splittext")) /\
  main.glob Concrete.files "data/train/*/*" = Concrete.files /\
  main.train_img_ids Concrete.files {[ "dataset" := VStr "data" ]}
    = Raise (AttributeError "os.path" "splittext") /\
  main.img_ids_by "splitext" Concrete.files {[ "dataset" := VStr "data" ]} "train"
    = Ok {[ "p001"; "p002" ]}.
Proof.
  split.
  - intros fs config root split Hroot Hglob.
    unfold main.img_ids_by, getitem. rewrite Hroot. cbn [bind].
    change (main.os_path "join") with (Ok (A := main.path_function)
      (fun args => match args with
                   | [] => Raise (MissingPositional "join" ["a"])
                   | a :: rest => Ok (main.Text (fold_left main.join2 rest a))
                   end)).
    cbn [bind main.text_of].
    destruct (main.glob fs (fold_left main.join2 [split; "*"; "*"] root)) as [|p dirs];
      [congruence |].
    rewrite (comprehension_raises _ p dirs _ (stem_by_splittext p)). reflexivity.
  - split; [reflexivity |]. split; [reflexivity |].
    vm_compute. reflexivity.
Qed.

(** ** The combined loss, softmax branch *)

Lemma Qmult_comm_eq (a b : Q) : (a * b = b * a)%Q.
Proof.
  unfold Qmult. f_equal; [apply Z.mul_comm | apply Pos.mul_comm].
Qed.

Section softmax_branch.

Context {T : Type} `{Torch T} (self : BCEDiceLoss.t).
Variables (x target : T) (samples : list (Spec.sample T)).
Hypothesis Hx : rows x = map Spec.prediction samples.
Hypothesis Htarget : rows target = map Spec.truth samples.

Let input_shape : list Z * list Z := (map Spec.height samples, map Spec.width samples).
Let weights : list T := map Spec.weight samples.

(** The body of the loop at sample [i]. *)
Lemma softmax_body_at (i : nat) (smp : Spec.sample T) (s : BCEDiceLoss.sums) :
  samples !! i = Some smp ->
  BCEDiceLoss.softmax_body self x target input_shape weights i s
  = Ok (Continue (Spec.add_sample self s smp)).
Proof.
  intros Hi.
  unfold BCEDiceLoss.softmax_body, item, index, input_shape, weights; cbn [fst snd].
  rewrite Hx, Htarget, !list_lookup_fmap, Hi. reflexivity.
Qed.

(** The loop over the samples from [k] on. *)
Lemma softmax_loop_from (m k : nat) (s : BCEDiceLoss.sums) :
  (k + m <= length samples)%nat ->
  for_each (BCEDiceLoss.softmax_body self x target input_shape weights) (seq k m) s
  = Ok (Continue (fold_left (Spec.add_sample self) (take m (drop k samples)) s)).
Proof.
  revert k s. induction m as [|m IH]; intros k s Hlen; [reflexivity |].
  destruct (lookup_lt_is_Some_2 samples k ltac:(lia)) as [smp Hk].
  cbn [seq for_each]. rewrite (softmax_body_at k smp s Hk).
  rewrite IH by lia. rewrite (drop_S _ _ _ Hk). reflexivity.
Qed.

Lemma softmax_loop (s : BCEDiceLoss.sums) :
  for_each (BCEDiceLoss.softmax_body self x target input_shape weights)
    (range 0 (size0 x)) s
  = Ok (Continue (fold_left (Spec.add_sample self) samples s)).
Proof.
  unfold range, size0. rewrite Hx, length_map, Nat.sub_0_r.
  rewrite softmax_loop_from by lia. rewrite drop_0, firstn_all. reflexivity.
Qed.

End softmax_branch.

(** The four running sums are the four sums of the terms. *)
Lemma fold_add_sample {T : Type} `{Torch T} (self : BCEDiceLoss.t)
    (l : list (Spec.sample T)) (a b c d : Q) :
  fold_left (Spec.add_sample self) l (BCEDiceLoss.Sums a b c d)
  = BCEDiceLoss.Sums
      (fold_left Qplus (map (Spec.bce_term self) l) a)
      (fold_left Qplus (map (Spec.intersection_term self) l) b)
      (fold_left Qplus (map (Spec.prediction_term self) l) c)
      (fold_left Qplus (map (Spec.target_term self) l) d).
Proof.
  revert a b c d. induction l as [|smp l IH]; intros a b c d; [reflexivity |].
  cbn [fold_left map]. unfold Spec.add_sample at 2. cbn. apply IH.
Qed.

(** C4.  With cropping enabled and [softmax] true, on a batch of [n]
    samples [forward] returns [0.5 * bce + (1 - dice) / n], where [bce] is
    the sum (not the mean) over the samples of the weighted binary
    cross-entropy of the cropped, softmaxed prediction against the
    cropped target, and
    [dice = (2 * intersection + smooth) / (sum_prediction + sum_target + smooth)]
    over the totals of all samples, with [smooth = 1e-5].  The division
    by [n] is Python's: it is a number for [n >= 1] and raises for the
    empty batch. *)
Theorem forward_softmax_formula (T : Type) `{Torch T} (self : BCEDiceLoss.t)
    (x target : T) (samples : list (Spec.sample T)) :
  truthy (BCEDiceLoss.crop self) = true ->
  eq_True (BCEDiceLoss.softmax self) = true ->
  rows x = map Spec.prediction samples ->
  rows target = map Spec.truth samples ->
  let n := length samples in
  let bce := Qsum (map (Spec.bce_term self) samples) in
  let intersection := Qsum (map (Spec.intersection_term self) samples) in
  let sum_prediction := Qsum (map (Spec.prediction_term self) samples) in
  let sum_target := Qsum (map (Spec.target_term self) samples) in
  let smooth := (1 # 100000)%Q in
  let dice := ((2 * intersection + smooth) / (sum_prediction + sum_target + smooth))%Q in
  let loss :=
    BCEDiceLoss.forward self x target
      (map Spec.height samples, map Spec.width samples) (map Spec.weight samples) in
  loss = (let* dice_loss := div_int (1 - dice)%Q n in Ok ((1 # 2) * bce + dice_loss)%Q) /\
  (samples <> [] ->
   loss = Ok ((1 # 2) * bce + (1 - dice) / inject_Z (Z.of_nat n))%Q).
Proof.
  intros Hcrop Hsoftmax Hx Htarget n bce intersection sum_prediction sum_target
    smooth dice loss.
  assert (Hloss : loss = (let* dice_loss := div_int (1 - dice)%Q n in
                          Ok ((1 # 2) * bce + dice_loss)%Q)).
  { subst loss. unfold BCEDiceLoss.forward. rewrite Hcrop, Hsoftmax.
    rewrite (softmax_loop self x target samples Hx Htarget). cbn [bind].
    rewrite fold_add_sample.
    unfold BCEDiceLoss.combine, size0. rewrite Hx, length_map.
    cbn [BCEDiceLoss.bce BCEDiceLoss.intersection BCEDiceLoss.sum_x
         BCEDiceLoss.sum_target].
    rewrite (Qmult_comm_eq _ 2).
    destruct (length samples); reflexivity. }
  split; [exact Hloss |].
  intros Hne. rewrite Hloss. subst n.
  destruct samples as [|smp rest]; [congruence | reflexivity].
Qed.

(** An empty batch: the totals are Python numbers and the division by
    [n = 0] raises. *)
Lemma forward_softmax_empty (T : Type) `{Torch T} (self : BCEDiceLoss.t)
    (x target : T) (input_shape : list Z * list Z) (weights : list T) :
  truthy (BCEDiceLoss.crop self) = true ->
  eq_True (BCEDiceLoss.softmax self) = true ->
  rows x = [] ->
  BCEDiceLoss.forward self x target input_shape weights = Raise ZeroDivisionError.
Proof.
  intros Hcrop Hsoftmax Hx.
  unfold BCEDiceLoss.forward, size0. rewrite Hcrop, Hsoftmax, Hx. reflexivity.
Qed.

(** A batch of three samples, each of the full size of the canvas. *)
Lemma forward_softmax_formula_witness :
  let self := BCEDiceLoss.Build_t (VBool true) (VBool false) (VBool true) in
  let x := Concrete.Stack (map Spec.prediction Concrete.batch) in
  let target := Concrete.Stack (map Spec.truth Concrete.batch) in
  (truthy (BCEDiceLoss.crop self) = true /\
   eq_True (BCEDiceLoss.softmax self) = true /\
   Concrete.batch <> []) /\
  BCEDiceLoss.forward self x target
    (map Spec.height Concrete.batch, map Spec.width Concrete.batch)
    (map Spec.weight Concrete.batch)
  = Ok ((1 # 2) * Qsum (map (Spec.bce_term self) Concrete.batch)
        + (1 - (2 * Qsum (map (Spec.intersection_term self) Concrete.batch) + (1 # 100000))
               / (Qsum (map (Spec.prediction_term self) Concrete.batch)
                  + Qsum (map (Spec.target_term self) Concrete.batch) + (1 # 100000)))
          / inject_Z 3)%Q.
Proof.
  intros self x target. split.
  - split; [reflexivity | split; [reflexivity | discriminate]].
  - exact (proj2 (forward_softmax_formula Concrete.tensor self x target Concrete.batch
                    eq_refl eq_refl eq_refl eq_refl) ltac:(discriminate)).
Defined.

(** ** The epoch loop *)

Lemma only_rows_added_refl (s : main.locals) : Spec.only_rows_added s s.
Proof. repeat split. Qed.

Lemma only_rows_added_trans (s1 s2 s3 : main.locals) :
  Spec.only_rows_added s1 s2 -> Spec.only_rows_added s2 s3 ->
  Spec.only_rows_added s1 s3.
Proof.
  intros (B1 & T1 & S1 & W1 & D1) (B2 & T2 & S2 & W2 & D2).
  repeat split; congruence.
Qed.

Lemma new_log_dom :
  dom main.new_log
  =@{gset string} list_to_set ["epoch"; "loss"; "lr"; "iou"; "valid_loss"; "valid_accuracy"].
Proof. unfold main.new_log. rewrite dom_list_to_map_L. reflexivity. Qed.

(** Appending to a column leaves the keys of the log as they are. *)
Lemma append_to_dom (log log' : gmap string (list pyval)) (column : string)
    (value : result pyval) :
  main.append_to log column value = Ok log' ->
  dom log' =@{gset string} dom log.
Proof.
  unfold main.append_to, getitem.
  destruct (log !! column) as [l|] eqn:Hl; [| discriminate]. cbn [bind].
  destruct value as [v|]; [| discriminate]. intros [= <-].
  rewrite dom_insert_L. apply subseteq_union_1_L, singleton_subseteq_l.
  apply elem_of_dom. eauto.
Qed.

(** An append to a column of the log touches nothing but the log, and
    gives it no new column. *)
Lemma append_column_rows (column : string) (value : result pyval) (s : main.locals) :
  Spec.only_rows_added s (fst (main.append_column column value s)).
Proof.
  unfold main.append_column.
  destruct (main.append_to (main.log s) column value) as [log'|] eqn:Happend.
  - repeat split. cbn. apply (append_to_dom _ _ _ _ Happend).
  - apply only_rows_added_refl.
Qed.

(** An append to a column that the log does not have raises, before the
    value is evaluated. *)
Lemma append_column_missing (column : string) (value : result pyval) (s : main.locals) :
  main.log s !! column = None ->
  main.append_column column value s = (s, Raise (KeyError (VStr column))).
Proof.
  intros Hnone. unfold main.append_column, main.append_to, getitem.
  rewrite Hnone. reflexivity.
Qed.

(** An append of a value to a column that the log has. *)
Lemma append_column_ok (column : string) (v : pyval) (s : main.locals) :
  column ∈ dom (main.log s) ->
  exists s', main.append_column column (Ok v) s = (s', Ok tt) /\
             Spec.only_rows_added s s'.
Proof.
  intros Hin. pose proof (append_column_rows column (Ok v) s) as Hrows.
  apply elem_of_dom in Hin as [l Hl].
  unfold main.append_column, main.append_to, getitem in *. rewrite Hl in *.
  cbn [bind fst] in *. eexists. split; [reflexivity | exact Hrows].
Qed.

(** The log that [main] creates has no column [val_loss], and no append
    gives it one. *)
Lemma val_loss_missing (s : main.locals) :
  dom (main.log s) =@{gset string} dom main.new_log ->
  main.log s !! "val_loss" = None.
Proof.
  intros Hdom. apply not_elem_of_dom. rewrite Hdom, new_log_dom.
  rewrite elem_of_list_to_set, list_elem_of_In. cbn. intros Hin.
  repeat (destruct Hin as [Hin|Hin]; [discriminate Hin |]). exact Hin.
Qed.

(** One step of the row of the log: the append either raises, which
    settles the goal, or leaves locals that differ in the rows of the log
    only. *)
Ltac append_step R s' :=
  match goal with
  | |- context [main.append_column ?c ?v ?s] =>
      pose proof (append_column_rows c v s) as R;
      destruct (main.append_column c v s) as [s' [[]|?]]; cbn [fst] in R;
      [| eexists _, _; split; [reflexivity | eauto using only_rows_added_trans]]
  end.

(** The row of an epoch is never completed: lines 254-259 raise, and
    leave the locals as they were but for the rows of the log. *)
Lemma log_row_raises (config : gmap string pyval) (epoch : nat)
    (train_log val_log : gmap string Q) (s : main.locals) :
  dom (main.log s) =@{gset string} dom main.new_log ->
  exists s' e,
    main.log_row config epoch train_log val_log s = (s', Raise e) /\
    Spec.only_rows_added s s'.
Proof.
  intros Hdom. unfold main.log_row, and_then.
  append_step R1 s1. append_step R2 s2. append_step R3 s3. append_step R4 s4.
  assert (R : Spec.only_rows_added s s4) by eauto using only_rows_added_trans.
  rewrite append_column_missing.
  - eexists _, _. split; [reflexivity | exact R].
  - apply val_loss_missing. destruct R as (_ & _ & _ & _ & D). congruence.
Qed.

(** No pass through the body of the loop runs to its end, whatever the
    configuration and the logs of the passes are; it leaves the best
    IoU, the counter and the files as they were. *)
Lemma epoch_body_raises `{Outside} (config : gmap string pyval)
    (passes : nat -> result (gmap string Q * gmap string Q))
    (epoch : nat) (s : main.locals) :
  dom (main.log s) =@{gset string} dom main.new_log ->
  exists s' e,
    main.epoch_body config passes epoch s = (s', Raise e) /\
    Spec.only_rows_added s s'.
Proof.
  intros Hdom. unfold main.epoch_body, value_of. unfold and_then at 1.
  destruct (getitem config "epochs") as [epochs|];
    [| eexists _, _; split; [reflexivity | apply only_rows_added_refl]].
  unfold and_then at 1.
  destruct (passes epoch) as [[train_log val_log]|];
    [| eexists _, _; split; [reflexivity | apply only_rows_added_refl]].
  cbn [fst snd]. unfold and_then at 1.
  destruct (main.scheduler_step config val_log) as [[]|];
    [| eexists _, _; split; [reflexivity | apply only_rows_added_refl]].
  unfold and_then at 1.
  destruct (main.report train_log val_log) as [numbers|];
    [| eexists _, _; split; [reflexivity | apply only_rows_added_refl]].
  unfold and_then at 1.
  destruct (log_row_raises config epoch train_log val_log s Hdom) as (s' & e & -> & R).
  eauto.
Qed.

(** A run of one epoch or more ends in its first epoch, by an
    exception. *)
Lemma run_epochs_raises `{Outside} (config : gmap string pyval)
    (passes : nat -> result (gmap string Q * gmap string Q)) (n : nat) :
  exists s e,
    main.run_epochs config passes (S n) = (s, Raise e) /\
    Spec.only_rows_added main.initial s.
Proof.
  unfold main.run_epochs, range. cbn [Nat.sub seq for_each_action].
  unfold and_then at 1.
  destruct (epoch_body_raises config passes 0 main.initial eq_refl) as (s & e & -> & R).
  eauto.
Qed.

(** The loop of [main], however it ends, has touched nothing but the rows
    of the log. *)
Lemma epoch_loop_rows `{Outside} (config : gmap string pyval)
    (passes : nat -> result (gmap string Q * gmap string Q)) :
  Spec.only_rows_added main.initial (fst (main.epoch_loop config passes)).
Proof.
  unfold main.epoch_loop, value_of. unfold and_then at 1.
  destruct (getitem config "epochs") as [epochs|]; [| apply only_rows_added_refl].
  unfold and_then at 1.
  destruct (main.range_of epochs) as [[|epoch items]|]; try apply only_rows_added_refl.
  cbn [for_each_action]. unfold and_then at 1.
  destruct (epoch_body_raises config passes epoch main.initial eq_refl) as (s & e & -> & R).
  exact R.
Qed.

Lemma Qle_bool_inject_Z (a b : Z) : Qle_bool (inject_Z a) (inject_Z b) = (a <=? b).
Proof. unfold Qle_bool, inject_Z. cbn. rewrite !Z.mul_1_r. reflexivity. Qed.

(** Lines 263-269 taken alone. *)
Lemma epoch_end_checkpoint `{Outside} (config : gmap string pyval) (epoch : nat)
    (val_log : gmap string Q) (v : Q) (name : pyval)
    (state_dict : list pyval -> result model_value) (state : model_value)
    (s : main.locals) :
  val_log !! "iou" = Some v ->
  model__dict__ !! "state_dict" = Some state_dict ->
  state_dict [] = Ok state ->
  config !! "name" = Some name ->
  fst (main.epoch_end config epoch val_log s)
  = if main.Qltb (main.best_iou s) v
    then main.Locals v 0 (main.log s)
           (main.saves s ++ [(epoch, ("models/" ++ main.percent_s name ++ "/model.pth")%string)])
           (main.written s)
    else main.Locals (main.best_iou s) (main.trigger s + 1) (main.log s)
           (main.saves s) (main.written s).
Proof.
  intros Hiou Hattr Hstate Hname.
  unfold main.epoch_end, and_then, assign, value_of, read, ret, getitem, main.model_attr.
  rewrite Hiou. cbn [main.best_iou].
  destruct (main.Qltb (main.best_iou s) v).
  - rewrite Hattr, Hstate, Hname.
    cbn [main.best_iou main.trigger main.log main.saves main.written].
    destruct (config !! "early_stopping") as [es|]; [| reflexivity].
    destruct (main.number es) as [threshold|]; [| reflexivity].
    destruct (Qle_bool 0 threshold); [| reflexivity].
    destruct (Qle_bool threshold _); reflexivity.
  - destruct (config !! "early_stopping") as [es|]; [| reflexivity].
    destruct (main.number es) as [threshold|]; [| reflexivity].
    destruct (Qle_bool 0 threshold); [| reflexivity].
    cbn [main.trigger].
    destruct (Qle_bool threshold _); reflexivity.
Qed.

(** Lines 263-274 taken alone, with a threshold that is not negative. *)
Lemma epoch_end_threshold `{Outside} (config : gmap string pyval) (epoch : nat)
    (val_log : gmap string Q) (v : Q) (name : pyval)
    (state_dict : list pyval -> result model_value) (state : model_value)
    (es : Z) (s : main.locals) :
  val_log !! "iou" = Some v ->
  model__dict__ !! "state_dict" = Some state_dict ->
  state_dict [] = Ok state ->
  config !! "name" = Some name ->
  config !! "early_stopping" = Some (VInt es) ->
  0 <= es ->
  let trigger' := if main.Qltb (main.best_iou s) v then 0 else main.trigger s + 1 in
  main.trigger (fst (main.epoch_end config epoch val_log s)) = trigger' /\
  snd (main.epoch_end config epoch val_log s)
  = Ok (if es <=? trigger' then Break tt else Continue tt).
Proof.
  intros Hiou Hattr Hstate Hname Hes Hnonneg trigger'. subst trigger'.
  assert (Hle : Qle_bool 0 (inject_Z es) = true).
  { change 0%Q with (inject_Z 0). rewrite Qle_bool_inject_Z. apply Z.leb_le, Hnonneg. }
  pose proof (Qle_bool_inject_Z es) as Hcmp.
  unfold main.epoch_end, and_then, assign, value_of, read, ret, getitem, main.model_attr.
  rewrite Hiou. cbn [main.best_iou].
  destruct (main.Qltb (main.best_iou s) v).
  - rewrite Hattr, Hstate, Hname, Hes.
    cbn [main.best_iou main.trigger main.log main.saves main.written main.number].
    rewrite Hle, Hcmp. cbn [main.trigger].
    destruct (es <=? 0); split; reflexivity.
  - rewrite Hes. cbn [main.trigger main.number]. rewrite Hle, Hcmp.
    cbn [main.trigger].
    destruct (es <=? main.trigger s + 1); split; reflexivity.
Qed.

(** C1, as the code runs.  Every pass through the body of the loop
    raises before it reaches lines 263-269: [log] is created with the
    columns [valid_loss] and [valid_accuracy] (lines 231-233), and line
    258 appends to [log['val_loss']], which raises [KeyError] when the
    lines before it have not raised already.  Hence no run writes a
    checkpoint, and [best_iou] keeps its initial value [0], also when the
    validation IoU of the epoch exceeds it: for the loop of [main] on
    every configuration and every pair of logs that the passes may give,
    for a run of any number of epochs, and on the run of the
    specification with the validation IoUs 0.1, 0.3, 0.2, 0.5, 0.4, where
    the first epoch, whose IoU 0.1 exceeds 0, ends in [KeyError] with its
    row half written and nothing saved.  Taken alone, lines 263-269 are
    written as the specification says: run on a validation log that has the key
    [iou], with [model.state_dict()] a call that returns, they save to
    [models/<name>/model.pth] and take the IoU as [best_iou] exactly when
    it strictly exceeds [best_iou] (last part). *)
Theorem no_checkpoint_is_written :
  (forall (O : Outside) (config : gmap string pyval)
          (passes : nat -> result (gmap string Q * gmap string Q)),
     main.saves (fst (main.epoch_loop config passes)) = [] /\
     main.best_iou (fst (main.epoch_loop config passes)) = 0%Q) /\
  (forall (O : Outside) (config : gmap string pyval)
          (passes : nat -> result (gmap string Q * gmap string Q)) (n : nat),
     exists s e,
       main.run_epochs config passes (S n) = (s, Raise e) /\
       main.saves s = [] /\ main.best_iou s = 0%Q) /\
  (Concrete.passes Concrete.ious_five 0
   = Ok (<["loss" := 1%Q]> {[ "iou" := (1 # 10)%Q ]},
         <["loss" := 1%Q]> {[ "iou" := (1 # 10)%Q ]}) /\
   snd (main.epoch_loop Concrete.run_five (Concrete.passes Concrete.ious_five))
   = Raise (KeyError (VStr "val_loss")) /\
   main.saves (fst (main.epoch_loop Concrete.run_five (Concrete.passes Concrete.ious_five)))
   = [] /\
   main.best_iou (fst (main.epoch_loop Concrete.run_five (Concrete.passes Concrete.ious_five)))
   = 0%Q /\
   main.log (fst (main.epoch_loop Concrete.run_five (Concrete.passes Concrete.ious_five)))
     !! "iou" = Some [VFloat (1 # 10)]) /\
  (forall (O : Outside) (config : gmap string pyval) (epoch : nat)
          (val_log : gmap string Q) (v : Q) (name : pyval)
          (state_dict : list pyval -> result model_value) (state : model_value)
          (s : main.locals),
     val_log !! "iou" = Some v ->
     model__dict__ !! "state_dict" = Some state_dict ->
     state_dict [] = Ok state ->
     config !! "name" = Some name ->
     let s' := fst (main.epoch_end config epoch val_log s) in
     main.saves s'
     = (if main.Qltb (main.best_iou s) v
        then main.saves s
             ++ [(epoch, ("models/" ++ main.percent_s name ++ "/model.pth")%string)]
        else main.saves s) /\
     main.best_iou s' = (if main.Qltb (main.best_iou s) v then v else main.best_iou s)).
Proof.
  split; [| split; [| split]].
  - intros O config passes.
    destruct (epoch_loop_rows config passes) as (B & _ & S & _). split; assumption.
  - intros O config passes n.
    destruct (run_epochs_raises config passes n) as (s & e & Hrun & B & _ & S & _).
    exists s, e. split; [exact Hrun |]. split; assumption.
  - split; [reflexivity |]. split; [vm_compute; reflexivity |].
    split; [vm_compute; reflexivity |]. split; vm_compute; reflexivity.
  - intros O config epoch val_log v name state_dict state s Hiou Hattr Hstate Hname s'.
    subst s'.
    rewrite (epoch_end_checkpoint config epoch val_log v name state_dict state s
               Hiou Hattr Hstate Hname).
    destruct (main.Qltb (main.best_iou s) v); split; reflexivity.
Qed.

(** C6, as the code runs.  No pass through the body of the loop reaches
    lines 263-274: it raises at line 258 at the latest (see C1), with
    [trigger] as it was.  So [trigger] is never incremented, the test of
    early stopping is never evaluated, and a run ends in its first epoch
    by an exception, not by the threshold, with no file of the log
    written.  With [early_stopping = 2], ten epochs asked for and the
    validation IoUs 0.5, 0.4, 0.3, the loop ends in epoch 0 by
    [KeyError('val_loss')]: the column [epoch] of the log holds the one
    entry 0, not three, and [trigger] is 0.  Taken alone, lines 263-274
    are written as the specification says: run on a validation log that has the
    key [iou], with [model.state_dict()] a call that returns and a
    threshold [es >= 0] in the configuration, they set [trigger] to one
    more than it was, or to zero on a strict improvement, and break
    exactly when [trigger] has reached [es] (last part). *)
Theorem early_stopping_is_never_tested :
  (forall (O : Outside) (config : gmap string pyval)
          (passes : nat -> result (gmap string Q * gmap string Q))
          (epoch : nat) (s : main.locals),
     dom (main.log s) =@{gset string} dom main.new_log ->
     exists s' e,
       main.epoch_body config passes epoch s = (s', Raise e) /\
       main.trigger s' = main.trigger s /\ main.written s' = main.written s) /\
  (forall (O : Outside) (config : gmap string pyval)
          (passes : nat -> result (gmap string Q * gmap string Q)) (n : nat),
     exists s e,
       main.run_epochs config passes (S n) = (s, Raise e) /\
       main.trigger s = 0 /\ main.written s = []) /\
  (Concrete.run_three !! "early_stopping" = Some (VInt 2) /\
   Concrete.run_three !! "epochs" = Some (VInt 10) /\
   snd (main.epoch_loop Concrete.run_three (Concrete.passes Concrete.ious_three))
   = Raise (KeyError (VStr "val_loss")) /\
   main.log (fst (main.epoch_loop Concrete.run_three (Concrete.passes Concrete.ious_three)))
     !! "epoch" = Some [VInt 0] /\
   main.trigger (fst (main.epoch_loop Concrete.run_three (Concrete.passes Concrete.ious_three)))
   = 0 /\
   main.written (fst (main.epoch_loop Concrete.run_three (Concrete.passes Concrete.ious_three)))
   = []) /\
  (forall (O : Outside) (config : gmap string pyval) (epoch : nat)
          (val_log : gmap string Q) (v : Q) (name : pyval)
          (state_dict : list pyval -> result model_value) (state : model_value)
          (es : Z) (s : main.locals),
     val_log !! "iou" = Some v ->
     model__dict__ !! "state_dict" = Some state_dict ->
     state_dict [] = Ok state ->
     config !! "name" = Some name ->
     config !! "early_stopping" = Some (VInt es) ->
     0 <= es ->
     let trigger' := if main.Qltb (main.best_iou s) v then 0 else main.trigger s + 1 in
     main.trigger (fst (main.epoch_end config epoch val_log s)) = trigger' /\
     snd (main.epoch_end config epoch val_log s)
     = Ok (if es <=? trigger' then Break tt else Continue tt)).
Proof.
  split; [| split; [| split]].
  - intros O config passes epoch s Hdom.
    destruct (epoch_body_raises config passes epoch s Hdom)
      as (s' & e & Hbody & _ & Tr & _ & W & _).
    exists s', e. split; [exact Hbody |]. split; assumption.
  - intros O config passes n.
    destruct (run_epochs_raises config passes n) as (s & e & Hrun & _ & Tr & _ & W & _).
    exists s, e. split; [exact Hrun |]. split; assumption.
  - split; [reflexivity |]. split; [reflexivity |].
    split; [vm_compute; reflexivity |]. split; [vm_compute; reflexivity |].
    split; vm_compute; reflexivity.
  - intros O config epoch val_log v name state_dict state es s.
    apply epoch_end_threshold.
Qed.

(* ===================================================================== *)
(** * Further properties of src/losses.py                                 *)
(* ===================================================================== *)

(** ** Loops over the samples of a batch *)

(** A loop over [range] whose body runs to its end at every index below
    [m] and raises at [m] raises that. *)
Lemma for_each_raises_at {S R : Type} (body : nat -> S -> result (flow S R))
    (m : nat) (e : exn) :
  (forall i s, (i < m)%nat -> exists s', body i s = Ok (Continue s')) ->
  (forall s, body m s = Raise e) ->
  forall (len k : nat) (s : S),
    (k <= m < k + len)%nat -> for_each body (seq k len) s = Raise e.
Proof.
  intros Hbelow Hat len. induction len as [|len IH]; intros k s Hk; [lia |].
  cbn [seq for_each].
  destruct (decide (k = m)) as [->|Hne].
  - rewrite Hat. reflexivity.
  - destruct (Hbelow k s ltac:(lia)) as [s' ->]. apply IH. lia.
Qed.

(** The sum of a list from a start value. *)
Lemma fold_Qplus_cons (l : list Q) (a q : Q) :
  fold_left Qplus (q :: l) a = fold_left Qplus l (a + q)%Q.
Proof. reflexivity. Qed.

(** ** BCEDiceLoss.forward, cropped, without softmax *)

Section logits_branch.

Context {T : Type} `{Torch T} (self : BCEDiceLoss.t).
Variables (x target : T) (samples : list (Spec.sample T)).
Hypothesis Hx : rows x = map Spec.prediction samples.
Hypothesis Htarget : rows target = map Spec.truth samples.

Let input_shape : list Z * list Z := (map Spec.height samples, map Spec.width samples).

Lemma logits_body_at (i : nat) (smp : Spec.sample T) (s : BCEDiceLoss.sums) :
  samples !! i = Some smp ->
  BCEDiceLoss.logits_body self x target input_shape i s
  = Ok (Continue (Forward.add_logits_sample self s smp)).
Proof.
  intros Hi.
  unfold BCEDiceLoss.logits_body, item, index, input_shape; cbn [fst snd].
  rewrite Hx, Htarget, !list_lookup_fmap, Hi. reflexivity.
Qed.

Lemma logits_loop_from (m k : nat) (s : BCEDiceLoss.sums) :
  (k + m <= length samples)%nat ->
  for_each (BCEDiceLoss.logits_body self x target input_shape) (seq k m) s
  = Ok (Continue (fold_left (Forward.add_logits_sample self) (take m (drop k samples)) s)).
Proof.
  revert k s. induction m as [|m IH]; intros k s Hlen; [reflexivity |].
  destruct (lookup_lt_is_Some_2 samples k ltac:(lia)) as [smp Hk].
  cbn [seq for_each]. rewrite (logits_body_at k smp s Hk).
  rewrite IH by lia. rewrite (drop_S _ _ _ Hk). reflexivity.
Qed.

Lemma logits_loop (s : BCEDiceLoss.sums) :
  for_each (BCEDiceLoss.logits_body self x target input_shape) (range 0 (size0 x)) s
  = Ok (Continue (fold_left (Forward.add_logits_sample self) samples s)).
Proof.
  unfold range, size0. rewrite Hx, length_map, Nat.sub_0_r.
  rewrite logits_loop_from by lia. rewrite drop_0, firstn_all. reflexivity.
Qed.

End logits_branch.

Lemma fold_add_logits_sample {T : Type} `{Torch T} (self : BCEDiceLoss.t)
    (l : list (Spec.sample T)) (a b c d : Q) :
  let x_ smp := BCEDiceLoss._crop_single self (Spec.prediction smp)
                  (Spec.height smp, Spec.width smp) in
  fold_left (Forward.add_logits_sample self) l (BCEDiceLoss.Sums a b c d)
  = BCEDiceLoss.Sums
      (fold_left Qplus
         (map (fun smp => F_binary_cross_entropy_with_logits (x_ smp)
                            (Spec.cropped_target self smp)) l) a)
      (fold_left Qplus
         (map (fun smp => sum1 (mul (reshape_row (x_ smp))
                                    (reshape_row (Spec.cropped_target self smp)))) l) b)
      (fold_left Qplus (map (fun smp => sum1 (reshape_row (x_ smp))) l) c)
      (fold_left Qplus (map (Spec.target_term self) l) d).
Proof.
  intros x_. revert a b c d. induction l as [|smp l IH]; intros a b c d; [reflexivity |].
  cbn [fold_left map]. unfold Forward.add_logits_sample at 2. cbn. apply IH.
Qed.

(** X1.  With cropping enabled, [softmax] not true and [crop_batch]
    false, on a batch of [n] samples [forward] returns [0.5 * bce + (1 - dice) / n]:
    [bce] is the sum over the samples of the binary cross-entropy with
    logits of the cropped prediction against the cropped target, without
    weights, and [dice] is computed from the totals of the cropped raw
    predictions (no sigmoid is applied to them) and targets.  The
    argument [weights] is not used: any list, of any length, gives the
    same loss. *)
Theorem forward_logits_formula (T : Type) `{Torch T} (self : BCEDiceLoss.t)
    (x target : T) (samples : list (Spec.sample T)) (weights : list T) :
  truthy (BCEDiceLoss.crop self) = true ->
  eq_True (BCEDiceLoss.softmax self) = false ->
  truthy (BCEDiceLoss.crop_batch self) = false ->
  rows x = map Spec.prediction samples ->
  rows target = map Spec.truth samples ->
  let n := length samples in
  let x_ smp := BCEDiceLoss._crop_single self (Spec.prediction smp)
                  (Spec.height smp, Spec.width smp) in
  let target_ smp := BCEDiceLoss._crop_single self (Spec.truth smp)
                       (Spec.height smp, Spec.width smp) in
  let bce := Qsum (map (fun smp => F_binary_cross_entropy_with_logits (x_ smp) (target_ smp))
                       samples) in
  let intersection :=
    Qsum (map (fun smp => sum1 (mul (reshape_row (x_ smp)) (reshape_row (target_ smp))))
              samples) in
  let sum_prediction := Qsum (map (fun smp => sum1 (reshape_row (x_ smp))) samples) in
  let sum_target := Qsum (map (fun smp => sum1 (reshape_row (target_ smp))) samples) in
  let dice := ((intersection * 2 + (1 # 100000)) / (sum_prediction + sum_target + (1 # 100000)))%Q in
  BCEDiceLoss.forward self x target
    (map Spec.height samples, map Spec.width samples) weights
  = (let* dice_loss := div_int (1 - dice)%Q n in Ok ((1 # 2) * bce + dice_loss)%Q).
Proof.
  intros Hcrop Hsoftmax Hbatch Hx Htarget n x_ target_ bce intersection
    sum_prediction sum_target dice.
  unfold BCEDiceLoss.forward. rewrite Hcrop, Hsoftmax, Hbatch.
  rewrite (logits_loop self x target samples Hx Htarget). cbn [bind].
  rewrite fold_add_logits_sample.
  unfold BCEDiceLoss.combine, size0. rewrite Hx, length_map.
  cbn [BCEDiceLoss.bce BCEDiceLoss.intersection BCEDiceLoss.sum_x BCEDiceLoss.sum_target].
  fold n. destruct n; reflexivity.
Qed.

(** Three samples of the full size; the weights are left out. *)
Lemma forward_logits_formula_witness :
  let self := BCEDiceLoss.Build_t (VBool true) (VBool false) (VBool false) in
  let x := Concrete.Stack (map Spec.prediction Concrete.batch) in
  let target := Concrete.Stack (map Spec.truth Concrete.batch) in
  exists loss : Q,
    BCEDiceLoss.forward self x target
      (map Spec.height Concrete.batch, map Spec.width Concrete.batch) [] = Ok loss.
Proof.
  intros self x target.
  assert (Hx : rows x = map Spec.prediction Concrete.batch) by reflexivity.
  assert (Ht : rows target = map Spec.truth Concrete.batch) by reflexivity.
  rewrite (forward_logits_formula Concrete.tensor self x target Concrete.batch []
             eq_refl eq_refl eq_refl Hx Ht).
  eexists. reflexivity.
Defined.

(** ** BCEDiceLoss.forward: batches whose lists are too short *)

(** X2.  In the softmax branch every pass reads [x[i]], [input_shape[0][i]],
    [input_shape[1][i]], [target[i]] and [weights[i]].  When the target,
    one of the two lists of [input_shape], or [weights] has fewer entries
    than the batch has samples, [forward] raises [IndexError]; it returns
    no loss computed from the samples that were complete. *)
Theorem forward_softmax_short_lists (T : Type) `{Torch T} (self : BCEDiceLoss.t)
    (x target : T) (hs ws : list Z) (weights : list T) :
  truthy (BCEDiceLoss.crop self) = true ->
  eq_True (BCEDiceLoss.softmax self) = true ->
  (length (rows target) < length (rows x) \/ length hs < length (rows x) \/
   length ws < length (rows x) \/ length weights < length (rows x))%nat ->
  BCEDiceLoss.forward self x target (hs, ws) weights = Raise IndexError.
Proof.
  intros Hcrop Hsoftmax Hshort.
  set (m := Nat.min (Nat.min (length (rows target)) (length hs))
                    (Nat.min (length ws) (length weights))).
  assert (Hm : (m < length (rows x))%nat) by lia.
  unfold BCEDiceLoss.forward. rewrite Hcrop, Hsoftmax.
  unfold range, size0. rewrite Nat.sub_0_r.
  rewrite (for_each_raises_at _ m IndexError); [reflexivity | | | lia].
  - intros i s Hi.
    destruct (lookup_lt_is_Some_2 (rows x) i ltac:(lia)) as [x_i Hxi].
    destruct (lookup_lt_is_Some_2 (rows target) i ltac:(lia)) as [t_i Hti].
    destruct (lookup_lt_is_Some_2 hs i ltac:(lia)) as [h Hh].
    destruct (lookup_lt_is_Some_2 ws i ltac:(lia)) as [w Hw].
    destruct (lookup_lt_is_Some_2 weights i ltac:(lia)) as [wt Hwt].
    unfold BCEDiceLoss.softmax_body, item, index; cbn [fst snd].
    rewrite Hxi, Hti, Hh, Hw, Hwt. cbn [bind]. eexists. reflexivity.
  - intros s.
    destruct (lookup_lt_is_Some_2 (rows x) m Hm) as [x_m Hxm].
    unfold BCEDiceLoss.softmax_body, item, index; cbn [fst snd].
    rewrite Hxm. cbn [bind].
    destruct (hs !! m) as [h|] eqn:Hh; [| reflexivity].
    destruct (ws !! m) as [w|] eqn:Hw; [| reflexivity].
    destruct (rows target !! m) as [t_m|] eqn:Ht; [| reflexivity].
    destruct (weights !! m) as [wt|] eqn:Hwt; [| reflexivity].
    apply lookup_lt_Some in Hh, Hw, Ht, Hwt. lia.
Qed.

(** Three samples, two weights. *)
Lemma forward_softmax_short_lists_witness :
  let self := BCEDiceLoss.Build_t (VBool true) (VBool false) (VBool true) in
  let x := Concrete.Stack (map Spec.prediction Concrete.batch) in
  let target := Concrete.Stack (map Spec.truth Concrete.batch) in
  BCEDiceLoss.forward self x target ([768; 768; 768], [1024; 1024; 1024])
    [Concrete.Scalar 1; Concrete.Scalar 2]
  = Raise IndexError.
Proof.
  intros self x target.
  apply (forward_softmax_short_lists Concrete.tensor self x target); try reflexivity.
  right. right. right. cbn. lia.
Defined.

(** ** BCEDiceLoss.forward with crop_batch *)

(** X3.  With cropping and [crop_batch] enabled and [softmax] not true,
    [forward] gives no loss, whatever the batch is: it calls
    [_crop_batch] on the prediction (line 115), whose first line
    subscripts the method [size] and raises [TypeError]. *)
Theorem forward_crop_batch_raises (T : Type) `{Torch T} (self : BCEDiceLoss.t)
    (x target : T) (input_shape : list Z * list Z) (weights : list T) :
  truthy (BCEDiceLoss.crop self) = true ->
  eq_True (BCEDiceLoss.softmax self) = false ->
  truthy (BCEDiceLoss.crop_batch self) = true ->
  BCEDiceLoss.forward self x target input_shape weights
  = Raise (NotSubscriptable "builtin_function_or_method").
Proof.
  intros Hcrop Hsoftmax Hbatch. unfold BCEDiceLoss.forward.
  rewrite Hcrop, Hsoftmax, Hbatch. reflexivity.
Qed.

(** The batch of three samples. *)
Lemma forward_crop_batch_raises_witness :
  BCEDiceLoss.forward (BCEDiceLoss.Build_t (VBool true) (VBool true) (VBool false))
    (Concrete.Stack (map Spec.prediction Concrete.batch))
    (Concrete.Stack (map Spec.truth Concrete.batch))
    ([768; 768; 768], [1024; 1024; 1024]) []
  = Raise (NotSubscriptable "builtin_function_or_method").
Proof.
  apply (forward_crop_batch_raises Concrete.tensor); reflexivity.
Defined.

(** ** BCELoss.forward *)


Lemma fold_Qplus_map {A : Type} (f : A -> Q) (l : list A) (a : Q) :
  fold_left (fun acc s => (acc + f s)%Q) l a = fold_left Qplus (map f l) a.
Proof. revert a. induction l as [|s l IH]; intros a; [reflexivity | apply IH]. Qed.

Section bce_loop.

Context {T : Type} `{Torch T} `{TorchMore T} (self : BCELoss.t).
Variables (predict target : T) (samples : list (Spec.sample T)) (weights : list T).
Hypothesis Hpredict : rows predict = map Spec.prediction samples.
Hypothesis Htarget : rows target = map Spec.truth samples.

Let input_shape : list Z * list Z := (map Spec.height samples, map Spec.width samples).

(** The body of the loop at sample [i], with the weight at [i]. *)
Lemma BCELoss_body_at (i : nat) (smp : Spec.sample T) (wt : T) (loss : Q) :
  samples !! i = Some smp ->
  weights !! i = Some wt ->
  Forward.BCELoss_body self predict target input_shape weights i loss
  = Ok (Continue (loss + Forward.BCELoss_term self (Forward.with_weight smp wt))%Q).
Proof.
  intros Hi Hw.
  unfold Forward.BCELoss_body, Forward.BCELoss_term, item, index, input_shape;
    cbn [fst snd].
  rewrite Hpredict, Htarget, !list_lookup_fmap, Hi, Hw. cbn [fmap option_fmap option_map bind].
  destruct (eq_True (BCELoss.softmax self)); cbn [bind]; [reflexivity |].
  destruct (Forward.True_or_text (BCELoss.sigmoid self)); reflexivity.
Qed.

(** The body at the first index that has no weight. *)
Lemma BCELoss_body_no_weight (i : nat) (loss : Q) :
  (i < length samples)%nat ->
  weights !! i = None ->
  Forward.BCELoss_body self predict target input_shape weights i loss = Raise IndexError.
Proof.
  intros Hi Hw. destruct (lookup_lt_is_Some_2 samples i Hi) as [smp Hs].
  unfold Forward.BCELoss_body, item, index, input_shape; cbn [fst snd].
  rewrite Hpredict, Htarget, !list_lookup_fmap, Hs, Hw. cbn [fmap option_fmap option_map bind].
  destruct (eq_True (BCELoss.softmax self)); reflexivity.
Qed.

Lemma BCELoss_loop_from (m k : nat) (loss : Q) :
  (k + m <= length samples)%nat ->
  (length samples <= length weights)%nat ->
  for_each (Forward.BCELoss_body self predict target input_shape weights) (seq k m) loss
  = Ok (Continue
          (fold_left (fun acc s => (acc + Forward.BCELoss_term self s)%Q)
             (take m (drop k (zip_with Forward.with_weight samples weights))) loss)).
Proof.
  intros Hk Hlen. revert k loss Hk.
  induction m as [|m IH]; intros k loss Hk; [reflexivity |].
  destruct (lookup_lt_is_Some_2 samples k ltac:(lia)) as [smp Hs].
  destruct (lookup_lt_is_Some_2 weights k ltac:(lia)) as [wt Hw].
  cbn [seq for_each]. rewrite (BCELoss_body_at k smp wt loss Hs Hw).
  rewrite IH by lia.
  assert (Hz : zip_with Forward.with_weight samples weights !! k = Some (Forward.with_weight smp wt)).
  { rewrite lookup_zip_with, Hs, Hw. reflexivity. }
  rewrite (drop_S _ _ _ Hz). reflexivity.
Qed.

Lemma BCELoss_loop (loss : Q) :
  (length samples <= length weights)%nat ->
  for_each (Forward.BCELoss_body self predict target input_shape weights)
    (range 0 (size0 predict)) loss
  = Ok (Continue
          (fold_left Qplus
             (map (Forward.BCELoss_term self) (zip_with Forward.with_weight samples weights)) loss)).
Proof.
  intros Hlen. unfold range, size0. rewrite Hpredict, length_map, Nat.sub_0_r.
  rewrite BCELoss_loop_from by lia. rewrite drop_0, fold_Qplus_map.
  rewrite firstn_all2; [reflexivity |].
  rewrite length_zip_with. lia.
Qed.

(** A list of weights shorter than the batch. *)
Lemma BCELoss_loop_short (loss : Q) :
  (length weights < length samples)%nat ->
  for_each (Forward.BCELoss_body self predict target input_shape weights)
    (range 0 (size0 predict)) loss
  = Raise IndexError.
Proof.
  intros Hlen. unfold range, size0. rewrite Hpredict, length_map, Nat.sub_0_r.
  apply (for_each_raises_at _ (length weights) IndexError); [| | lia].
  - intros i s Hi.
    destruct (lookup_lt_is_Some_2 samples i ltac:(lia)) as [smp Hs].
    destruct (lookup_lt_is_Some_2 weights i Hi) as [wt Hw].
    rewrite (BCELoss_body_at i smp wt s Hs Hw). eexists. reflexivity.
  - intros s. apply BCELoss_body_no_weight; [lia |].
    apply lookup_ge_None. lia.
Qed.

End bce_loop.



(** X5.  In the cropped loop with [softmax] not true and [sigmoid] enabled the
    loss is computed without the weights, yet line 35 reads [weights[i]]
    in every pass: any list of weights with at least one entry per sample
    gives the same loss, and a shorter list raises [IndexError]. *)
Theorem BCELoss_sigmoid_weights (T : Type) `{Torch T} `{TorchMore T} (self : BCELoss.t)
    (predict target : T) (samples : list (Spec.sample T)) (weights : list T) :
  Forward.True_or_text (BCELoss.crop self) = true ->
  eq_True (BCELoss.softmax self) = false ->
  Forward.True_or_text (BCELoss.sigmoid self) = true ->
  rows predict = map Spec.prediction samples ->
  rows target = map Spec.truth samples ->
  Forward.BCELoss_forward self predict target
    (map Spec.height samples, map Spec.width samples) weights
  = if (length samples <=? length weights)%nat
    then Ok (Qsum (map (fun smp =>
                          F_binary_cross_entropy2
                            (BCELoss._crop self (Spec.prediction smp)
                               (Spec.height smp, Spec.width smp))
                            (BCELoss._crop self (Spec.truth smp)
                               (Spec.height smp, Spec.width smp)))
                       samples))
    else Raise IndexError.
Proof.
  intros Hcrop Hsoftmax Hsigmoid Hp Ht. unfold Forward.BCELoss_forward. rewrite Hcrop.
  destruct (Nat.leb_spec (length samples) (length weights)) as [Hle|Hlt].
  - rewrite (BCELoss_loop self predict target samples weights Hp Ht) by exact Hle.
    cbn [bind]. f_equal. unfold Qsum. f_equal.
    clear Hp Ht. revert weights Hle.
    induction samples as [|smp l IH]; intros [|wt ws] Hle; cbn in Hle; try lia;
      [reflexivity | reflexivity |].
    cbn [zip_with map]. f_equal; [| apply IH; lia].
    unfold Forward.BCELoss_term. rewrite Hsoftmax, Hsigmoid. reflexivity.
  - rewrite (BCELoss_loop_short self predict target samples weights Hp Ht) by exact Hlt.
    reflexivity.
Qed.

(** Three samples and a single weight. *)
Lemma BCELoss_sigmoid_weights_witness :
  Forward.BCELoss_forward
    (BCELoss.Build_t (VBool true) (VBool false) (VBool true) (VBool false))
    (Concrete.Stack (map Spec.prediction Concrete.batch))
    (Concrete.Stack (map Spec.truth Concrete.batch))
    (map Spec.height Concrete.batch, map Spec.width Concrete.batch)
    [Concrete.Scalar 1]
  = Raise IndexError.
Proof.
  exact (BCELoss_sigmoid_weights Concrete.tensor
           (BCELoss.Build_t (VBool true) (VBool false) (VBool true) (VBool false))
           (Concrete.Stack (map Spec.prediction Concrete.batch))
           (Concrete.Stack (map Spec.truth Concrete.batch))
           Concrete.batch [Concrete.Scalar 1]
           eq_refl eq_refl eq_refl eq_refl eq_refl).
Defined.

(** ** The flag crop in the two classes *)

(** X6.  [BCELoss.forward] crops when [crop == 'True' or crop == True] (line
    27), [BCEDiceLoss.forward] when [crop] is true as a condition (line
    93).  Every value that makes [BCELoss] crop makes [BCEDiceLoss] crop;
    the converse fails: for the text ['False'], and for every text other
    than ['True'] that is not empty, [BCEDiceLoss] crops and [BCELoss]
    does not. *)
Theorem crop_flag_of_the_two_classes :
  (forall v : pyval, Forward.True_or_text v = true -> truthy v = true) /\
  (forall s : string, s <> "True" -> s <> EmptyString ->
     truthy (VStr s) = true /\ Forward.True_or_text (VStr s) = false) /\
  (forall (T : Type) `{Torch T} `{TorchMore T} (predict target : T)
          (input_shape : list Z * list Z) (weights : list T)
          (crop_batch sigmoid softmax : pyval),
     Forward.BCELoss_forward
       (BCELoss.Build_t (VStr "False") crop_batch sigmoid softmax)
       predict target input_shape weights
     = Forward.BCELoss_forward
         (BCELoss.Build_t (VBool false) crop_batch sigmoid softmax)
         predict target input_shape weights) /\
  (forall (T : Type) `{Torch T} (x target : T)
          (input_shape : list Z * list Z) (weights : list T)
          (crop_batch softmax : pyval),
     BCEDiceLoss.forward (BCEDiceLoss.Build_t (VStr "False") crop_batch softmax)
       x target input_shape weights
     = BCEDiceLoss.forward (BCEDiceLoss.Build_t (VBool true) crop_batch softmax)
         x target input_shape weights).
Proof.
  split; [| split; [| split]].
  - intros v. unfold Forward.True_or_text. destruct v as [|b|z|q|s]; cbn.
    + discriminate.
    + auto.
    + intros Hz. apply Z.eqb_eq in Hz. subst z. reflexivity.
    + intros Hq. apply Qeq_bool_iff in Hq.
      apply negb_true_iff. apply not_true_iff_false. intros H0.
      apply Qeq_bool_iff in H0. rewrite Hq in H0. discriminate H0.
    + rewrite ?orb_false_r. intros Hs. apply String.eqb_eq in Hs. subst s. reflexivity.
  - intros s Hne Hnonempty. split.
    + cbn. apply negb_true_iff, String.eqb_neq. exact Hnonempty.
    + unfold Forward.True_or_text. cbn. rewrite ?orb_false_r.
      apply String.eqb_neq. exact Hne.
  - reflexivity.
  - reflexivity.
Qed.

(** ** LovaszHingeLoss.forward *)

(** X7.  [LovaszHingeLoss.forward] calls [lovasz_hinge], a name that
    [losses.py] neither defines nor imports: with two tensors the method
    raises [NameError], and since a call with any other number of
    arguments is rejected before the body runs, no call of a
    [LovaszHingeLoss] criterion returns a loss. *)
Theorem lovasz_hinge_undefined (T : Type) `{TorchMore T} :
  (forall input target : T,
     Forward.LovaszHingeLoss_forward input target = Raise (NameError "lovasz_hinge")) /\
  (forall input target : T,
     main.call_loss Forward.LovaszHingeLoss [main.Tensor input; main.Tensor target]
     = Raise (NameError "lovasz_hinge")) /\
  (forall args : list (main.value T),
     is_ok (main.call_loss Forward.LovaszHingeLoss args) = false).
Proof.
  split; [reflexivity |]. split; [reflexivity |].
  intros [|a [|b [|c rest]]]; try reflexivity.
  destruct a, b; reflexivity.
Qed.

(* ===================================================================== *)
(** * Further properties of src/Unet_/main.py                             *)
(* ===================================================================== *)

(** ** The parsed configuration *)

(** Case analysis over the fifteen declared arguments: [Hin] says that
    the argument is one of them, [Hd] what its [dest] is. *)
Ltac each_argument Hin Hd :=
  cbn in Hin;
  repeat (destruct Hin as [<-|Hin]; [cbn in Hd; try discriminate Hd |]);
  try contradiction.

(** Reading the command line leaves the set of keys as it was, when
    every declared argument has its key in the namespace. *)
Lemma read_options_dom (args : list main.argument) (argv : list (string * pyval)) :
  forall ns config : gmap string pyval,
    (forall a, In a args -> main.dest a ∈ dom ns) ->
    main.read_options args argv ns = Ok config ->
    dom config =@{gset string} dom ns.
Proof.
  induction argv as [|[name v] argv IH]; intros ns config Hin; cbn.
  - intros [= <-]. reflexivity.
  - destruct (main.find_argument args name) as [a|] eqn:Hf; [| discriminate].
    destruct (main.has_type (main.type_ a) v && main.choice_ok a v); [| discriminate].
    intros Hr. apply find_argument_dest in Hf as [Hd Ha].
    pose proof (Hin a Ha) as Hdest.
    assert (Hin' : forall a', In a' args -> main.dest a' ∈ dom (<[main.dest a := v]> ns)).
    { intros a' Ha'. rewrite dom_insert_L. apply elem_of_union_r, Hin, Ha'. }
    rewrite (IH _ _ Hin' Hr). rewrite dom_insert_L.
    apply subseteq_union_1_L, singleton_subseteq_l, Hdest.
Qed.

Lemma defaults_dom `{Outside} :
  dom (main.defaults main.arguments) =@{gset string} list_to_set (map main.dest main.arguments).
Proof. unfold main.defaults. rewrite dom_list_to_map_L. reflexivity. Qed.

Lemma defaults_lookup `{Outside} (a : main.argument) :
  In a main.arguments ->
  main.defaults main.arguments !! main.dest a = Some (main.default_ a).
Proof.
  intros Hin. cbn in Hin.
  repeat (destruct Hin as [<-|Hin]; [reflexivity |]). destruct Hin.
Qed.

(** The value of an option on a command line that starts with [o]. *)
Lemma given_from (argv : list (string * pyval)) (k : string) (acc : option pyval) :
  fold_left (fun acc o => if String.eqb (fst o) k then Some (snd o) else acc) argv acc
  = match Entry.given argv k with
    | Some v => Some v
    | None => acc
    end.
Proof.
  revert acc. induction argv as [|o argv IH]; intros acc; [reflexivity |].
  unfold Entry.given. cbn [fold_left]. rewrite !IH.
  destruct (Entry.given argv k); [reflexivity |].
  destruct (String.eqb (fst o) k); reflexivity.
Qed.

Lemma given_cons (o : string * pyval) (argv : list (string * pyval)) (k : string) :
  Entry.given (o :: argv) k
  = match Entry.given argv k with
    | Some v => Some v
    | None => if String.eqb (fst o) k then Some (snd o) else None
    end.
Proof. unfold Entry.given at 1. cbn [fold_left]. apply given_from. Qed.

Lemma given_in (argv : list (string * pyval)) (k : string) (v : pyval) :
  Entry.given argv k = Some v -> In (k, v) argv.
Proof.
  induction argv as [|[name w] argv IH]; [discriminate |].
  rewrite given_cons. destruct (Entry.given argv k) as [u|].
  - intros [= ->]. right. apply IH. reflexivity.
  - cbn [fst snd]. destruct (String.eqb_spec name k) as [->|]; [| discriminate].
    intros [= ->]. left. reflexivity.
Qed.

(** Every key holds, after the command line is read, the value of its
    last occurrence there, or what the namespace held. *)
Lemma read_options_lookup (args : list main.argument) (k : string)
    (argv : list (string * pyval)) :
  forall ns config : gmap string pyval,
    main.read_options args argv ns = Ok config ->
    config !! k = match Entry.given argv k with
                  | Some v => Some v
                  | None => ns !! k
                  end.
Proof.
  induction argv as [|[name v] argv IH]; intros ns config; cbn [main.read_options].
  - intros [= <-]. reflexivity.
  - destruct (main.find_argument args name) as [a|] eqn:Hf; [| discriminate].
    destruct (main.has_type (main.type_ a) v && main.choice_ok a v); [| discriminate].
    intros Hr. apply find_argument_dest in Hf as [Hd _]. rewrite Hd in Hr.
    rewrite (IH _ _ Hr), given_cons. cbn [fst snd].
    destruct (Entry.given argv k); [reflexivity |].
    destruct (String.eqb_spec name k) as [->|Hne].
    + apply lookup_insert_eq.
    + apply lookup_insert_ne. exact Hne.
Qed.

(** The command lines that are read to their end. *)
Lemma read_options_accepts `{Outside} (argv : list (string * pyval)) :
  forall ns : gmap string pyval,
    if forallb Entry.accepted argv
    then exists config, main.read_options main.arguments argv ns = Ok config
    else main.read_options main.arguments argv ns = Raise (SystemExit 2).
Proof.
  induction argv as [|[name v] argv IH]; intros ns; cbn [forallb main.read_options].
  - eexists. reflexivity.
  - unfold Entry.accepted at 1. cbn [fst snd].
    destruct (main.find_argument main.arguments name) as [a|]; [| reflexivity].
    destruct (main.has_type (main.type_ a) v && main.choice_ok a v); [| reflexivity].
    cbn [andb]. apply IH.
Qed.

(** A property of the value under a key that its default has, and that
    every value accepted for the key has, holds after the command line
    is read. *)
Lemma read_options_invariant (args : list main.argument) (key : string)
    (P : pyval -> Prop) :
  (forall a v, In a args -> main.dest a = key ->
     main.has_type (main.type_ a) v = true -> main.choice_ok a v = true -> P v) ->
  forall (argv : list (string * pyval)) (ns config : gmap string pyval),
    (exists v, ns !! key = Some v /\ P v) ->
    main.read_options args argv ns = Ok config ->
    exists v, config !! key = Some v /\ P v.
Proof.
  intros HP argv. induction argv as [|[name v] argv IH]; intros ns config Hns; cbn.
  - intros [= <-]. exact Hns.
  - destruct (main.find_argument args name) as [a|] eqn:Hf; [| discriminate].
    destruct (main.has_type (main.type_ a) v) eqn:Hv; [| discriminate].
    destruct (main.choice_ok a v) eqn:Hc; [| discriminate]. cbn [andb].
    apply IH. apply find_argument_dest in Hf as [Hd Hin].
    destruct (decide (main.dest a = key)) as [Heq|Hne].
    + rewrite Heq, lookup_insert_eq. exists v. split; [reflexivity |]. eauto.
    + rewrite lookup_insert_ne by exact Hne. exact Hns.
Qed.

(** A member of a list of choices. *)
Lemma existsb_eqb_In (s : string) (cs : list string) :
  existsb (String.eqb s) cs = true -> In s cs.
Proof.
  intros Hex. apply existsb_exists in Hex as (c & Hin & Heq).
  apply String.eqb_eq in Heq. subst c. exact Hin.
Qed.

(** X8.  A parsed configuration has exactly the fifteen keys that
    [parse_args] declares.  Of the keys that [main.py] subscripts
    [config] with, nine are declared by no argument, [input_channels],
    [epochs], [factor], [milestones], [gamma], [dataset], [input_shape],
    [batch_size] and [early_stopping]; reading any of them from a parsed
    configuration raises [KeyError].  So the lines that list the files
    of the data set raise on [dataset], and the loop over the epochs
    raises on [epochs] before its first pass. *)
Theorem parsed_configuration_keys `{Outside}
    (argv : list (string * pyval)) (config : gmap string pyval) :
  main.parse_args argv = Ok config ->
  dom config =@{gset string} list_to_set (map main.dest main.arguments) /\
  length (map main.dest main.arguments) = 15%nat /\
  Entry.keys_undeclared
  = ["input_channels"; "epochs"; "factor"; "milestones"; "gamma"; "dataset";
     "input_shape"; "batch_size"; "early_stopping"] /\
  (forall key, In key Entry.keys_undeclared ->
     getitem config key = Raise (KeyError (VStr key))) /\
  (forall fs : list string,
     main.train_img_ids fs config = Raise (KeyError (VStr "dataset")) /\
     main.valid_img_ids fs config = Raise (KeyError (VStr "dataset"))) /\
  (forall passes : nat -> result (gmap string Q * gmap string Q),
     main.epoch_loop config passes = (main.initial, Raise (KeyError (VStr "epochs")))).
Proof.
  intros Hparse. unfold main.parse_args in Hparse.
  assert (Hget : forall key, In key Entry.keys_undeclared ->
            getitem config key = Raise (KeyError (VStr key))).
  { intros key Hkey. unfold getitem.
    change Entry.keys_undeclared with
      ["input_channels"; "epochs"; "factor"; "milestones"; "gamma"; "dataset";
       "input_shape"; "batch_size"; "early_stopping"] in Hkey.
    rewrite (read_options_undefined main.arguments key) with (argv := argv)
      (ns := main.defaults main.arguments) (config := config); [reflexivity | | | exact Hparse].
    - cbn in Hkey. cbn. intros Hin.
      repeat (destruct Hkey as [<-|Hkey];
              [repeat (destruct Hin as [Hin|Hin]; [discriminate Hin |]); exact Hin |]).
      exact Hkey.
    - cbn in Hkey.
      repeat (destruct Hkey as [<-|Hkey]; [reflexivity |]). destruct Hkey. }
  split; [| split; [reflexivity | split; [reflexivity | split; [exact Hget | split]]]].
  - rewrite <- defaults_dom. apply (read_options_dom _ _ _ _) in Hparse; [exact Hparse |].
    intros a Ha. rewrite defaults_dom. apply elem_of_list_to_set, list_elem_of_In.
    apply in_map. exact Ha.
  - intros fs. unfold main.train_img_ids, main.valid_img_ids, main.img_ids_by.
    rewrite (Hget "dataset") by (vm_compute; tauto). split; reflexivity.
  - intros passes. unfold main.epoch_loop, and_then, value_of.
    rewrite (Hget "epochs") by (vm_compute; tauto). reflexivity.
Qed.

(** The default command line: no [epochs]. *)
Lemma parsed_configuration_keys_witness :
  getitem (main.defaults main.arguments) "epochs" = Raise (KeyError (VStr "epochs")).
Proof.
  apply (proj1 (proj2 (proj2 (proj2 (parsed_configuration_keys [] _ eq_refl))))).
  vm_compute. tauto.
Defined.

(** X9.  In a parsed configuration every declared key holds the value
    of the last occurrence of its option on the command line, and its
    default when the option does not occur. *)
Theorem parse_args_last_occurrence `{Outside}
    (argv : list (string * pyval)) (config : gmap string pyval) (a : main.argument) :
  main.parse_args argv = Ok config ->
  In a main.arguments ->
  config !! main.dest a
  = Some (default (main.default_ a) (Entry.given argv (main.dest a))).
Proof.
  intros Hparse Ha. unfold main.parse_args in Hparse.
  rewrite (read_options_lookup _ (main.dest a) _ _ _ Hparse), (defaults_lookup a Ha).
  destruct (Entry.given argv (main.dest a)); reflexivity.
Qed.

(** [--lr 0.5 --patience 3 --lr 0.25]: the second learning rate, the
    patience given, and the default momentum. *)
Lemma parse_args_last_occurrence_witness :
  exists config,
    main.parse_args [("lr", VFloat (1 # 2)); ("patience", VInt 3); ("lr", VFloat (1 # 4))]
    = Ok config /\
    config !! "lr" = Some (VFloat (1 # 4)).
Proof.
  eexists. split; [reflexivity |].
  exact (parse_args_last_occurrence
           [("lr", VFloat (1 # 2)); ("patience", VInt 3); ("lr", VFloat (1 # 4))] _
           (main.Argument "lr" (VFloat (1 # 1000)) main.type_float None)
           eq_refl ltac:(cbn; tauto)).
Defined.

(** Every option of a command line that is read to its end is
    accepted. *)
Lemma parsed_options_accepted `{Outside}
    (argv : list (string * pyval)) (config : gmap string pyval) :
  main.parse_args argv = Ok config ->
  forall o, In o argv -> Entry.accepted o = true.
Proof.
  intros Hparse. unfold main.parse_args in Hparse.
  pose proof (read_options_accepts argv (main.defaults main.arguments)) as Hacc.
  destruct (forallb Entry.accepted argv) eqn:Hall.
  - intros o Ho. rewrite forallb_forall in Hall. apply Hall, Ho.
  - rewrite Hacc in Hparse. discriminate.
Qed.



(** The values under the keys that have choices. *)
Lemma parsed_choice_values `{Outside}
    (argv : list (string * pyval)) (config : gmap string pyval) :
  main.parse_args argv = Ok config ->
  (exists o, config !! "optimizer" = Some (VStr o) /\ In o ["Adam"; "SGD"]) /\
  (exists s, config !! "scheduler" = Some (VStr s) /\
     In s ["ReduceLROnPlateau"; "CosineAnnealingLR"; "MultiStepLR"; "ConstantLR"]) /\
  (exists l, config !! "loss" = Some (VStr l) /\ In l main.LOSS_NAMES) /\
  (exists m, config !! "model" = Some (VStr m) /\ (m = "UNetPP" \/ In m MODEL_NAMES)).
Proof.
  intros Hparse. unfold main.parse_args in Hparse.
  assert (Hkey : forall key (cs : list string) (d : string),
             main.defaults main.arguments !! key = Some (VStr d) ->
             (forall a v, In a main.arguments -> main.dest a = key ->
                main.has_type (main.type_ a) v = true -> main.choice_ok a v = true ->
                exists s, v = VStr s /\ (s = d \/ In s cs)) ->
             exists s, config !! key = Some (VStr s) /\ (s = d \/ In s cs)).
  { intros key cs d Hd Hargs.
    destruct (read_options_invariant main.arguments key
                (fun v => exists s, v = VStr s /\ (s = d \/ In s cs)) Hargs
                argv (main.defaults main.arguments) config) as (v & Hv & s & -> & Hs).
    - exists (VStr d). split; [exact Hd |]. exists d. auto.
    - exact Hparse.
    - exists s. auto. }
  assert (Hchoice : forall (cs : list string) (v : pyval),
             main.choice_ok (main.Argument "" VNone main.type_str (Some cs)) v = true ->
             exists s, v = VStr s /\ In s cs).
  { intros cs v Hc. destruct v; try discriminate Hc.
    eexists. split; [reflexivity |]. apply existsb_eqb_In. exact Hc. }
  split; [| split; [| split]].
  - destruct (Hkey "optimizer" ["Adam"; "SGD"] "Adam" eq_refl) as (s & Hs & Hin).
    { intros a v Hin Hd _ Hc. each_argument Hin Hd.
      destruct (Hchoice _ v Hc) as (s & -> & Hs). eauto. }
    exists s. split; [exact Hs |]. destruct Hin as [->|Hin]; [cbn; tauto | exact Hin].
  - destruct (Hkey "scheduler"
                ["ReduceLROnPlateau"; "CosineAnnealingLR"; "MultiStepLR"; "ConstantLR"]
                "ReduceLROnPlateau" eq_refl) as (s & Hs & Hin).
    { intros a v Hin Hd _ Hc. each_argument Hin Hd.
      destruct (Hchoice _ v Hc) as (s & -> & Hs). eauto. }
    exists s. split; [exact Hs |]. destruct Hin as [->|Hin]; [cbn; tauto | exact Hin].
  - destruct (Hkey "loss" main.LOSS_NAMES "BCEDiceLoss" eq_refl) as (s & Hs & Hin).
    { intros a v Hin Hd _ Hc. each_argument Hin Hd.
      destruct (Hchoice _ v Hc) as (s & -> & Hs). eauto. }
    exists s. split; [exact Hs |]. destruct Hin as [->|Hin]; [cbn; tauto | exact Hin].
  - destruct (Hkey "model" MODEL_NAMES "UNetPP" eq_refl) as (s & Hs & Hin).
    { intros a v Hin Hd _ Hc. each_argument Hin Hd.
      destruct (Hchoice _ v Hc) as (s & -> & Hs). eauto. }
    exists s. split; [exact Hs |]. exact Hin.
Qed.

(** X11.  After parsing, [optimizer] is one of the two optimizers that
    lines 173-176 know, [scheduler] one of the four schedulers of lines
    178-185, [loss] a member of [LOSS_NAMES], and [model] the default
    [UNetPP] or a member of [MODEL_NAMES]: no parsed configuration falls
    through the [if] chains of those lines. *)
Theorem parsed_choices `{Outside}
    (argv : list (string * pyval)) (config : gmap string pyval) :
  main.parse_args argv = Ok config ->
  (exists o, config !! "optimizer" = Some (VStr o) /\ In o ["Adam"; "SGD"]) /\
  (exists s, config !! "scheduler" = Some (VStr s) /\
     In s ["ReduceLROnPlateau"; "CosineAnnealingLR"; "MultiStepLR"; "ConstantLR"]) /\
  (exists l, config !! "loss" = Some (VStr l) /\ In l main.LOSS_NAMES) /\
  (exists m, config !! "model" = Some (VStr m) /\ (m = "UNetPP" \/ In m MODEL_NAMES)).
Proof. apply parsed_choice_values. Qed.

(** [--optimizer SGD --scheduler ConstantLR] *)
Lemma parsed_choices_witness :
  exists config,
    main.parse_args [("optimizer", VStr "SGD"); ("scheduler", VStr "ConstantLR")]
    = Ok config /\
    exists o, config !! "optimizer" = Some (VStr o) /\ In o ["Adam"; "SGD"].
Proof.
  eexists. split; [reflexivity |].
  exact (proj1 (parsed_choices
                  [("optimizer", VStr "SGD"); ("scheduler", VStr "ConstantLR")] _ eq_refl)).
Defined.

(** The three keys that the schedulers ask for first are not defined. *)
Lemma parsed_configuration_keys_aux `{Outside}
    (argv : list (string * pyval)) (config : gmap string pyval) :
  main.parse_args argv = Ok config ->
  config !! "epochs" = None /\ config !! "factor" = None /\ config !! "milestones" = None.
Proof.
  intros Hparse. unfold main.parse_args in Hparse.
  assert (Hnone : forall key, ~ In key (map main.dest main.arguments) ->
             config !! key = None).
  { intros key Hkey.
    apply (read_options_undefined main.arguments key Hkey argv
             (main.defaults main.arguments) config); [| exact Hparse].
    apply not_elem_of_dom. rewrite defaults_dom.
    rewrite elem_of_list_to_set, list_elem_of_In. exact Hkey. }
  repeat split; apply Hnone; cbn; intros Hin;
    repeat (destruct Hin as [Hin|Hin]; [discriminate Hin |]); exact Hin.
Qed.

(** The name of a parsed configuration is the one given, or [None]. *)
Lemma parse_args_name `{Outside}
    (argv : list (string * pyval)) (config : gmap string pyval) :
  main.parse_args argv = Ok config ->
  config !! "name" = Some (default VNone (Entry.given argv "name")).
Proof.
  intros Hparse. unfold main.parse_args in Hparse.
  rewrite (read_options_lookup _ "name" _ _ _ Hparse).
  destruct (Entry.given argv "name"); reflexivity.
Qed.

(** ** The start of main *)

(** The values that a parsed configuration holds under the keys read by
    the start of [main]. *)
Lemma parsed_values `{Outside}
    (argv : list (string * pyval)) (config : gmap string pyval) :
  main.parse_args argv = Ok config ->
  (exists lr, config !! "lr" = Some (VFloat lr)) /\
  (exists momentum, config !! "momentum" = Some (VFloat momentum)) /\
  (exists b, config !! "deep_supervision" = Some (VBool b)) /\
  (exists n, config !! "num_classes" = Some (VInt n)) /\
  (exists name, config !! "name" = Some name /\ (name = VNone \/ exists s, name = VStr s)).
Proof.
  intros Hparse. unfold main.parse_args in Hparse.
  assert (Hkey : forall key (P : pyval -> Prop) (d : pyval),
             main.defaults main.arguments !! key = Some d -> P d ->
             (forall a v, In a main.arguments -> main.dest a = key ->
                main.has_type (main.type_ a) v = true -> main.choice_ok a v = true -> P v) ->
             exists v, config !! key = Some v /\ P v).
  { intros key P d Hd HPd Hargs.
    apply (read_options_invariant main.arguments key P Hargs
             argv (main.defaults main.arguments) config); [eauto | exact Hparse]. }
  split; [| split; [| split; [| split]]].
  - destruct (Hkey "lr" (fun v => exists q, v = VFloat q) _ eq_refl) as (v & Hv & q & ->);
      [eauto | | eauto].
    intros a v Hin Hd Ht _. each_argument Hin Hd. destruct v; try discriminate Ht. eauto.
  - destruct (Hkey "momentum" (fun v => exists q, v = VFloat q) _ eq_refl) as (v & Hv & q & ->);
      [eauto | | eauto].
    intros a v Hin Hd Ht _. each_argument Hin Hd. destruct v; try discriminate Ht. eauto.
  - destruct (Hkey "deep_supervision" (fun v => exists b, v = VBool b) _ eq_refl)
      as (v & Hv & b & ->); [eauto | | eauto].
    intros a v Hin Hd Ht _. each_argument Hin Hd. destruct v; try discriminate Ht. eauto.
  - destruct (Hkey "num_classes" (fun v => exists n, v = VInt n) _ eq_refl)
      as (v & Hv & n & ->); [eauto | | eauto].
    intros a v Hin Hd Ht _. each_argument Hin Hd. destruct v; try discriminate Ht. eauto.
  - apply (Hkey "name" (fun v => v = VNone \/ exists s, v = VStr s) _ eq_refl); [auto |].
    intros a v Hin Hd Ht _. each_argument Hin Hd. destruct v; try discriminate Ht. eauto.
Qed.

(** X12.  For every parsed configuration lines 173-176 bind
    [optimizer]: to [Adam] with the learning rate when [--optimizer] is
    [Adam], and else to [SGD] with the learning rate and the momentum.
    The value of [--weight_decay], which [parse_args] declares, has no
    part in it. *)
Theorem optimizer_of_parsed_configuration `{Outside}
    (argv : list (string * pyval)) (config : gmap string pyval) :
  main.parse_args argv = Ok config ->
  (exists (o : string) (lr momentum : pyval),
     config !! "optimizer" = Some (VStr o) /\
     config !! "lr" = Some lr /\ config !! "momentum" = Some momentum /\
     Entry.make_optimizer config
     = Ok (Entry.Bound (if String.eqb o "Adam" then Entry.Adam lr
                        else Entry.SGD lr momentum))) /\
  (forall v : pyval,
     Entry.make_optimizer (<["weight_decay" := v]> config) = Entry.make_optimizer config).
Proof.
  intros Hparse. split.
  - destruct (parsed_choice_values argv config Hparse) as ((o & Ho & Hin) & _).
    destruct (parsed_values argv config Hparse) as ((lr & Hlr) & (m & Hm) & _).
    exists o, (VFloat lr), (VFloat m). split; [exact Ho |].
    split; [exact Hlr |]. split; [exact Hm |].
    unfold Entry.make_optimizer, getitem. rewrite Ho, Hlr, Hm. cbn [bind eq_str].
    destruct Hin as [<-|[<-|[]]]; reflexivity.
  - intros v. unfold Entry.make_optimizer, getitem.
    rewrite !lookup_insert_ne by discriminate. reflexivity.
Qed.

(** [--optimizer SGD]: the momentum is the default, 0.09. *)
Lemma optimizer_of_parsed_configuration_witness :
  exists config,
    main.parse_args [("optimizer", VStr "SGD")] = Ok config /\
    Entry.make_optimizer config
    = Ok (Entry.Bound (Entry.SGD (VFloat (1 # 1000)) (VFloat (9 # 100)))).
Proof.
  eexists. split; [reflexivity |].
  destruct (proj1 (optimizer_of_parsed_configuration [("optimizer", VStr "SGD")] _ eq_refl))
    as (o & lr & momentum & Ho & Hlr & Hm & Hopt).
  rewrite Hopt.
  assert (o = "SGD") as -> by (vm_compute in Ho; congruence).
  assert (lr = VFloat (1 # 1000)) as -> by (vm_compute in Hlr; congruence).
  assert (momentum = VFloat (9 # 100)) as -> by (vm_compute in Hm; congruence).
  reflexivity.
Defined.

(** X13.  For every parsed configuration, lines 178-185 build a
    scheduler only for [ConstantLR] (which is [None]).  Each other
    scheduler reads a key that no argument declares, and raises
    [KeyError]: [epochs] for [CosineAnnealingLR], [factor] for
    [ReduceLROnPlateau], the default, and [milestones] for
    [MultiStepLR]. *)
Theorem scheduler_of_parsed_configuration `{Outside} `{Builtins}
    (argv : list (string * pyval)) (config : gmap string pyval)
    (optimizer : Entry.optimizer) :
  main.parse_args argv = Ok config ->
  exists s : string,
    config !! "scheduler" = Some (VStr s) /\
    Entry.make_scheduler (Entry.Bound optimizer) config
    = if String.eqb s "ConstantLR" then Ok (Entry.Bound None)
      else Raise (KeyError (VStr (Entry.first_key s))).
Proof.
  intros Hparse.
  destruct (parsed_choice_values argv config Hparse) as (_ & (s & Hs & Hin) & _).
  destruct (parsed_configuration_keys_aux argv config Hparse) as (He & Hf & Hm).
  exists s. split; [exact Hs |].
  unfold Entry.make_scheduler, getitem. rewrite Hs. cbn [bind eq_str].
  destruct Hin as [<-|[<-|[<-|[<-|[]]]]]; cbn.
  - rewrite Hf. reflexivity.
  - rewrite He. reflexivity.
  - rewrite Hm. reflexivity.
  - reflexivity.
Qed.

(** The default command line selects [ReduceLROnPlateau]. *)
Lemma scheduler_of_parsed_configuration_witness :
  Entry.make_scheduler (Entry.Bound (Entry.Adam (VFloat (1 # 1000))))
    (main.defaults main.arguments)
  = Raise (KeyError (VStr "factor")).
Proof.
  destruct (scheduler_of_parsed_configuration [] (main.defaults main.arguments)
              (Entry.Adam (VFloat (1 # 1000))) eq_refl) as (s & Hs & Hsched).
  rewrite Hsched.
  assert (s = "ReduceLROnPlateau") as -> by (vm_compute in Hs; congruence).
  reflexivity.
Defined.

(** The name of the run of a parsed configuration. *)
Lemma set_name_parsed `{Outside} (now : string)
    (argv : list (string * pyval)) (config : gmap string pyval) :
  main.parse_args argv = Ok config ->
  exists text : string,
    Entry.set_name now config = Ok (<["name" := VStr text]> config) /\
    match Entry.given argv "name" with
    | Some v => v = VStr text
    | None =>
        exists (m : string) (b : bool),
          config !! "model" = Some (VStr m) /\
          config !! "deep_supervision" = Some (VBool b) /\
          text = (m ++ "_" ++ now ++ (if b then "_deepsupervision" else "_normal"))%string
    end.
Proof.
  intros Hparse.
  pose proof (parse_args_name argv config Hparse) as Hname.
  destruct (parsed_choice_values argv config Hparse) as (_ & _ & _ & (m & Hm & _)).
  destruct (parsed_values argv config Hparse) as (_ & _ & (b & Hb) & _).
  destruct (Entry.given argv "name") as [v|] eqn:Hgiven.
  - pose proof (parsed_options_accepted argv config Hparse ("name", v)
                  (given_in _ _ _ Hgiven)) as Hacc.
    unfold Entry.accepted in Hacc. cbn in Hacc.
    destruct v; try discriminate Hacc.
    exists s. split; [| reflexivity].
    unfold Entry.set_name, getitem. rewrite Hname. cbn [bind default].
    rewrite insert_id by exact Hname. reflexivity.
  - exists (m ++ "_" ++ now ++ (if b then "_deepsupervision" else "_normal"))%string.
    split; [| exists m, b; auto].
    unfold Entry.set_name, getitem. rewrite Hname, Hb, Hm. cbn [bind default truthy].
    destruct b; reflexivity.
Qed.

(** X14.  For every parsed configuration lines 151-155 leave a text
    under [name]: the text given with [--name], or else the model name,
    the time and [deepsupervision] or [normal] (by [deep_supervision]),
    joined by underscores.  No other key changes. *)
Theorem run_name `{Outside} (now : string)
    (argv : list (string * pyval)) (config : gmap string pyval) :
  main.parse_args argv = Ok config ->
  exists text : string,
    Entry.set_name now config = Ok (<["name" := VStr text]> config) /\
    match Entry.given argv "name" with
    | Some v => v = VStr text
    | None =>
        exists (m : string) (b : bool),
          config !! "model" = Some (VStr m) /\
          config !! "deep_supervision" = Some (VBool b) /\
          text = (m ++ "_" ++ now ++ (if b then "_deepsupervision" else "_normal"))%string
    end.
Proof. apply set_name_parsed. Qed.

(** The default command line at the time [t]. *)
Lemma run_name_witness :
  Entry.set_name "t" (main.defaults main.arguments)
  = Ok (<["name" := VStr "UNetPP_t_normal"]> (main.defaults main.arguments)).
Proof.
  destruct (run_name "t" [] (main.defaults main.arguments) eq_refl) as (text & Hset & Htext).
  rewrite Hset. cbn in Htext. destruct Htext as (m & b & Hm & Hb & ->).
  assert (m = "UNetPP") as -> by (vm_compute in Hm; congruence).
  assert (b = false) as -> by (vm_compute in Hb; congruence).
  reflexivity.
Defined.

(** X15.  No run of [main] gets beyond line 158.  A command line that
    argparse rejects ends the program before anything is written; for
    every other one, [main] creates the directory [models/<name>] and
    then raises the [TypeError] of the call [BCEDiceLoss()]: the
    configuration is not dumped, no model is created. *)
Theorem main_ends_at_the_criterion `{Outside} (now : string)
    (argv : list (string * pyval)) :
  is_ok (snd (Entry.startup now argv)) = false /\
  (forall e, main.parse_args argv = Raise e -> Entry.startup now argv = ([], Raise e)) /\
  (forall config, main.parse_args argv = Ok config ->
     exists text : string,
       Entry.set_name now config = Ok (<["name" := VStr text]> config) /\
       Entry.startup now argv
       = ([Entry.Makedirs ("models/" ++ text)],
          Raise (MissingPositional "__init__" ["softmax"]))).
Proof.
  assert (Hok : forall config, main.parse_args argv = Ok config ->
            exists text : string,
              Entry.set_name now config = Ok (<["name" := VStr text]> config) /\
              Entry.startup now argv
              = ([Entry.Makedirs ("models/" ++ text)],
                 Raise (MissingPositional "__init__" ["softmax"]))).
  { intros config Hparse.
    destruct (set_name_parsed now argv config Hparse) as (text & Hset & _).
    exists text. split; [exact Hset |].
    unfold Entry.startup, getitem. rewrite Hparse, Hset, lookup_insert_eq. reflexivity. }
  split; [| split; [| exact Hok]].
  - destruct (main.parse_args argv) as [config|e] eqn:Hparse.
    + destruct (Hok config eq_refl) as (text & _ & ->). reflexivity.
    + unfold Entry.startup. rewrite Hparse. reflexivity.
  - intros e Hparse. unfold Entry.startup. rewrite Hparse. reflexivity.
Qed.

(** The default command line at the time [t]. *)
Lemma main_ends_at_the_criterion_witness :
  Entry.startup "t" []
  = ([Entry.Makedirs "models/UNetPP_t_normal"],
     Raise (MissingPositional "__init__" ["softmax"])).
Proof.
  destruct (proj2 (proj2 (main_ends_at_the_criterion "t" [])) _ eq_refl)
    as (text & Hset & Hstart).
  rewrite Hstart.
  apply (f_equal (fun r => match r with
                           | Ok c => c !! "name"
                           | Raise _ => None
                           end)) in Hset.
  vm_compute in Hset. injection Hset as <-. reflexivity.
Defined.

(** X16.  With [--model ARUNet] and a class of that name in the model
    library, lines 165-166 call the class with [num_classes] alone: the
    undeclared key [input_channels] is not read and the construction
    goes through to the call. *)
Theorem create_model_ARUNet `{Outside}
    (argv : list (string * pyval)) (config : gmap string pyval)
    (cls : list pyval -> result model_value) :
  main.parse_args argv = Ok config ->
  config !! "model" = Some (VStr "ARUNet") ->
  model__dict__ !! "ARUNet" = Some cls ->
  exists n : Z,
    config !! "num_classes" = Some (VInt n) /\
    main.create_model config = cls [VInt n].
Proof.
  intros Hparse Hmodel Hcls.
  destruct (parsed_values argv config Hparse) as (_ & _ & _ & (n & Hn) & _).
  exists n. split; [exact Hn |].
  unfold main.create_model, getitem, main.model_class.
  rewrite Hmodel. cbn [bind eq_str String.eqb Ascii.eqb Bool.eqb]. 
  rewrite Hcls. cbn [bind]. rewrite Hn. reflexivity.
Qed.

(** [--model ARUNet --num_classes 2] *)
Lemma create_model_ARUNet_witness :
  exists config,
    main.parse_args [("model", VStr "ARUNet"); ("num_classes", VInt 2)] = Ok config /\
    main.create_model config = Ok ("ARUNet", [VInt 2]).
Proof.
  eexists. split; [reflexivity |].
  edestruct (create_model_ARUNet [("model", VStr "ARUNet"); ("num_classes", VInt 2)])
    as (n & Hn & Hcreate); [reflexivity | reflexivity | reflexivity |].
  rewrite Hcreate.
  assert (n = 2) as -> by (vm_compute in Hn; congruence).
  reflexivity.
Defined.

(** ** The passes of an epoch and the log *)

(** The forward part of a batch in [train] and in [validate] is
    [batch_loss] with the criterion of the library called. *)
Lemma train_batch_batch_loss (T : Type) `{Torch T} `{Metrics T} (net : T -> T)
    (criterion : main.loss T) (config : gmap string pyval)
    (input target : T) (input_shape : list Z * list Z) :
  main.train_batch net criterion config input target input_shape
  = Entry.batch_loss (main.call_loss criterion) net config input target input_shape /\
  main.validate_batch net criterion config input target input_shape
  = Entry.batch_loss (main.call_loss criterion) net config input target input_shape.
Proof. split; reflexivity. Qed.

(** The meters that [train] and [validate] start with. *)
Lemma new_meters_lookup {M : Type} `{Utils M} :
  (Entry.new_meters (M := M)) !! "loss" = Some AverageMeter /\
  (Entry.new_meters (M := M)) !! "JI" = Some AverageMeter /\
  (Entry.new_meters (M := M)) !! "iou" = None.
Proof.
  unfold Entry.new_meters. split; [| split].
  - apply lookup_insert_eq.
  - rewrite lookup_insert_ne by discriminate. apply lookup_insert_eq.
  - rewrite !lookup_insert_ne by discriminate. apply lookup_empty.
Qed.

(** The log that [averages] builds has the keys [loss] and [ji]. *)
Lemma averages_keys {M : Type} `{Utils M} (avg_meters : gmap string M)
    (log : gmap string Q) :
  Entry.averages avg_meters = Ok log ->
  exists l j : Q, log = <["loss" := l]> (<["ji" := j]> ∅).
Proof.
  unfold Entry.averages.
  destruct (getitem avg_meters "loss") as [l|]; [| discriminate].
  destruct (getitem avg_meters "JI") as [j|]; [| discriminate].
  intros [= <-]. eauto.
Qed.

Lemma loss_ji_lookup (l j : Q) :
  let log : gmap string Q := <["loss" := l]> (<["ji" := j]> ∅) in
  log !! "loss" = Some l /\ log !! "ji" = Some j /\ log !! "iou" = None.
Proof.
  cbv zeta. split; [| split].
  - apply lookup_insert_eq.
  - rewrite lookup_insert_ne by discriminate. apply lookup_insert_eq.
  - rewrite !lookup_insert_ne by discriminate. apply lookup_empty.
Qed.

(** One pass of the loop of [validate] never runs to its end. *)
Lemma validate_step_raises {T M : Type} `{Torch T} `{Metrics T} `{Utils M}
    (net : T -> T) (criterion : list (main.value T) -> result Q)
    (config : gmap string pyval) (b : Entry.batch T) (avg_meters : gmap string M) :
  avg_meters !! "iou" = None ->
  is_ok (Entry.validate_step net criterion config b avg_meters) = false.
Proof.
  intros Hiou. destruct b as [[input target] info]. unfold Entry.validate_step.
  destruct (getitem info "input_shape") as [input_shape|]; [| reflexivity]. cbn [bind].
  destruct (Entry.batch_loss criterion net config input target input_shape)
    as [[loss ji]|]; [| reflexivity].
  cbn [bind].
  destruct (Entry.meter_call avg_meters "loss" "update" loss (size0 input))
    as [avg_meters'|] eqn:Hcall; [| reflexivity].
  cbn [bind].
  assert (Hiou' : avg_meters' !! "iou" = None).
  { unfold Entry.meter_call, getitem in Hcall.
    destruct (avg_meters !! "loss") as [m|]; [| discriminate]. cbn [bind] in Hcall.
    destruct (meter_method "update") as [update|]; [| discriminate].
    injection Hcall as <-. rewrite lookup_insert_ne by discriminate. exact Hiou. }
  unfold Entry.meter_call, getitem. rewrite Hiou'. reflexivity.
Qed.

(** X17.  [validate] returns a log only for a loader without batches:
    then the log has the two keys [loss] and [ji], with the averages of
    the fresh meters.  On every loader with a batch it raises, whatever
    the network, the criterion (any callable) and the class
    [AverageMeter] are: when the loss of the first batch is computed and
    the meter of the loss is updated, line 136 subscripts [avg_meters],
    whose keys are [loss] and [JI], with [iou], and raises [KeyError]. *)
Theorem validate_returns_only_without_batches (T M : Type)
    `{Torch T} `{Metrics T} `{Utils M}
    (net : T -> T) (criterion : list (main.value T) -> result Q)
    (config : gmap string pyval) :
  Entry.validate net [] criterion config
  = Ok (<["loss" := avg (AverageMeter (M := M))]>
          (<["ji" := avg (AverageMeter (M := M))]> ∅)) /\
  (forall (b : Entry.batch T) (valid_loader : list (Entry.batch T)),
     is_ok (Entry.validate (M := M) net (b :: valid_loader) criterion config) = false) /\
  (forall (input target : T) (info : gmap string (list Z * list Z))
          (valid_loader : list (Entry.batch T))
          (input_shape : list Z * list Z) (loss ji : Q) (update : M -> Q -> nat -> M),
     info !! "input_shape" = Some input_shape ->
     Entry.batch_loss criterion net config input target input_shape = Ok (loss, ji) ->
     meter_method "update" = Some update ->
     Entry.validate (M := M) net ((input, target, info) :: valid_loader) criterion config
     = Raise (KeyError (VStr "iou"))).
Proof.
  destruct (new_meters_lookup (M := M)) as (Hloss & HJI & Hiou).
  split; [| split].
  - unfold Entry.validate, Entry.averages, getitem. cbn [for_each bind].
    rewrite Hloss, HJI. reflexivity.
  - intros b valid_loader. unfold Entry.validate. cbn [for_each].
    pose proof (validate_step_raises net criterion config b Entry.new_meters Hiou) as Hstep.
    destruct (Entry.validate_step net criterion config b Entry.new_meters);
      [discriminate Hstep | reflexivity].
  - intros input target info valid_loader input_shape loss ji update Hinfo Hbatch Hupdate.
    unfold Entry.validate. cbn [for_each]. unfold Entry.validate_step, getitem at 1.
    rewrite Hinfo. cbn [bind]. rewrite Hbatch. cbn [bind].
    unfold Entry.meter_call, getitem. rewrite Hloss, Hupdate. cbn [bind].
    rewrite lookup_insert_ne by discriminate. rewrite Hiou. reflexivity.
Qed.

(** One batch of two images, a criterion that takes the three
    arguments, and a meter with the method [update]. *)
Lemma validate_returns_only_without_batches_witness :
  Entry.validate (M := Q * nat) (fun t : Concrete.tensor => t) Instances.loader
    Instances.three_argument_loss {[ "deep_supervision" := VBool false ]}
  = Raise (KeyError (VStr "iou")).
Proof.
  eapply (proj2 (proj2 (validate_returns_only_without_batches Concrete.tensor (Q * nat)
                          (fun t => t) Instances.three_argument_loss
                          {[ "deep_supervision" := VBool false ]})));
    reflexivity.
Defined.

(** X18.  Whatever [train] is called with, a log that it returns has
    the keys [loss] and [ji] and no others; the report of lines 251-252
    reads [train_log['iou']] and raises [KeyError], whatever the
    validation log holds. *)
Theorem train_log_has_no_iou (N T M : Type)
    `{Torch T} `{Metrics T} `{Utils M} `{Learner N T}
    (net net' : N) (train_loader : list (Entry.batch T))
    (criterion : list (main.value T) -> result Q)
    (config : gmap string pyval) (train_log : gmap string Q) :
  Entry.train (M := M) net train_loader criterion config = Ok (train_log, net') ->
  dom train_log =@{gset string} {[ "loss"; "ji" ]} /\
  forall val_log : gmap string Q,
    main.report train_log val_log = Raise (KeyError (VStr "iou")).
Proof.
  unfold Entry.train.
  destruct (for_each _ train_loader _) as [r|]; [| discriminate]. cbn [bind].
  destruct r as [[n m]|[n m]|[]].
  - destruct (Entry.averages m) as [log|] eqn:Hlog; [| discriminate].
    intros [= <- <-]. apply averages_keys in Hlog as (l & j & ->).
    destruct (loss_ji_lookup l j) as (Hl & _ & Hi). split.
    + rewrite !dom_insert_L, dom_empty_L. set_solver.
    + intros val_log. unfold main.report, getitem. rewrite Hl, Hi. reflexivity.
  - destruct (Entry.averages m) as [log|] eqn:Hlog; [| discriminate].
    intros [= <- <-]. apply averages_keys in Hlog as (l & j & ->).
    destruct (loss_ji_lookup l j) as (Hl & _ & Hi). split.
    + rewrite !dom_insert_L, dom_empty_L. set_solver.
    + intros val_log. unfold main.report, getitem. rewrite Hl, Hi. reflexivity.
Qed.

(** A training pass over no batch. *)
Lemma train_log_has_no_iou_witness :
  exists train_log : gmap string Q,
    Entry.train (M := Q * nat) (1 : Q) ([] : list (Entry.batch Concrete.tensor))
      Instances.three_argument_loss ∅
    = Ok (train_log, (1 : Q)) /\
    main.report train_log ∅ = Raise (KeyError (VStr "iou")).
Proof.
  eexists. split; [reflexivity |].
  eapply (proj2 (train_log_has_no_iou Q Concrete.tensor (Q * nat) 1%Q 1%Q []
                   Instances.three_argument_loss ∅ _ eq_refl)).
Defined.

(** X19.  A log that [validate] returns has no key [iou]: with it as
    [val_log], the test of line 265, [val_log['iou'] > best_iou], raises
    [KeyError] in whatever epoch it is evaluated, and no checkpoint is
    written. *)
Theorem validation_log_has_no_iou `{Outside} (T M : Type)
    `{Torch T} `{Metrics T} `{Utils M}
    (net : T -> T) (valid_loader : list (Entry.batch T))
    (criterion : list (main.value T) -> result Q)
    (config : gmap string pyval) (val_log : gmap string Q) :
  Entry.validate (M := M) net valid_loader criterion config = Ok val_log ->
  dom val_log =@{gset string} {[ "loss"; "ji" ]} /\
  forall (config' : gmap string pyval) (epoch : nat) (s : main.locals),
    snd (main.epoch_end config' epoch val_log s) = Raise (KeyError (VStr "iou")) /\
    main.saves (fst (main.epoch_end config' epoch val_log s)) = main.saves s.
Proof.
  unfold Entry.validate.
  destruct (for_each _ valid_loader _) as [r|]; [| discriminate]. cbn [bind].
  intros Hlog. apply averages_keys in Hlog as (l & j & ->).
  destruct (loss_ji_lookup l j) as (_ & _ & Hi). split.
  - rewrite !dom_insert_L, dom_empty_L. set_solver.
  - intros config' epoch s. unfold main.epoch_end, and_then, assign, value_of, getitem.
    rewrite Hi. split; reflexivity.
Qed.

(** A validation pass over no batch, and the end of epoch 0. *)
Lemma validation_log_has_no_iou_witness :
  exists val_log : gmap string Q,
    Entry.validate (M := Q * nat) (fun t : Concrete.tensor => t) []
      Instances.three_argument_loss ∅
    = Ok val_log /\
    snd (main.epoch_end Concrete.run_five 0 val_log main.initial)
    = Raise (KeyError (VStr "iou")).
Proof.
  eexists. split; [reflexivity |].
  eapply (proj1 (proj2 (validation_log_has_no_iou Concrete.tensor (Q * nat) (fun t => t) []
                          Instances.three_argument_loss ∅ _ eq_refl) _ _ _)).
Defined.

(** X20.  The log is created with the columns [epoch], [loss], [lr],
    [iou], [valid_loss] and [valid_accuracy], and lines 254-259 append
    to [val_loss] and [val_iou].  On the log as created, and on every
    log with these six columns, the row of an epoch is never completed,
    and what it leaves has the same six columns: when the configuration
    has [lr] and the training log has [loss] and [iou], the four appends
    before it succeed and [log['val_loss']] raises [KeyError]; so line
    261, which writes the file of the log, is not reached. *)
Theorem log_row_never_completes (config : gmap string pyval) (epoch : nat)
    (train_log val_log : gmap string Q) (s : main.locals) :
  dom (main.log s) =@{gset string} dom main.new_log ->
  (exists s' e,
     main.log_row config epoch train_log val_log s = (s', Raise e) /\
     dom (main.log s') =@{gset string} dom main.new_log /\
     main.written s' = main.written s) /\
  (forall (lr : pyval) (loss iou : Q),
     config !! "lr" = Some lr ->
     train_log !! "loss" = Some loss ->
     train_log !! "iou" = Some iou ->
     snd (main.log_row config epoch train_log val_log s)
     = Raise (KeyError (VStr "val_loss"))).
Proof.
  intros Hdom. split.
  - destruct (log_row_raises config epoch train_log val_log s Hdom)
      as (s' & e & Hrow & _ & _ & _ & W & D).
    exists s', e. split; [exact Hrow |]. split; [congruence | exact W].
  - intros lr loss iou Hlr Hloss Hiou.
    assert (Hcolumn : forall (s0 : main.locals) column,
              Spec.only_rows_added s s0 ->
              In column ["epoch"; "lr"; "loss"; "iou"] ->
              column ∈ dom (main.log s0)).
    { intros s0 column (_ & _ & _ & _ & D) Hin. rewrite D, Hdom, new_log_dom.
      rewrite elem_of_list_to_set, list_elem_of_In. cbn in *. tauto. }
    unfold main.log_row, main.float_item, getitem. rewrite Hlr, Hloss, Hiou.
    cbn [bind]. unfold and_then.
    destruct (append_column_ok "epoch" (VInt (Z.of_nat epoch)) s) as (s1 & -> & R1);
      [apply Hcolumn; [apply only_rows_added_refl | cbn; tauto] |].
    destruct (append_column_ok "lr" lr s1) as (s2 & -> & R2);
      [apply Hcolumn; [exact R1 | cbn; tauto] |].
    pose proof (only_rows_added_trans _ _ _ R1 R2) as R12.
    destruct (append_column_ok "loss" (VFloat loss) s2) as (s3 & -> & R3);
      [apply Hcolumn; [exact R12 | cbn; tauto] |].
    pose proof (only_rows_added_trans _ _ _ R12 R3) as R13.
    destruct (append_column_ok "iou" (VFloat iou) s3) as (s4 & -> & R4);
      [apply Hcolumn; [exact R13 | cbn; tauto] |].
    pose proof (only_rows_added_trans _ _ _ R13 R4) as R14.
    rewrite append_column_missing; [reflexivity |].
    apply val_loss_missing. destruct R14 as (_ & _ & _ & _ & D). congruence.
Qed.

(** The first epoch on the log as created. *)
Lemma log_row_never_completes_witness :
  snd (main.log_row {[ "lr" := VFloat (1 # 1000) ]} 0
         (<["loss" := 1%Q]> {[ "iou" := (1 # 2)%Q ]})
         (<["loss" := 1%Q]> {[ "iou" := (1 # 2)%Q ]}) main.initial)
  = Raise (KeyError (VStr "val_loss")).
Proof.
  apply (proj2 (log_row_never_completes {[ "lr" := VFloat (1 # 1000) ]} 0
                  (<["loss" := 1%Q]> {[ "iou" := (1 # 2)%Q ]})
                  (<["loss" := 1%Q]> {[ "iou" := (1 # 2)%Q ]}) main.initial eq_refl)
           (VFloat (1 # 1000)) 1%Q (1 # 2)%Q); reflexivity.
Defined.

(** ** Identifiers of a split without files *)

(** X21.  When the pattern of a split matches no path, lines 187-191
    give the empty set of identifiers: the comprehension has no element
    to evaluate, so the attribute [splittext] that [os.path] does not
    have is never asked for.  The misspelling only shows once data are
    present. *)
Theorem img_ids_of_empty_split (fs : list string) (config : gmap string pyval)
    (root split attr : string) :
  config !! "dataset" = Some (VStr root) ->
  main.glob fs (fold_left main.join2 [split; "*"; "*"] root) = [] ->
  main.img_ids_by attr fs config split = Ok ∅.
Proof.
  intros Hroot Hglob. unfold main.img_ids_by, getitem. rewrite Hroot. cbn [bind].
  change (main.os_path "join") with (Ok (A := main.path_function)
    (fun args => match args with
                 | [] => Raise (MissingPositional "join" ["a"])
                 | a :: rest => Ok (main.Text (fold_left main.join2 rest a))
                 end)).
  cbn [bind main.text_of]. rewrite Hglob. reflexivity.
Qed.

(** The files of the example hold no validation split. *)
Lemma img_ids_of_empty_split_witness :
  main.valid_img_ids Concrete.files {[ "dataset" := VStr "data" ]} = Ok ∅.
Proof.
  apply (img_ids_of_empty_split Concrete.files {[ "dataset" := VStr "data" ]}
           "data" "validation" "splittext"); reflexivity.
Defined.

(** ** The constructors of the losses *)

(** X22.  [BCELoss(...)] accepts up to four positional arguments and
    needs none; [BCEDiceLoss(...)] needs [softmax] and accepts up to
    three.  With [softmax] alone, [BCEDiceLoss] crops sample by sample
    ([crop = True], [crop_batch = False]); [BCELoss()] crops and is in
    softmax mode. *)
Theorem loss_constructor_arguments (args : list pyval) :
  is_ok (Forward.BCELoss___init__ args) = (length args <=? 4)%nat /\
  is_ok (BCEDiceLoss.__init__ args)
  = ((1 <=? length args)%nat && (length args <=? 3)%nat) /\
  (forall softmax crop crop_batch : pyval,
     BCEDiceLoss.__init__ [softmax]
     = Ok (BCEDiceLoss.Build_t (VBool true) (VBool false) softmax) /\
     BCEDiceLoss.__init__ [softmax; crop; crop_batch]
     = Ok (BCEDiceLoss.Build_t crop crop_batch softmax)) /\
  Forward.BCELoss___init__ []
  = Ok (BCELoss.Build_t (VBool true) (VBool false) (VBool false) (VBool true)).
Proof.
  split; [| split; [| split; [intros; split |]]]; try reflexivity.
  - destruct args as [|a [|b [|c [|d [|e rest]]]]]; reflexivity.
  - destruct args as [|a [|b [|c [|d rest]]]]; reflexivity.
Qed.

(** ** The loss of one batch *)

(** The loop over the outputs of a network under deep supervision. *)
Lemma outputs_loop_sum (T : Type) (criterion : list (main.value T) -> result Q)
    (target : T) (input_shape : list Z * list Z) (f : T -> Q) (outputs : list T) :
  (forall output, In output outputs ->
     criterion [main.Tensor output; main.Tensor target; main.Shape input_shape]
     = Ok (f output)) ->
  forall acc : Q,
    for_each (R := Empty_set)
      (fun output loss =>
         let* l := criterion [main.Tensor output; main.Tensor target;
                              main.Shape input_shape] in
         Ok (Continue (loss + l)%Q))
      outputs acc
    = Ok (Continue (fold_left Qplus (map f outputs) acc)).
Proof.
  induction outputs as [|o outputs IH]; intros Hf acc; [reflexivity |].
  cbn [for_each map fold_left]. rewrite (Hf o (or_introl eq_refl)). cbn [bind].
  apply IH. intros output Hin. apply Hf. right. exact Hin.
Qed.

(** X23.  Under deep supervision the loss of a batch, in [train] and
    in [validate], is the mean over the outputs of the network of the
    criterion applied to each output (with the target and the sizes),
    and the score is that of the last output; a network that gives no
    output makes the division by [len(outputs)] raise.  The criterion is
    any callable that accepts the three arguments. *)
Theorem deep_supervision_batch_loss (T : Type) `{Torch T} `{Metrics T}
    (criterion : list (main.value T) -> result Q) (net : T -> T)
    (config : gmap string pyval) (deep_supervision : pyval)
    (input target : T) (input_shape : list Z * list Z) (f : T -> Q) :
  config !! "deep_supervision" = Some deep_supervision ->
  truthy deep_supervision = true ->
  (forall output, In output (rows (net input)) ->
     criterion [main.Tensor output; main.Tensor target; main.Shape input_shape]
     = Ok (f output)) ->
  Entry.batch_loss criterion net config input target input_shape
  = match last (rows (net input)) with
    | None => Raise ZeroDivisionError
    | Some output =>
        Ok ((Qsum (map f (rows (net input)))
             / inject_Z (Z.of_nat (length (rows (net input)))))%Q,
            iou_score output target input_shape)
    end.
Proof.
  intros Hds Htruthy Hf. unfold Entry.batch_loss, getitem. rewrite Hds. cbn [bind].
  rewrite Htruthy. rewrite (outputs_loop_sum T criterion target input_shape f _ Hf).
  cbn [bind]. unfold size0, main.last_item, div_int.
  destruct (rows (net input)) as [|o outputs] eqn:Hrows; [reflexivity |].
  cbn [length bind]. destruct (last (o :: outputs)) as [output|] eqn:Hlast; [reflexivity |].
  apply last_None in Hlast. discriminate Hlast.
Qed.

(** The identity as network on a batch of two images: two outputs. *)
Lemma deep_supervision_batch_loss_witness :
  let input := Concrete.Stack [Concrete.image (1 # 2); Concrete.image (1 # 4)] in
  let target := Concrete.image 1 in
  let f := fun output => F_binary_cross_entropy_with_logits output target in
  Entry.batch_loss Instances.three_argument_loss (fun t => t)
    {[ "deep_supervision" := VBool true ]} input target ([768], [1024])
  = Ok (((f (Concrete.image (1 # 2)) + f (Concrete.image (1 # 4))) / 2)%Q,
        iou_score (Concrete.image (1 # 4)) target ([768], [1024])).
Proof.
  intros input target f.
  assert (Hds : ({[ "deep_supervision" := VBool true ]} : gmap string pyval)
                  !! "deep_supervision" = Some (VBool true)) by reflexivity.
  rewrite (deep_supervision_batch_loss Concrete.tensor Instances.three_argument_loss
             (fun t => t) {[ "deep_supervision" := VBool true ]} (VBool true)
             input target ([768], [1024]) f Hds eq_refl);
    [reflexivity |].
  intros output Hin. reflexivity.
Defined.

(** ** train and the meter of the loss *)

(** X24.  Line 99 of [train] calls [avg_meters['loss'].upadate(...)].
    With a class [AverageMeter] that has no method of that name, [train]
    returns a log only for a loader without batches: on any other it
    raises, and when the loss of the first batch is computed the error
    is the [AttributeError] of line 99, raised after the step of the
    optimizer. *)
Theorem train_stops_at_upadate (N T M : Type)
    `{Torch T} `{Metrics T} `{Utils M} `{Learner N T}
    (net : N) (input target : T) (info : gmap string (list Z * list Z))
    (train_loader : list (Entry.batch T))
    (criterion : list (main.value T) -> result Q) (config : gmap string pyval) :
  meter_method (M := M) "upadate" = None ->
  is_ok (Entry.train (M := M) net ((input, target, info) :: train_loader) criterion config)
  = false /\
  (forall (input_shape : list Z * list Z) (loss ji : Q),
     info !! "input_shape" = Some input_shape ->
     Entry.batch_loss criterion (net_call net) config input target input_shape
     = Ok (loss, ji) ->
     Entry.train (M := M) net ((input, target, info) :: train_loader) criterion config
     = Raise (AttributeError "AverageMeter" "upadate")).
Proof.
  intros Hno. destruct (new_meters_lookup (M := M)) as (Hloss & _ & _).
  assert (Hcall : forall loss n,
            Entry.meter_call (M := M) Entry.new_meters "loss" "upadate" loss n
            = Raise (AttributeError "AverageMeter" "upadate")).
  { intros loss n. unfold Entry.meter_call, getitem. rewrite Hloss, Hno. reflexivity. }
  split.
  - unfold Entry.train. cbn [for_each]. unfold Entry.train_step.
    destruct (getitem info "input_shape") as [input_shape|]; [| reflexivity]. cbn [bind].
    destruct (Entry.batch_loss criterion (net_call net) config input target input_shape)
      as [[loss ji]|]; [| reflexivity].
    cbn [bind]. rewrite Hcall. reflexivity.
  - intros input_shape loss ji Hinfo Hbatch.
    unfold Entry.train. cbn [for_each]. unfold Entry.train_step, getitem at 1.
    rewrite Hinfo. cbn [bind]. rewrite Hbatch. cbn [bind]. rewrite Hcall. reflexivity.
Qed.

(** One batch, a criterion that takes the three arguments, and a meter
    whose only method is [update]. *)
Lemma train_stops_at_upadate_witness :
  Entry.train (M := Q * nat) (1 : Q) Instances.loader
    Instances.three_argument_loss {[ "deep_supervision" := VBool false ]}
  = Raise (AttributeError "AverageMeter" "upadate").
Proof.
  assert (Hno : meter_method (M := Q * nat) "upadate" = None) by reflexivity.
  eapply (proj2 (train_stops_at_upadate Q Concrete.tensor (Q * nat) 1%Q _ _ _ []
                  Instances.three_argument_loss
                  {[ "deep_supervision" := VBool false ]} Hno));
    reflexivity.
Defined.
